(** * Session workflow controller of the data-analysis dashboard

    A shallow embedding of the React front end: the controller of
    [frontend/src/App.js], the upload form, the analysis views and the
    REST wrapper of [frontend/src/services/api.js].

    React state is threaded explicitly: a component is a record of its
    [useState] cells, a setter is a record update, and an event handler is a
    program that runs against the component state, the queue of responses
    the backend will give, and the log of requests issued so far. *)

From Stdlib Require Import String Ascii List ZArith Bool.
From Stdlib Require Import DecimalString DecimalPos Lia.
From Stdlib Require QArith Qabs Lqa.
Import ListNotations.
Open Scope string_scope.

(** ** JavaScript values *)

Module JS.

#[local] Set Warnings "-register-all".
#[local] Unset Elimination Schemes.

(** JSON-shaped values.  Numbers are the integers a double holds exactly
    and prints in full, those of absolute value below 2^53; [NaN] and
    fractions play no part in the code modelled here.  A string lists its
    UTF-16 code units, one character each: the strings modelled are those
    whose code units are below 256. *)
Inductive JsVal : Type :=
| JNull
| JUndefined
| JBool (b : bool)
| JNum (n : Z)
| JStr (s : string)
| JArr (elems : list JsVal)
| JObj (fields : list (string * JsVal)).

#[local] Set Elimination Schemes.

Inductive Exn : Type :=
| TypeError (message : string)
| NetworkError (message : string).

(** [err.message] *)
Definition message (e : Exn) : string :=
  match e with
  | TypeError m => m
  | NetworkError m => m
  end.

(** The completion of an expression: a value, or a thrown exception. *)
Inductive Completion (A : Type) : Type :=
| Normal (a : A)
| Abrupt (e : Exn).
Arguments Normal {A} a.
Arguments Abrupt {A} e.

Definition cbind {A B} (c : Completion A) (k : A -> Completion B)
  : Completion B :=
  match c with
  | Normal a => k a
  | Abrupt e => Abrupt e
  end.

(** ToBoolean: [null], [undefined], [false], [0] and [''] are falsy. *)
Definition truthy (v : JsVal) : bool :=
  match v with
  | JNull | JUndefined => false
  | JBool b => b
  | JNum n => negb (Z.eqb n 0)
  | JStr s => negb (String.eqb s "")
  | JArr _ | JObj _ => true
  end.

(** [a || b] *)
Definition js_or (a b : JsVal) : JsVal := if truthy a then a else b.

(** [v === undefined] *)
Definition is_undefined (v : JsVal) : bool :=
  match v with JUndefined => true | _ => false end.

(** [v === 'lit'] for a string literal *)
Definition strict_eq_str (v : JsVal) (lit : string) : bool :=
  match v with JStr s => String.eqb s lit | _ => false end.

(** [v === 0] *)
Definition strict_eq_zero (v : JsVal) : bool :=
  match v with JNum n => Z.eqb n 0 | _ => false end.

(** [v > 0] for the values a [length] can take *)
Definition gt_zero (v : JsVal) : bool :=
  match v with JNum n => Z.ltb 0 n | _ => false end.

Fixpoint lookup (name : string) (fields : list (string * JsVal))
  : option JsVal :=
  match fields with
  | [] => None
  | (k, v) :: rest => if String.eqb k name then Some v else lookup name rest
  end.

Definition cannot_read (what : string) (name : string) : Exn :=
  TypeError ("Cannot read properties of " ++ what
             ++ " (reading '" ++ name ++ "')").

(** [v.name]: throws on [null] and [undefined], gives [undefined] for a
    property that is absent. *)
Definition get_prop (v : JsVal) (name : string) : Completion JsVal :=
  match v with
  | JNull => Abrupt (cannot_read "null" name)
  | JUndefined => Abrupt (cannot_read "undefined" name)
  | JObj fields =>
      Normal (match lookup name fields with
              | Some x => x
              | None => JUndefined
              end)
  | JArr elems =>
      Normal (if String.eqb name "length"
              then JNum (Z.of_nat (List.length elems))
              else JUndefined)
  | JStr s =>
      Normal (if String.eqb name "length"
              then JNum (Z.of_nat (String.length s))
              else JUndefined)
  | JBool _ | JNum _ => Normal JUndefined
  end.

(** [v[0]] *)
Definition index0 (v : JsVal) : Completion JsVal :=
  match v with
  | JNull => Abrupt (cannot_read "null" "0")
  | JUndefined => Abrupt (cannot_read "undefined" "0")
  | JArr elems => Normal (nth 0 elems JUndefined)
  | JStr s =>
      Normal (match String.get 0 s with
              | Some c => JStr (String c EmptyString)
              | None => JUndefined
              end)
  | JObj fields =>
      Normal (match lookup "0" fields with
              | Some x => x
              | None => JUndefined
              end)
  | JBool _ | JNum _ => Normal JUndefined
  end.

(** [v == null] *)
Definition nullish (v : JsVal) : bool :=
  match v with JNull | JUndefined => true | _ => false end.

(** [v && v.name] *)
Definition and_prop (v : JsVal) (name : string) : JsVal :=
  if truthy v
  then match get_prop v name with Normal x => x | Abrupt _ => JUndefined end
  else v.

(** The text a template literal, or a property key, makes of a value. *)
Fixpoint to_string (v : JsVal) : string :=
  match v with
  | JNull => "null"
  | JUndefined => "undefined"
  | JBool true => "true"
  | JBool false => "false"
  | JNum n => DecimalString.NilZero.string_of_int (Z.to_int n)
  | JStr s => s
  | JArr elems =>
      (fix join (l : list JsVal) : string :=
         match l with
         | [] => ""
         | x :: rest =>
             let sx := match x with
                       | JNull | JUndefined => ""
                       | _ => to_string x
                       end in
             match rest with
             | [] => sx
             | _ :: _ => sx ++ "," ++ join rest
             end
         end) elems
  | JObj _ => "[object Object]"
  end.

(** [v[i]] for an index [i]. *)
Definition index_at (v : JsVal) (i : nat) : Completion JsVal :=
  let key := DecimalString.NilZero.string_of_uint (Nat.to_uint i) in
  match v with
  | JNull => Abrupt (cannot_read "null" key)
  | JUndefined => Abrupt (cannot_read "undefined" key)
  | JArr elems => Normal (nth i elems JUndefined)
  | JStr s =>
      Normal (match String.get i s with
              | Some c => JStr (String c EmptyString)
              | None => JUndefined
              end)
  | JObj fields =>
      Normal (match lookup key fields with
              | Some x => x
              | None => JUndefined
              end)
  | JBool _ | JNum _ => Normal JUndefined
  end.

(** [v[key]] where only that it can be read matters. *)
Definition readable (v key : JsVal) : Completion unit :=
  cbind (get_prop v (to_string key)) (fun _ => Normal tt).

Definition not_a_function (expr name : string) : Exn :=
  TypeError (expr ++ "." ++ name ++ " is not a function").

(** The elements on which [v.name(callback)] calls back, for a method
    that arrays have and no other JSON value has: [map], [filter] and
    [reduce] with an initial value.  [expr] is the text of [v] in the
    source, which the message of the exception quotes. *)
Definition array_method (expr name : string) (v : JsVal)
  : Completion (list JsVal) :=
  match v with
  | JNull => Abrupt (cannot_read "null" name)
  | JUndefined => Abrupt (cannot_read "undefined" name)
  | JArr elems => Normal elems
  | JBool _ | JNum _ | JStr _ | JObj _ => Abrupt (not_a_function expr name)
  end.

(** [v.slice(0, 5)], which arrays and strings have. *)
Definition slice5 (expr : string) (v : JsVal) : Completion JsVal :=
  match v with
  | JNull => Abrupt (cannot_read "null" "slice")
  | JUndefined => Abrupt (cannot_read "undefined" "slice")
  | JArr elems => Normal (JArr (firstn 5 elems))
  | JStr s => Normal (JStr (String.substring 0 5 s))
  | JBool _ | JNum _ | JObj _ => Abrupt (not_a_function expr "slice")
  end.

(** [v.toFixed(digits)], which numbers have, as far as it can throw. *)
Definition to_fixed (expr : string) (v : JsVal) : Completion unit :=
  match v with
  | JNull => Abrupt (cannot_read "null" "toFixed")
  | JUndefined => Abrupt (cannot_read "undefined" "toFixed")
  | JNum _ => Normal tt
  | JBool _ | JStr _ | JArr _ | JObj _ =>
      Abrupt (not_a_function expr "toFixed")
  end.

(** [v?.toFixed(digits)] *)
Definition opt_to_fixed (expr : string) (v : JsVal) : Completion unit :=
  if nullish v then Normal tt else to_fixed expr v.

(** The values of the own properties of an object, a later binding of a
    name already seen being no property of it. *)
Fixpoint own_values (fields : list (string * JsVal)) (seen : list string)
  : list JsVal :=
  match fields with
  | [] => []
  | (k, v) :: rest =>
      if existsb (String.eqb k) seen then own_values rest seen
      else v :: own_values rest (k :: seen)
  end.

(** The values in [Object.entries(v)]. *)
Definition entries (v : JsVal) : Completion (list JsVal) :=
  match v with
  | JNull | JUndefined =>
      Abrupt (TypeError "Cannot convert undefined or null to object")
  | JObj fields => Normal (own_values fields [])
  | JArr elems => Normal elems
  | JStr s =>
      Normal (map (fun c => JStr (String c EmptyString))
                  (list_ascii_of_string s))
  | JBool _ | JNum _ => Normal []
  end.

(** Call back on each element in turn, up to the first that throws. *)
Fixpoint for_each {A : Type} (callback : A -> Completion unit) (l : list A)
  : Completion unit :=
  match l with
  | [] => Normal tt
  | x :: rest => cbind (callback x) (fun _ => for_each callback rest)
  end.

End JS.
Import JS.

Declare Scope completion_scope.
Delimit Scope completion_scope with completion.
Notation "'let*' x ':=' c 'in' k" := (cbind c (fun x => k))
  (at level 10, x name, c at level 100, k at level 200) : completion_scope.
Open Scope completion_scope.

(** ** Asynchronous handlers *)

Module Async.

(** A request as [api.post(url, body)] sends it. *)
Record Request : Type := mkRequest { url : string; body : JsVal }.

(** What the HTTP client gives back: the [data] of a response, or a
    rejection (network failure, timeout, non-2xx status). *)
Inductive Outcome : Type :=
| Resolved (data : JsVal)
| Rejected (reason : string).

(** The world a handler runs in. *)
Record World (St : Type) : Type := mkWorld {
  st : St;
  responses : list Outcome;
  issued : list Request
}.
Arguments mkWorld {St} st responses issued.
Arguments st {St} w.
Arguments responses {St} w.
Arguments issued {St} w.

(** How a handler stands: it returned, an exception escaped it, or it is
    suspended at an [await] whose response has not arrived. *)
Inductive Status (A : Type) : Type :=
| Done (a : A)
| Uncaught (e : Exn)
| Suspended.
Arguments Done {A} a.
Arguments Uncaught {A} e.
Arguments Suspended {A}.

Definition M (St A : Type) : Type := World St -> Status A * World St.

Definition ret {St A} (a : A) : M St A := fun w => (Done a, w).

Definition bind {St A B} (m : M St A) (k : A -> M St B) : M St B :=
  fun w =>
    match m w with
    | (Done a, w') => k a w'
    | (Uncaught e, w') => (Uncaught e, w')
    | (Suspended, w') => (Suspended, w')
    end.

Definition throw {St A} (e : Exn) : M St A := fun w => (Uncaught e, w).

Definition lift {St A} (c : Completion A) : M St A :=
  match c with
  | Normal a => ret a
  | Abrupt e => throw e
  end.

(** A state setter. *)
Definition update {St} (f : St -> St) : M St unit :=
  fun w => (Done tt, mkWorld (f (st w)) (responses w) (issued w)).

(** A callback into another component, which may throw. *)
Definition call {St} (f : St -> Completion St) : M St unit :=
  fun w =>
    match f (st w) with
    | Normal s' => (Done tt, mkWorld s' (responses w) (issued w))
    | Abrupt e => (Uncaught e, w)
    end.

(** [(await api.post(url, body)).data] *)
Definition post {St} (u : string) (b : JsVal) : M St JsVal :=
  fun w =>
    let log := (issued w ++ [mkRequest u b])%list in
    match responses w with
    | [] => (Suspended, mkWorld (st w) [] log)
    | Resolved d :: rest => (Done d, mkWorld (st w) rest log)
    | Rejected r :: rest =>
        (Uncaught (NetworkError r), mkWorld (st w) rest log)
    end.

(** [try { body } catch (err) { handler err }] *)
Definition try_catch {St A} (body : M St A) (handler : Exn -> M St A)
  : M St A :=
  fun w =>
    match body w with
    | (Uncaught e, w') => handler e w'
    | r => r
    end.

(** [try { body } finally { fin }] *)
Definition finally {St A} (body : M St A) (fin : M St unit) : M St A :=
  fun w =>
    match body w with
    | (Suspended, w') => (Suspended, w')
    | (r, w') =>
        match fin w' with
        | (Done _, w'') => (r, w'')
        | (Uncaught e, w'') => (Uncaught e, w'')
        | (Suspended, w'') => (Suspended, w'')
        end
    end.

(** Run a handler from state [s] against the backend's [rs]. *)
Definition run {St A} (m : M St A) (rs : list Outcome) (s : St)
  : Status A * World St :=
  m (mkWorld s rs []).

Definition final {St A} (r : Status A * World St) : St := st (snd r).
Definition requests {St A} (r : Status A * World St) : list Request :=
  issued (snd r).
Definition status {St A} (r : Status A * World St) : Status A := fst r.

(** [m] adds exactly the requests [rqs] to the log, however it ends. *)
Definition asks {St A} (m : M St A) (rqs : list Request) : Prop :=
  forall w, issued (snd (m w)) = (issued w ++ rqs)%list.

End Async.
Import Async.

Declare Scope async_scope.
Delimit Scope async_scope with async.
Notation "x <- m ;; k" := (bind m (fun x => k))
  (at level 61, m at next level, right associativity) : async_scope.
Notation "m ;;; k" := (bind m (fun _ => k))
  (at level 61, right associativity) : async_scope.
Open Scope async_scope.

(** ** services/api.js *)

Module Api.
Section Wrappers.
Context {St : Type}.

Definition previewFile (file : JsVal) : M St JsVal :=
  post "/api/upload/preview" (JObj [("file", file)]).

(** [options] defaults to [{}]; the form fields keep the values handed to
    [FormData.append]. *)
Definition uploadFile (file options : JsVal) : M St JsVal :=
  let options := if is_undefined options then JObj [] else options in
  has_header <- lift (get_prop options "has_header") ;;
  skip_rows <- lift (get_prop options "skip_rows") ;;
  header_row <- lift (get_prop options "header_row") ;;
  post "/api/upload/file"
       (JObj [("file", file);
              ("has_header",
                if negb (is_undefined has_header)
                then has_header else JBool true);
              ("skip_rows", js_or skip_rows (JNum 0));
              ("header_row", js_or header_row (JNum 0))]).

Definition loadSampleData : M St JsVal :=
  post "/api/upload/sample" JUndefined.

Definition getBasicStats (sessionId : JsVal) : M St JsVal :=
  post "/api/analysis/basic-stats" (JObj [("session_id", sessionId)]).

Definition getDistributionAnalysis (sessionId column : JsVal)
  : M St JsVal :=
  post "/api/analysis/distribution"
       (JObj [("session_id", sessionId); ("column", column)]).

Definition getMissingValuesAnalysis (sessionId : JsVal) : M St JsVal :=
  post "/api/analysis/missing-values" (JObj [("session_id", sessionId)]).

Definition handleMissingValues (sessionId method : JsVal) : M St JsVal :=
  post "/api/analysis/handle-missing"
       (JObj [("session_id", sessionId); ("method", method)]).

Definition getTimeSeriesData (sessionId timeColumn valueColumns : JsVal)
  : M St JsVal :=
  post "/api/analysis/time-series"
       (JObj [("session_id", sessionId);
              ("time_column", timeColumn);
              ("value_columns", valueColumns)]).

Definition getCorrelationAnalysis (sessionId : JsVal) : M St JsVal :=
  post "/api/analysis/correlation" (JObj [("session_id", sessionId)]).

(** [apiKey] defaults to [null]. *)
Definition sendChatMessage (sessionId message : JsVal) : M St JsVal :=
  post "/api/chat/message"
       (JObj [("session_id", sessionId);
              ("message", message);
              ("api_key", JNull)]).

Definition getComprehensiveReport (sessionId : JsVal) : M St JsVal :=
  post "/api/analysis/comprehensive-report"
       (JObj [("session_id", sessionId)]).
End Wrappers.
End Api.

(** ** What a component puts on screen *)

Inductive Severity : Type := SevError | SevWarning.

(** The landmarks of a rendered component, in document order.  A widget
    carries the value it is built from; what the widget library does with
    that value (tables, charts, menus) is not modelled, and headings are
    given without their pictographs.

    A component comes with three functions.  [render] lists the landmarks
    of the element it returns.  [jsx] is what building that element
    evaluates of the values the backend sent: the properties read and the
    methods called in the body of the component, which throw on a value of
    the wrong shape.  [screen] is one render as a whole: the landmarks,
    unless building the element throws. *)
Inductive Widget : Type :=
| BackButton
| Heading (text : string)
| Spinner
| Alert (sev : Severity) (content : JsVal)
| Controls
| DataPanel (data : JsVal)
| Bubble (role : string) (content : JsVal).

(** ** App.js: the controller *)

Module App.

Record State : Type := mkState {
  sessionId : JsVal;
  dataInfo : JsVal;
  currentAnalysis : JsVal
}.

(** The three [useState(null)] cells. *)
Definition initial : State := mkState JNull JNull JNull.

Definition setSessionId (v : JsVal) (s : State) : State :=
  mkState v (dataInfo s) (currentAnalysis s).
Definition setDataInfo (v : JsVal) (s : State) : State :=
  mkState (sessionId s) v (currentAnalysis s).
Definition setCurrentAnalysis (v : JsVal) (s : State) : State :=
  mkState (sessionId s) (dataInfo s) v.

Definition handleDataLoaded (sessionData : JsVal) (s : State)
  : Completion State :=
  cbind (get_prop sessionData "session_id") (fun sid =>
  Normal (setCurrentAnalysis JNull
           (setDataInfo sessionData
             (setSessionId sid s)))).

Definition handleAnalysisSelect (analysisType : JsVal) (s : State) : State :=
  setCurrentAnalysis analysisType s.

Definition handleBackToMenu (s : State) : State :=
  setCurrentAnalysis JNull s.

(** The [onDataReload] closure handed to the menu. *)
Definition onDataReload (s : State) : State :=
  setCurrentAnalysis JNull (setDataInfo JNull (setSessionId JNull s)).

(** The analysis views with their props; the [onBack] prop of each is
    [handleBackToMenu]. *)
Inductive View : Type :=
| BasicStats (sessionId : JsVal)
| DistributionAnalysis (sessionId numericColumns : JsVal)
| MissingValuesAnalysis (sessionId : JsVal)
| TimeSeriesAnalysis (sessionId datetimeColumns numericColumns : JsVal)
| CorrelationAnalysis (sessionId : JsVal)
| FullReport (sessionId : JsVal)
| ChatBot (sessionId : JsVal).

(** The elements the controller can put in its container: the upload form
    (with [handleDataLoaded]), the menu (with [handleAnalysisSelect] and
    [onDataReload]), or an analysis view. *)
Inductive Element : Type :=
| DataUpload
| AnalysisMenu (dataInfo : JsVal)
| Analysis (view : View).

(** [None] is the [null] the function returns. *)
Definition renderAnalysisComponent (s : State)
  : Completion (option View) :=
  if negb (truthy (sessionId s)) || negb (truthy (dataInfo s))
  then Normal None
  else
    let tag := currentAnalysis s in
    if strict_eq_str tag "basic_stats" then
      Normal (Some (BasicStats (sessionId s)))
    else if strict_eq_str tag "distribution" then
      cbind (get_prop (dataInfo s) "numeric_columns") (fun nc =>
      Normal (Some (DistributionAnalysis (sessionId s) nc)))
    else if strict_eq_str tag "missing_values" then
      Normal (Some (MissingValuesAnalysis (sessionId s)))
    else if strict_eq_str tag "time_series" then
      cbind (get_prop (dataInfo s) "datetime_columns") (fun dc =>
      cbind (get_prop (dataInfo s) "numeric_columns") (fun nc =>
      Normal (Some (TimeSeriesAnalysis (sessionId s) dc nc))))
    else if strict_eq_str tag "correlation" then
      Normal (Some (CorrelationAnalysis (sessionId s)))
    else if strict_eq_str tag "full_report" then
      Normal (Some (FullReport (sessionId s)))
    else if strict_eq_str tag "chatbot" then
      Normal (Some (ChatBot (sessionId s)))
    else Normal None.

(** The child of the [Container] in what [App] returns. *)
Definition render (s : State) : Completion (option Element) :=
  if negb (truthy (sessionId s)) then Normal (Some DataUpload)
  else if truthy (currentAnalysis s) then
    cbind (renderAnalysisComponent s) (fun view =>
    Normal (option_map Analysis view))
  else Normal (Some (AnalysisMenu (dataInfo s))).

End App.

(** ** components/AnalysisMenu.js *)

Module AnalysisMenu.

(** The [id]s of [analysisOptions]; a card's button calls
    [onAnalysisSelect(option.id)]. *)
Definition analysisOptions : list string :=
  ["basic_stats"; "distribution"; "missing_values"; "time_series";
   "correlation"; "full_report"; "chatbot"].

End AnalysisMenu.

(** ** components/DataUpload.js *)

Module DataUpload.

Record St : Type := mkSt {
  loading : bool;
  error : JsVal;
  dataSource : string;
  selectedFile : JsVal;
  showOptions : bool;
  previewData : JsVal;
  hasHeader : bool;
  skipRows : Z;
  headerRow : Z
}.

Definition init : St :=
  mkSt false JNull "sample" JNull false JNull true 0 0.

Definition setLoading (v : bool) (s : St) : St :=
  mkSt v (error s) (dataSource s) (selectedFile s) (showOptions s)
       (previewData s) (hasHeader s) (skipRows s) (headerRow s).
Definition setError (v : JsVal) (s : St) : St :=
  mkSt (loading s) v (dataSource s) (selectedFile s) (showOptions s)
       (previewData s) (hasHeader s) (skipRows s) (headerRow s).
Definition setSelectedFile (v : JsVal) (s : St) : St :=
  mkSt (loading s) (error s) (dataSource s) v (showOptions s)
       (previewData s) (hasHeader s) (skipRows s) (headerRow s).
Definition setShowOptions (v : bool) (s : St) : St :=
  mkSt (loading s) (error s) (dataSource s) (selectedFile s) v
       (previewData s) (hasHeader s) (skipRows s) (headerRow s).
Definition setPreviewData (v : JsVal) (s : St) : St :=
  mkSt (loading s) (error s) (dataSource s) (selectedFile s) (showOptions s)
       v (hasHeader s) (skipRows s) (headerRow s).

(** The form is mounted under the controller and holds its
    [handleDataLoaded] as [onDataLoaded]: its handlers run on both
    states. *)
Definition Both : Type := (App.State * St)%type.

Definition controller (b : Both) : App.State := fst b.
Definition form (b : Both) : St := snd b.

Definition set (f : St -> St) : M Both unit :=
  update (fun b => (controller b, f (form b))).

Definition onDataLoaded (sessionData : JsVal) : M Both unit :=
  call (fun b =>
          cbind (App.handleDataLoaded sessionData (controller b))
                (fun a => Normal (a, form b))).

(** [file] is [event.target.files[0]]; [l] is the state the closure
    captured. *)
Definition handleFileSelect (l : St) (file : JsVal) : M Both unit :=
  if negb (truthy file) then ret tt
  else
    set (setSelectedFile file) ;;;
    set (setError JNull) ;;;
    if String.eqb (dataSource l) "upload" then
      finally
        (try_catch
           (set (setLoading true) ;;;
            preview <- Api.previewFile file ;;
            set (setPreviewData preview) ;;;
            set (setShowOptions true))
           (fun err =>
              set (setError
                     (JStr ("Error previewing file: " ++ message err)))))
        (set (setLoading false))
    else ret tt.

Definition handleFileUpload (l : St) : M Both unit :=
  if negb (truthy (selectedFile l)) then ret tt
  else
    set (setLoading true) ;;;
    set (setError JNull) ;;;
    finally
      (try_catch
         (result <- Api.uploadFile (selectedFile l)
                      (JObj [("has_header", JBool (hasHeader l));
                             ("skip_rows", JNum (skipRows l));
                             ("header_row", JNum (headerRow l))]) ;;
          err <- lift (get_prop result "error") ;;
          if truthy err then set (setError err)
          else
            onDataLoaded result ;;;
            set (setShowOptions false))
         (fun err =>
            set (setError
                   (JStr ("Error uploading file: " ++ message err)))))
      (set (setLoading false)).

Definition handleSampleData : M Both unit :=
  set (setLoading true) ;;;
  set (setError JNull) ;;;
  finally
    (try_catch
       (result <- Api.loadSampleData ;;
        err <- lift (get_prop result "error") ;;
        if truthy err then set (setError err)
        else onDataLoaded result)
       (fun err =>
          set (setError
                 (JStr ("Error loading sample data: " ++ message err)))))
    (set (setLoading false)).

(** The title and source choice, the error alert, the upload or sample
    button, and the options dialog while it is open. *)
Definition render (s : St) : list Widget :=
  ([Heading "Data Analysis Tool"; Controls]
   ++ (if truthy (error s) then [Alert SevError (error s)] else [])
   ++ [Controls]
   ++ (if showOptions s
       then [Heading "File Processing Options"]
            ++ (if truthy (previewData s)
                then [Controls; DataPanel (previewData s)] else [])
            ++ [Controls]
       else []))%list.

(** The content of the dialog is built whenever there is a preview, the
    dialog being open or not: the table maps over [previewData.columns]
    and over the rows of [previewData.preview_data], and over the cells of
    each row. *)
Definition jsx (s : St) : Completion unit :=
  if truthy (previewData s) then
    let* columns := get_prop (previewData s) "columns" in
    let* _ := array_method "previewData.columns" "map" columns in
    let* preview_data := get_prop (previewData s) "preview_data" in
    let* rows := array_method "previewData.preview_data" "map"
                              preview_data in
    for_each (fun row => let* _ := array_method "row" "map" row in Normal tt)
             rows
  else Normal tt.

Definition screen (s : St) : Completion (list Widget) :=
  let* _ := jsx s in Normal (render s).

End DataUpload.

(** ** components/BasicStats.js *)

Module BasicStats.

Record St : Type := mkSt { data : JsVal; loading : bool; error : JsVal }.

Definition init : St := mkSt JNull true JNull.

Definition setData (v : JsVal) (s : St) : St := mkSt v (loading s) (error s).
Definition setLoading (v : bool) (s : St) : St := mkSt (data s) v (error s).
Definition setError (v : JsVal) (s : St) : St := mkSt (data s) (loading s) v.

Definition fetchStats (sessionId : JsVal) : M St unit :=
  finally
    (try_catch
       (result <- Api.getBasicStats sessionId ;;
        err <- lift (get_prop result "error") ;;
        if truthy err then update (setError err)
        else update (setData result))
       (fun err =>
          update (setError
                    (JStr ("Error fetching basic statistics: "
                           ++ message err)))))
    (update (setLoading false)).

(** [useEffect(..., [sessionId])] *)
Definition onMount (sessionId : JsVal) : M St unit := fetchStats sessionId.

Definition render (s : St) : list Widget :=
  if loading s then [Spinner; Heading "Loading basic statistics..."]
  else if truthy (error s) then [BackButton; Alert SevError (error s)]
  else
    ([BackButton; Heading "Basic Statistical Features"; Controls]
     ++ (if truthy (and_prop (data s) "basic_stats")
         then [DataPanel (data s)] else []))%list.

(** A row of the table: [stats.count?.toFixed(0)] and so on. *)
Definition row (stats : JsVal) : Completion unit :=
  for_each (fun name =>
              let* v := get_prop stats name in
              opt_to_fixed ("stats." ++ name) v)
           ["count"; "mean"; "std"; "min"; "25%"; "50%"; "75%"; "max";
            "skewness"; "kurtosis"].

(** The overview reads [data.shape[0]]; the table maps over
    [Object.entries(data.basic_stats)]. *)
Definition jsx (s : St) : Completion unit :=
  if truthy (and_prop (data s) "basic_stats") then
    let* shape := get_prop (data s) "shape" in
    let* _ := index_at shape 0 in
    let* basic_stats := get_prop (data s) "basic_stats" in
    let* rows := entries basic_stats in
    for_each row rows
  else Normal tt.

Definition screen (s : St) : Completion (list Widget) :=
  if loading s then Normal (render s)
  else if truthy (error s) then Normal (render s)
  else let* _ := jsx s in Normal (render s).

End BasicStats.

(** ** components/CorrelationAnalysis.js *)

Module CorrelationAnalysis.

Record St : Type := mkSt { data : JsVal; loading : bool; error : JsVal }.

Definition init : St := mkSt JNull true JNull.

Definition setData (v : JsVal) (s : St) : St := mkSt v (loading s) (error s).
Definition setLoading (v : bool) (s : St) : St := mkSt (data s) v (error s).
Definition setError (v : JsVal) (s : St) : St := mkSt (data s) (loading s) v.

Definition fetchCorrelationData (sessionId : JsVal) : M St unit :=
  finally
    (try_catch
       (result <- Api.getCorrelationAnalysis sessionId ;;
        err <- lift (get_prop result "error") ;;
        if truthy err then update (setError err)
        else update (setData result))
       (fun err =>
          update (setError
                    (JStr ("Error fetching correlation data: "
                           ++ message err)))))
    (update (setLoading false)).

(** [useEffect(..., [sessionId])] *)
Definition onMount (sessionId : JsVal) : M St unit :=
  fetchCorrelationData sessionId.

Definition render (s : St) : list Widget :=
  if loading s then [Spinner]
  else
    ([BackButton; Heading "Correlation Analysis"]
     ++ (if truthy (error s) then [Alert SevError (error s)] else [])
     ++ (if truthy (data s) then [DataPanel (data s)] else []))%list.

(** [createHeatmap], called where [data] is truthy. *)
Definition createHeatmap (data : JsVal) : Completion unit :=
  let* correlation_matrix := get_prop data "correlation_matrix" in
  let* _ := get_prop correlation_matrix "values" in
  let* _ := get_prop correlation_matrix "columns" in
  Normal tt.

(** A row of the table of top correlations. *)
Definition row (corr : JsVal) : Completion unit :=
  let* _ := get_prop corr "variable1" in
  let* _ := get_prop corr "variable2" in
  let* correlation := get_prop corr "correlation" in
  to_fixed "corr.correlation" correlation.

Definition jsx (s : St) : Completion unit :=
  if truthy (data s) then
    let* _ := createHeatmap (data s) in
    let* top_correlations := get_prop (data s) "top_correlations" in
    let* rows := array_method "data.top_correlations" "map"
                              top_correlations in
    for_each row rows
  else Normal tt.

Definition screen (s : St) : Completion (list Widget) :=
  if loading s then Normal (render s)
  else let* _ := jsx s in Normal (render s).

End CorrelationAnalysis.

(** ** components/MissingValuesAnalysis.js *)

Module MissingValuesAnalysis.

Record St : Type := mkSt {
  data : JsVal;
  loading : bool;
  error : JsVal;
  handlingMethod : JsVal;
  processing : bool
}.

Definition init : St := mkSt JNull true JNull (JStr "") false.

Definition setData (v : JsVal) (s : St) : St :=
  mkSt v (loading s) (error s) (handlingMethod s) (processing s).
Definition setLoading (v : bool) (s : St) : St :=
  mkSt (data s) v (error s) (handlingMethod s) (processing s).
Definition setError (v : JsVal) (s : St) : St :=
  mkSt (data s) (loading s) v (handlingMethod s) (processing s).
Definition setHandlingMethod (v : JsVal) (s : St) : St :=
  mkSt (data s) (loading s) (error s) v (processing s).
Definition setProcessing (v : bool) (s : St) : St :=
  mkSt (data s) (loading s) (error s) (handlingMethod s) v.

Definition fetchMissingValuesData (sessionId : JsVal) : M St unit :=
  finally
    (try_catch
       (result <- Api.getMissingValuesAnalysis sessionId ;;
        err <- lift (get_prop result "error") ;;
        if truthy err then update (setError err)
        else update (setData result))
       (fun err =>
          update (setError
                    (JStr ("Error fetching missing values data: "
                           ++ message err)))))
    (update (setLoading false)).

(** [useEffect(..., [])] *)
Definition onMount (sessionId : JsVal) : M St unit :=
  fetchMissingValuesData sessionId.

(** [l] is the state the closure captured. *)
Definition handleMissingValuesAction (sessionId : JsVal) (l : St)
  : M St unit :=
  if negb (truthy (handlingMethod l)) then ret tt
  else
    update (setProcessing true) ;;;
    finally
      (try_catch
         (result <- Api.handleMissingValues sessionId (handlingMethod l) ;;
          err <- lift (get_prop result "error") ;;
          if truthy err then update (setError err)
          else
            fetchMissingValuesData sessionId ;;;
            update (setHandlingMethod (JStr "")))
         (fun err =>
            update (setError
                      (JStr ("Error handling missing values: "
                             ++ message err)))))
      (update (setProcessing false)).

Definition render (s : St) : list Widget :=
  if loading s then [Spinner]
  else
    ([BackButton; Heading "Missing Values Analysis"]
     ++ (if truthy (error s) then [Alert SevError (error s)] else [])
     ++ (if truthy (data s) then [DataPanel (data s); Controls] else []))%list.

(** The row of the summary table for the column at [index]. *)
Definition row (missing_summary : JsVal) (index : nat) : Completion unit :=
  let* missing_counts := get_prop missing_summary "missing_counts" in
  let* _ := index_at missing_counts index in
  let* missing_percentages :=
    get_prop missing_summary "missing_percentages" in
  let* pct := index_at missing_percentages index in
  to_fixed "data.missing_summary.missing_percentages[index]" pct.

(** The table maps over [data.missing_summary.columns]; the chart, built
    after it, reads what the table has read. *)
Definition jsx (s : St) : Completion unit :=
  if truthy (data s) then
    let* missing_summary := get_prop (data s) "missing_summary" in
    let* columns := get_prop missing_summary "columns" in
    let* cols := array_method "data.missing_summary.columns" "map"
                              columns in
    for_each (row missing_summary) (seq 0 (List.length cols))
  else Normal tt.

Definition screen (s : St) : Completion (list Widget) :=
  if loading s then Normal (render s)
  else let* _ := jsx s in Normal (render s).

End MissingValuesAnalysis.

(** ** components/DistributionAnalysis.js *)

Module DistributionAnalysis.

Record Props : Type := mkProps { sessionId : JsVal; numericColumns : JsVal }.

Record St : Type := mkSt {
  selectedColumn : JsVal;
  data : JsVal;
  loading : bool;
  error : JsVal
}.

(** [useState(numericColumns[0] || '')] and the three plain cells. *)
Definition init (p : Props) : Completion St :=
  cbind (index0 (numericColumns p)) (fun n0 =>
  Normal (mkSt (js_or n0 (JStr "")) JNull false JNull)).

Definition setSelectedColumn (v : JsVal) (s : St) : St :=
  mkSt v (data s) (loading s) (error s).
Definition setData (v : JsVal) (s : St) : St :=
  mkSt (selectedColumn s) v (loading s) (error s).
Definition setLoading (v : bool) (s : St) : St :=
  mkSt (selectedColumn s) (data s) v (error s).
Definition setError (v : JsVal) (s : St) : St :=
  mkSt (selectedColumn s) (data s) (loading s) v.

Definition fetchDistributionData (p : Props) (column : JsVal) : M St unit :=
  update (setLoading true) ;;;
  update (setError JNull) ;;;
  finally
    (try_catch
       (result <- Api.getDistributionAnalysis (sessionId p) column ;;
        err <- lift (get_prop result "error") ;;
        if truthy err then update (setError err)
        else update (setData result))
       (fun err =>
          update (setError
                    (JStr ("Error fetching distribution data: "
                           ++ message err)))))
    (update (setLoading false)).

(** [useEffect(..., [selectedColumn])]: runs after the first render and
    after each change of the column, on the state [l] of that render. *)
Definition onEffect (p : Props) (l : St) : M St unit :=
  if truthy (selectedColumn l)
  then fetchDistributionData p (selectedColumn l)
  else ret tt.

Definition render (p : Props) (s : St) : list Widget :=
  ([BackButton; Heading "Distribution Analysis"; Controls]
   ++ (if loading s then [Spinner] else [])
   ++ (if truthy (error s) then [Alert SevError (error s)] else [])
   ++ (if truthy (data s) && negb (loading s)
       then [DataPanel (data s)] else []))%list.

(** The column menu maps over [numericColumns]; the two plots read
    [data.histogram_data] and [data.column] off a [data] that is truthy,
    which cannot throw. *)
Definition jsx (p : Props) : Completion unit :=
  let* _ := array_method "numericColumns" "map" (numericColumns p) in
  Normal tt.

Definition screen (p : Props) (s : St) : Completion (list Widget) :=
  let* _ := jsx p in Normal (render p s).

End DistributionAnalysis.

(** ** components/TimeSeriesAnalysis.js *)

Module TimeSeriesAnalysis.

Record Props : Type := mkProps {
  sessionId : JsVal;
  datetimeColumns : JsVal;
  numericColumns : JsVal
}.

Record St : Type := mkSt {
  timeColumn : JsVal;
  selectedColumns : JsVal;
  data : JsVal;
  loading : bool;
  error : JsVal
}.

(** [useState(datetimeColumns[0] || '')],
    [useState([numericColumns[0]] || [])] and the three plain cells. *)
Definition init (p : Props) : Completion St :=
  cbind (index0 (datetimeColumns p)) (fun d0 =>
  cbind (index0 (numericColumns p)) (fun n0 =>
  Normal (mkSt (js_or d0 (JStr ""))
               (js_or (JArr [n0]) (JArr []))
               JNull false JNull))).

Definition setTimeColumn (v : JsVal) (s : St) : St :=
  mkSt v (selectedColumns s) (data s) (loading s) (error s).
Definition setSelectedColumns (v : JsVal) (s : St) : St :=
  mkSt (timeColumn s) v (data s) (loading s) (error s).
Definition setData (v : JsVal) (s : St) : St :=
  mkSt (timeColumn s) (selectedColumns s) v (loading s) (error s).
Definition setLoading (v : bool) (s : St) : St :=
  mkSt (timeColumn s) (selectedColumns s) (data s) v (error s).
Definition setError (v : JsVal) (s : St) : St :=
  mkSt (timeColumn s) (selectedColumns s) (data s) (loading s) v.

Definition fetchTimeSeriesData (p : Props) (l : St) : M St unit :=
  update (setLoading true) ;;;
  update (setError JNull) ;;;
  finally
    (try_catch
       (result <- Api.getTimeSeriesData (sessionId p) (timeColumn l)
                    (selectedColumns l) ;;
        err <- lift (get_prop result "error") ;;
        if truthy err then update (setError err)
        else update (setData result))
       (fun err =>
          update (setError
                    (JStr ("Error fetching time series data: "
                           ++ message err)))))
    (update (setLoading false)).

(** [useEffect(..., [timeColumn, selectedColumns])]: runs after the first
    render and after each change of either cell, on the state [l] of that
    render. *)
Definition onEffect (p : Props) (l : St) : M St unit :=
  if truthy (timeColumn l) then
    len <- lift (get_prop (selectedColumns l) "length") ;;
    if gt_zero len then fetchTimeSeriesData p l else ret tt
  else ret tt.

Definition noDatetimeColumns : string :=
  "No datetime columns detected. Please ensure your data includes a timestamp column.".

Definition render (p : Props) (s : St) : Completion (list Widget) :=
  cbind (get_prop (datetimeColumns p) "length") (fun len =>
  if strict_eq_zero len then
    Normal [BackButton; Alert SevWarning (JStr noDatetimeColumns)]
  else
    Normal
      ([BackButton; Heading "Time Series Analysis"; Controls]
       ++ (if loading s then [Spinner] else [])
       ++ (if truthy (error s) then [Alert SevError (error s)] else [])
       ++ (if truthy (data s) && negb (loading s)
           then [DataPanel (data s)] else []))%list).

(** [createTimeSeriesPlot], called where [data] is truthy: one trace for
    each selected column, with [data.timestamps] and [data.data[col]]. *)
Definition createTimeSeriesPlot (s : St) : Completion unit :=
  let* cols := array_method "selectedColumns" "map" (selectedColumns s) in
  for_each (fun col =>
              let* _ := get_prop (data s) "timestamps" in
              let* series := get_prop (data s) "data" in
              readable series col)
           cols.

(** The two menus map over [datetimeColumns] and [numericColumns]; the
    data block builds the plot and reads [data.time_range.min], [max] and
    [span]. *)
Definition jsx (p : Props) (s : St) : Completion unit :=
  let* _ := array_method "datetimeColumns" "map" (datetimeColumns p) in
  let* _ := array_method "numericColumns" "map" (numericColumns p) in
  if truthy (data s) && negb (loading s) then
    let* _ := createTimeSeriesPlot s in
    let* time_range := get_prop (data s) "time_range" in
    let* _ := get_prop time_range "min" in
    Normal tt
  else Normal tt.

(** The warning is returned before anything else is built. *)
Definition screen (p : Props) (s : St) : Completion (list Widget) :=
  let* ws := render p s in
  let* len := get_prop (datetimeColumns p) "length" in
  if strict_eq_zero len then Normal ws
  else let* _ := jsx p s in Normal ws.

End TimeSeriesAnalysis.

(** ** components/FullReport.js *)

Module FullReport.

Record St : Type := mkSt {
  reportData : JsVal;
  loading : bool;
  error : JsVal
}.

Definition init : St := mkSt JNull true JNull.

Definition setReportData (v : JsVal) (s : St) : St :=
  mkSt v (loading s) (error s).
Definition setLoading (v : bool) (s : St) : St :=
  mkSt (reportData s) v (error s).
Definition setError (v : JsVal) (s : St) : St :=
  mkSt (reportData s) (loading s) v.

Definition generateReport (sessionId : JsVal) : M St unit :=
  finally
    (try_catch
       (update (setLoading true) ;;;
        update (setError JNull) ;;;
        result <- Api.getComprehensiveReport sessionId ;;
        err <- lift (get_prop result "error") ;;
        if truthy err then update (setError err)
        else
          basic_statistics <- lift (get_prop result "basic_statistics") ;;
          missing_values <- lift (get_prop result "missing_values") ;;
          correlations <- lift (get_prop result "correlations") ;;
          dataset_info <- lift (get_prop result "dataset_info") ;;
          time_series_info <- lift (get_prop result "time_series_info") ;;
          generated_at <- lift (get_prop result "generated_at") ;;
          update (setReportData
                    (JObj [("basicStats", basic_statistics);
                           ("missingValues", missing_values);
                           ("correlationData", correlations);
                           ("datasetInfo", dataset_info);
                           ("timeSeriesInfo", time_series_info);
                           ("generatedAt", generated_at)])))
       (fun err =>
          update (setError
                    (JStr ("Error generating report: " ++ message err)))))
    (update (setLoading false)).

(** [useEffect(..., [])] *)
Definition onMount (sessionId : JsVal) : M St unit :=
  generateReport sessionId.

Definition render (s : St) : list Widget :=
  if loading s
  then [Spinner; Heading "Generating comprehensive report..."]
  else
    ([BackButton; Heading "Comprehensive Data Analysis Report"; Controls]
     ++ (if truthy (error s) then [Alert SevError (error s)] else [])
     ++ (if truthy (reportData s)
         then [DataPanel (reportData s)] else []))%list.

(** [reportData.datasetInfo?.shape[i] || reportData.basicStats.shape[i]] *)
Definition shapeAt (reportData : JsVal) (i : nat) : Completion unit :=
  let* datasetInfo := get_prop reportData "datasetInfo" in
  let* first :=
    (if nullish datasetInfo then Normal JUndefined
     else let* shape := get_prop datasetInfo "shape" in index_at shape i) in
  if truthy first then Normal tt
  else
    let* basicStats := get_prop reportData "basicStats" in
    let* shape := get_prop basicStats "shape" in
    let* _ := index_at shape i in
    Normal tt.

(** [Object.keys(reportData.basicStats.basic_stats || {}).length] *)
Definition numericCount (reportData : JsVal) : Completion unit :=
  let* basicStats := get_prop reportData "basicStats" in
  let* _ := get_prop basicStats "basic_stats" in
  Normal tt.

(** [reportData.missingValues.missing_summary?.missing_counts?.reduce(...)] *)
Definition missingTotal (reportData : JsVal) : Completion unit :=
  let* missingValues := get_prop reportData "missingValues" in
  let* missing_summary := get_prop missingValues "missing_summary" in
  if nullish missing_summary then Normal tt
  else
    let* missing_counts := get_prop missing_summary "missing_counts" in
    if nullish missing_counts then Normal tt
    else
      let* _ := array_method "missing_counts" "reduce" missing_counts in
      Normal tt.

(** A row of the summary of the statistics. *)
Definition statsRow (stats : JsVal) : Completion unit :=
  for_each (fun name =>
              let* v := get_prop stats name in
              opt_to_fixed ("stats." ++ name) v)
           ["mean"; "std"; "min"; "max"].

(** The row of the quality table for the column at [index]. *)
Definition qualityRow (missing_summary : JsVal) (index : nat)
  : Completion unit :=
  let* missing_percentages :=
    get_prop missing_summary "missing_percentages" in
  let* missingPct := index_at missing_percentages index in
  let* missing_counts := get_prop missing_summary "missing_counts" in
  let* _ := index_at missing_counts index in
  to_fixed "missingPct" missingPct.

(** A row of the table of key correlations. *)
Definition correlationRow (corr : JsVal) : Completion unit :=
  let* correlation := get_prop corr "correlation" in
  let* _ := get_prop corr "variable1" in
  let* _ := get_prop corr "variable2" in
  to_fixed "corr.correlation" correlation.

(** The five sections of the report, in order. *)
Definition sections (reportData : JsVal) : Completion unit :=
  let* _ := shapeAt reportData 0 in
  let* _ := shapeAt reportData 1 in
  let* _ := numericCount reportData in
  let* _ := missingTotal reportData in
  let* basicStats := get_prop reportData "basicStats" in
  let* basic_stats := get_prop basicStats "basic_stats" in
  let* _ :=
    (if truthy basic_stats
     then let* rows := entries basic_stats in for_each statsRow rows
     else Normal tt) in
  let* missingValues := get_prop reportData "missingValues" in
  let* missing_summary := get_prop missingValues "missing_summary" in
  let* _ :=
    (if truthy missing_summary then
       let* columns := get_prop missing_summary "columns" in
       let* cols := array_method "missing_summary.columns" "map" columns in
       for_each (qualityRow missing_summary) (seq 0 (List.length cols))
     else Normal tt) in
  let* correlationData := get_prop reportData "correlationData" in
  let error := and_prop correlationData "error" in
  let top_correlations := and_prop correlationData "top_correlations" in
  let* _ :=
    (if truthy correlationData && negb (truthy error)
        && truthy top_correlations
     then
       let* first5 := slice5 "top_correlations" top_correlations in
       let* rows := array_method "top_correlations.slice(...)" "map"
                                 first5 in
       for_each correlationRow rows
     else Normal tt) in
  if truthy correlationData && negb (truthy error)
     && negb (nullish top_correlations)
  then
    let* all := array_method "top_correlations" "filter" top_correlations in
    for_each (fun c => let* _ := get_prop c "correlation" in Normal tt) all
  else Normal tt.

Definition jsx (s : St) : Completion unit :=
  if truthy (reportData s) then sections (reportData s) else Normal tt.

Definition screen (s : St) : Completion (list Widget) :=
  if loading s then Normal (render s)
  else let* _ := jsx s in Normal (render s).

End FullReport.

(** ** components/ChatBot.js *)

Module ChatBot.

(** White space as [String.prototype.trim] and [parseInt] strip it, among
    the code units below 256: the space, the controls from tab to carriage
    return, and the no-break space. *)
Definition is_space (c : Ascii.ascii) : bool :=
  let n := Ascii.nat_of_ascii c in
  Nat.eqb n 32 || (Nat.leb 9 n && Nat.leb n 13) || Nat.eqb n 160.

Fixpoint trim_start (s : string) : string :=
  match s with
  | EmptyString => EmptyString
  | String c rest => if is_space c then trim_start rest else s
  end.

Fixpoint trim_end (s : string) : string :=
  match s with
  | EmptyString => EmptyString
  | String c rest =>
      let rest' := trim_end rest in
      if is_space c && String.eqb rest' "" then EmptyString
      else String c rest'
  end.

Definition trim (s : string) : string := trim_end (trim_start s).

(** A message is the object [{role, content}]. *)
Record Message : Type := mkMessage { role : string; content : JsVal }.

Record St : Type := mkSt {
  messages : list Message;
  input : string;
  loading : bool;
  error : JsVal
}.

Definition init : St := mkSt [] "" false JNull.

Definition setMessages (f : list Message -> list Message) (s : St) : St :=
  mkSt (f (messages s)) (input s) (loading s) (error s).
Definition setInput (v : string) (s : St) : St :=
  mkSt (messages s) v (loading s) (error s).
Definition setLoading (v : bool) (s : St) : St :=
  mkSt (messages s) (input s) v (error s).
Definition setError (v : JsVal) (s : St) : St :=
  mkSt (messages s) (input s) (loading s) v.

(** [[...prev, m]] *)
Definition append (m : Message) (prev : list Message) : list Message :=
  (prev ++ [m])%list.

(** The [useEffect] on [messages] only scrolls. *)
Definition onEffect (sessionId : JsVal) (l : St) : M St unit := ret tt.

(** [l] is the state the closure captured. *)
Definition handleSendMessage (sessionId : JsVal) (l : St) : M St unit :=
  if negb (truthy (JStr (trim (input l)))) || loading l then ret tt
  else
    let userMessage := JStr (trim (input l)) in
    update (setInput "") ;;;
    update (setMessages (append (mkMessage "user" userMessage))) ;;;
    update (setLoading true) ;;;
    update (setError JNull) ;;;
    finally
      (try_catch
         (result <- Api.sendChatMessage sessionId userMessage ;;
          err <- lift (get_prop result "error") ;;
          if truthy err then
            update (setError err) ;;;
            update (setMessages
                      (append (mkMessage "assistant"
                                 (JStr ("Error: " ++ to_string err)))))
          else
            response <- lift (get_prop result "response") ;;
            update (setMessages
                      (append (mkMessage "assistant" response))))
         (fun err =>
            let errorMsg :=
              JStr ("Error sending message: " ++ message err) in
            update (setError errorMsg) ;;;
            update (setMessages
                      (append (mkMessage "assistant" errorMsg)))))
      (update (setLoading false)).

Definition clearChat : M St unit :=
  update (setMessages (fun _ => [])) ;;;
  update (setError JNull).

Definition render (s : St) : list Widget :=
  ([BackButton; Heading "Chat with DataBot"; Controls]
   ++ map (fun m => Bubble (role m) (content m)) (messages s)
   ++ (if loading s then [Spinner] else [])
   ++ [Controls]
   ++ (if truthy (error s) then [Alert SevError (error s)] else []))%list.

(** Building the element reads the [role] and [content] of the messages,
    which the handlers above have made, and the lengths of [messages] and
    of the trimmed [input]: nothing of it throws. *)
Definition jsx (s : St) : Completion unit := Normal tt.

Definition screen (s : St) : Completion (list Widget) :=
  let* _ := jsx s in Normal (render s).

End ChatBot.

(** ** Mounting what the controller renders *)

Module Mount.

(** React mounts a view by initialising its state cells, rendering it, and
    then running its effects.  [mount view rs] gives the widgets of that
    first render and the requests the effects issue when the backend
    answers with [rs]; [None] is the [null] that
    [renderAnalysisComponent] may return.  A view whose state cannot be
    initialised, or whose first render throws, is not mounted and runs no
    effect. *)
Definition mount (view : option App.View) (rs : list Outcome)
  : Completion (list Widget * list Request) :=
  match view with
  | None => Normal ([], [])
  | Some (App.BasicStats sid) =>
      cbind (BasicStats.screen BasicStats.init) (fun ws =>
      Normal (ws, requests (run (BasicStats.onMount sid) rs BasicStats.init)))
  | Some (App.DistributionAnalysis sid nc) =>
      let p := DistributionAnalysis.mkProps sid nc in
      cbind (DistributionAnalysis.init p) (fun s0 =>
      cbind (DistributionAnalysis.screen p s0) (fun ws =>
      Normal (ws, requests (run (DistributionAnalysis.onEffect p s0) rs s0))))
  | Some (App.MissingValuesAnalysis sid) =>
      cbind (MissingValuesAnalysis.screen MissingValuesAnalysis.init)
            (fun ws =>
      Normal (ws, requests (run (MissingValuesAnalysis.onMount sid) rs
                                MissingValuesAnalysis.init)))
  | Some (App.TimeSeriesAnalysis sid dc nc) =>
      let p := TimeSeriesAnalysis.mkProps sid dc nc in
      cbind (TimeSeriesAnalysis.init p) (fun s0 =>
      cbind (TimeSeriesAnalysis.screen p s0) (fun ws =>
      Normal (ws, requests (run (TimeSeriesAnalysis.onEffect p s0) rs s0))))
  | Some (App.CorrelationAnalysis sid) =>
      cbind (CorrelationAnalysis.screen CorrelationAnalysis.init) (fun ws =>
      Normal (ws, requests (run (CorrelationAnalysis.onMount sid) rs
                                CorrelationAnalysis.init)))
  | Some (App.FullReport sid) =>
      cbind (FullReport.screen FullReport.init) (fun ws =>
      Normal (ws, requests (run (FullReport.onMount sid) rs FullReport.init)))
  | Some (App.ChatBot sid) =>
      cbind (ChatBot.screen ChatBot.init) (fun ws =>
      Normal (ws, requests (run (ChatBot.onEffect sid ChatBot.init) rs
                                ChatBot.init)))
  end.

End Mount.

(** ** The controller as a transition system *)

Module Workflow.

(** The four transitions of the controller, named as the specification
    names them. *)
Inductive Transition : Type :=
| LoadData (response : JsVal)
| SelectAnalysis (tag : JsVal)
| BackToMenu
| Reload.

Definition apply (t : Transition) (s : App.State) : Completion App.State :=
  match t with
  | LoadData response => App.handleDataLoaded response s
  | SelectAnalysis tag => Normal (App.handleAnalysisSelect tag s)
  | BackToMenu => Normal (App.handleBackToMenu s)
  | Reload => Normal (App.onDataReload s)
  end.

(** A response whose [session_id] is not [null]. *)
Definition valid_response (response : JsVal) : Prop :=
  exists sid, get_prop response "session_id" = Normal sid /\ sid <> JNull.

(** What each transition requires of the state it is taken from. *)
Definition admissible (t : Transition) (s : App.State) : Prop :=
  match t with
  | LoadData response => valid_response response
  | SelectAnalysis _ => App.sessionId s <> JNull
  | BackToMenu => True
  | Reload => True
  end.

Inductive reachable : App.State -> Prop :=
| reach_initial : reachable App.initial
| reach_step s t s' :
    reachable s -> admissible t s -> apply t s = Normal s' ->
    reachable s'.

(** [currentAnalysis] is set only while a session is. *)
Definition analysis_within_session (s : App.State) : Prop :=
  App.currentAnalysis s <> JNull -> App.sessionId s <> JNull.

End Workflow.

(** ** Scenarios and vocabulary of the properties *)

Module Scenario.

(** The user presses "Process File", respectively "Load Sample Data",
    while the controller is in state [a] and the form in state [l]. *)
Definition submit (l : DataUpload.St) (rs : list Outcome) (a : App.State)
  : Status unit * World DataUpload.Both :=
  run (DataUpload.handleFileUpload l) rs (a, l).

Definition loadSample (l : DataUpload.St) (rs : list Outcome)
           (a : App.State)
  : Status unit * World DataUpload.Both :=
  run DataUpload.handleSampleData rs (a, l).

(** The user chooses [file] while the controller is in state [a] and the
    form in state [l]. *)
Definition choose (l : DataUpload.St) (file : JsVal) (rs : list Outcome)
           (a : App.State)
  : Status unit * World DataUpload.Both :=
  run (DataUpload.handleFileSelect l file) rs (a, l).

(** The component draws the state [s]: rendering it gives an element. *)
Definition draws {St : Type} (screen : St -> Completion (list Widget))
           (s : St) : Prop :=
  exists ws, screen s = Normal ws.

(** A handler surfaced [err]: it returned, [err] is in the [error] cell
    and on screen in an error alert, and the handler sent one request, to
    [endpoint], leaving the later responses [rest] unread. *)
Definition surfaced {St : Type} (r : Status unit * World St)
           (error : St -> JsVal)
           (render : St -> Completion (list Widget))
           (err : JsVal) (endpoint : string) (rest : list Outcome) : Prop :=
  status r = Done tt
  /\ error (final r) = err
  /\ (exists ws, render (final r) = Normal ws /\ In (Alert SevError err) ws)
  /\ map url (requests r) = [endpoint]
  /\ responses (snd r) = rest.

(** The requests that mounting [view] issues. *)
Definition mountRequests (view : option App.View) (rs : list Outcome)
  : Completion (list Request) :=
  cbind (Mount.mount view rs) (fun r => Normal (snd r)).

(** The user presses "Apply Changes" in the missing-values view, whose
    state is [l]. *)
Definition applyMethod (sid : JsVal) (l : MissingValuesAnalysis.St)
           (rs : list Outcome)
  : Status unit * World MissingValuesAnalysis.St :=
  run (MissingValuesAnalysis.handleMissingValuesAction sid l) rs l.

(** A response with the empty string for [session_id], and the state it
    leaves when loaded into the initial state. *)
Definition emptyIdResponse : JsVal :=
  JObj [("session_id", JStr "");
        ("numeric_columns", JArr [JStr "price"]);
        ("datetime_columns", JArr [JStr "date"])].

Definition emptyIdState : App.State :=
  App.mkState (JStr "") emptyIdResponse JNull.

(** A session descriptor as the backend sends it. *)
Definition sampleDescriptor : JsVal :=
  JObj [("session_id", JStr "abc");
        ("shape", JArr [JNum 3; JNum 2]);
        ("columns", JArr [JStr "date"; JStr "price"]);
        ("numeric_columns", JArr [JStr "price"]);
        ("datetime_columns", JArr [JStr "date"]);
        ("preview", JArr [])].

(** A response that reports an error with an empty message. *)
Definition emptyErrorResponse : JsVal := JObj [("error", JStr "")].

(** A preview as the backend sends it. *)
Definition samplePreview : JsVal :=
  JObj [("columns", JArr [JStr "date"; JStr "price"]);
        ("preview_data", JArr [JArr [JStr "2024-01-01"; JNum 3]]);
        ("total_rows", JNum 1)].

(** The upload form once a file is chosen and its preview is open. *)
Definition fileChosen : DataUpload.St :=
  DataUpload.mkSt false JNull "upload" (JObj [("name", JStr "data.csv")])
                  true samplePreview true 0 0.

(** A descriptor of a dataset without datetime columns that lacks
    [numeric_columns], and the state it leaves when loaded into the
    initial state. *)
Definition noNumericDescriptor : JsVal :=
  JObj [("session_id", JStr "abc"); ("datetime_columns", JArr [])].

Definition noNumericState : App.State :=
  App.mkState (JStr "abc") noNumericDescriptor JNull.

(** A descriptor of a dataset without datetime columns whose
    [session_id] is the empty string, and the state it leaves. *)
Definition emptyIdNoDates : JsVal :=
  JObj [("session_id", JStr "");
        ("numeric_columns", JArr [JStr "price"]);
        ("datetime_columns", JArr [])].

Definition emptyIdNoDatesState : App.State :=
  App.mkState (JStr "") emptyIdNoDates JNull.

(** A correlation analysis as the backend sends it. *)
Definition sampleCorrelation : JsVal :=
  JObj [("correlation_matrix",
          JObj [("values", JArr [JArr [JNum 1; JNum 1];
                                 JArr [JNum 1; JNum 1]]);
                ("columns", JArr [JStr "price"; JStr "qty"])]);
        ("top_correlations",
          JArr [JObj [("variable1", JStr "price");
                      ("variable2", JStr "qty");
                      ("correlation", JNum 1)]])].

(** The text that is one no-break space. *)
Definition noBreakSpace : string :=
  String (Ascii.ascii_of_nat 160) EmptyString.

End Scenario.

(** ** What a handler keeps *)

Module Discipline.

(** [m] keeps [P]: from a state where [P] holds it ends, or waits, in a
    state where [P] holds. *)
Definition keeps {St A} (P : St -> Prop) (m : M St A) : Prop :=
  forall w, P (st w) -> P (st (snd (m w))).

(** A run ended in one of the two ways a handler should: it is waiting for
    a response with [flag] up, or it has returned with [flag] down. *)
Definition settled {St} (flag : St -> bool) (r : Status unit * World St)
  : Prop :=
  (status r = Suspended /\ flag (final r) = true)
  \/ (status r = Done tt /\ flag (final r) = false).

(** The outcome [o] is a failure with message [msg]: the request was
    rejected, or the body is one whose [error] cannot be read ([null] or
    [undefined]). *)
Definition failed_with (o : Outcome) (msg : string) : Prop :=
  o = Rejected msg
  \/ exists d e,
      o = Resolved d /\ get_prop d "error" = Abrupt e /\ msg = message e.

(** No alert is among the widgets. *)
Definition no_alert (ws : list Widget) : Prop :=
  forall sev content, ~ In (Alert sev content) ws.

End Discipline.

(** ** Built-ins the form inputs use *)

Module Builtins.

Definition decimal_digit (c : ascii) : option Z :=
  let n := nat_of_ascii c in
  if Nat.leb 48 n && Nat.leb n 57 then Some (Z.of_nat (n - 48)) else None.

(** Hexadecimal digits, in either case. *)
Definition hex_digit (c : ascii) : option Z :=
  let n := nat_of_ascii c in
  if Nat.leb 48 n && Nat.leb n 57 then Some (Z.of_nat (n - 48))
  else if Nat.leb 65 n && Nat.leb n 70 then Some (Z.of_nat (n - 55))
  else if Nat.leb 97 n && Nat.leb n 102 then Some (Z.of_nat (n - 87))
  else None.

(** Read digits while there are some, from the value [acc] read so far. *)
Fixpoint scan (radix : Z) (digit : ascii -> option Z) (s : string) (acc : Z)
  : Z :=
  match s with
  | EmptyString => acc
  | String c rest =>
      match digit c with
      | Some v => scan radix digit rest (radix * acc + v)
      | None => acc
      end
  end.

(** The number the longest prefix of digits denotes; [None] when the text
    does not start with a digit. *)
Definition digits (radix : Z) (digit : ascii -> option Z) (s : string)
  : option Z :=
  match s with
  | EmptyString => None
  | String c rest =>
      match digit c with
      | Some v => Some (scan radix digit rest v)
      | None => None
      end
  end.

(** [parseInt(text)], with [None] for [NaN]: leading white space is skipped,
    a sign is read, ["0x"] or ["0X"] announces hexadecimal digits, and what
    follows the digits is ignored.  Integers are exact here, as they are in
    JavaScript up to 2^53. *)
Definition parseInt (text : string) : option Z :=
  let unsigned (s : string) : option Z :=
    match s with
    | String "0" (String "x" rest) => digits 16 hex_digit rest
    | String "0" (String "X" rest) => digits 16 hex_digit rest
    | _ => digits 10 decimal_digit s
    end in
  match ChatBot.trim_start text with
  | String "-" rest => option_map Z.opp (unsigned rest)
  | String "+" rest => unsigned rest
  | s => unsigned s
  end.

(** [n || 0] on the result of [parseInt]. *)
Definition or_zero (n : option Z) : Z :=
  match n with
  | Some v => v
  | None => 0
  end.

(** The decimal numeral of an integer, as a number field holds it. *)
Definition numeral (n : Z) : string := to_string (JNum n).

(** What may follow a numeral without changing what [parseInt] reads:
    nothing, or text that starts with neither a digit nor the [x] of a
    hexadecimal prefix (a decimal point, say). *)
Definition stops (tail : string) : bool :=
  match tail with
  | EmptyString => true
  | String c _ =>
      match decimal_digit c with
      | Some _ => false
      | None => negb (Ascii.eqb c "x" || Ascii.eqb c "X")
      end
  end.

End Builtins.

(** ** components/DataUpload.js: the inputs and the dialog *)

Module UploadForm.

Import DataUpload.

Definition setDataSource (v : string) (s : St) : St :=
  mkSt (loading s) (error s) v (selectedFile s) (showOptions s)
       (previewData s) (hasHeader s) (skipRows s) (headerRow s).
Definition setHasHeader (v : bool) (s : St) : St :=
  mkSt (loading s) (error s) (dataSource s) (selectedFile s) (showOptions s)
       (previewData s) v (skipRows s) (headerRow s).
Definition setSkipRows (v : Z) (s : St) : St :=
  mkSt (loading s) (error s) (dataSource s) (selectedFile s) (showOptions s)
       (previewData s) (hasHeader s) v (headerRow s).
Definition setHeaderRow (v : Z) (s : St) : St :=
  mkSt (loading s) (error s) (dataSource s) (selectedFile s) (showOptions s)
       (previewData s) (hasHeader s) (skipRows s) v.

(** The [onChange] of the radio groups and of the two number fields;
    [value] is [e.target.value]. *)
Definition onDataSourceChange (value : string) : St -> St :=
  setDataSource value.

Definition onHasHeaderChange (value : string) : St -> St :=
  setHasHeader (String.eqb value "true").

Definition onSkipRowsChange (value : string) : St -> St :=
  setSkipRows (Z.max 0 (Builtins.or_zero (Builtins.parseInt value))).

Definition onHeaderRowChange (value : string) : St -> St :=
  setHeaderRow (Z.max 0 (Builtins.or_zero (Builtins.parseInt value))).

(** The three state updates of [handleCloseOptions]; it also empties the
    file input of the page, which is no part of the state. *)
Definition handleCloseOptions : M Both unit :=
  set (setShowOptions false) ;;;
  set (setSelectedFile JNull) ;;;
  set (setPreviewData JNull).

(** What the user can do to the form.  The asynchronous handlers come with
    the responses [rs] the backend has ready for them. *)
Inductive Event : Type :=
| SourceChosen (value : string)
| FileChosen (file : JsVal) (rs : list Outcome)
| HeaderToggled (value : string)
| SkipRowsTyped (value : string)
| HeaderRowTyped (value : string)
| ProcessPressed (rs : list Outcome)
| SamplePressed (rs : list Outcome)
| OptionsClosed.

(** The state after an event, handled on the state it finds: a handler
    runs until it returns or waits for a response that is not there. *)
Definition after (b : Both) (e : Event) : Both :=
  match e with
  | SourceChosen v => (controller b, onDataSourceChange v (form b))
  | FileChosen file rs => final (run (handleFileSelect (form b) file) rs b)
  | HeaderToggled v => (controller b, onHasHeaderChange v (form b))
  | SkipRowsTyped v => (controller b, onSkipRowsChange v (form b))
  | HeaderRowTyped v => (controller b, onHeaderRowChange v (form b))
  | ProcessPressed rs => final (run (handleFileUpload (form b)) rs b)
  | SamplePressed rs => final (run handleSampleData rs b)
  | OptionsClosed => final (run handleCloseOptions [] b)
  end.

(** The state after a sequence of events on a freshly mounted form. *)
Definition afterAll (a : App.State) (es : list Event) : Both :=
  fold_left after es (a, init).

End UploadForm.

(** ** components/ChatBot.js: the keyboard *)

Module ChatKeys.

(** [handleKeyPress]: [key] is [event.key], [shiftKey] is
    [event.shiftKey]. *)
Definition handleKeyPress (sessionId : JsVal) (l : ChatBot.St)
           (key : string) (shiftKey : bool) : M ChatBot.St unit :=
  if String.eqb key "Enter" && negb shiftKey
  then ChatBot.handleSendMessage sessionId l
  else ret tt.

(** Every character of the text is white space. *)
Fixpoint blank (s : string) : bool :=
  match s with
  | EmptyString => true
  | String c rest => ChatBot.is_space c && blank rest
  end.

End ChatKeys.

(** ** The controller as the user drives it *)

Module UI.

(** The callbacks the rendered element holds: the upload form has
    [handleDataLoaded] and calls it with a response whose [error] is
    falsy; the menu has [handleAnalysisSelect], which it calls with the
    [id] of one of its options, and [onDataReload]; an analysis view has
    [handleBackToMenu]. *)
Inductive Event : Type :=
| DataLoaded (sessionData : JsVal)
| AnalysisSelected (id : string)
| DataReload
| Back.

Definition showsUpload (s : App.State) : Prop :=
  App.render s = Normal (Some App.DataUpload).
Definition showsMenu (s : App.State) : Prop :=
  App.render s = Normal (Some (App.AnalysisMenu (App.dataInfo s))).
Definition showsView (s : App.State) : Prop :=
  exists view, App.render s = Normal (Some (App.Analysis view)).

Definition enabled (e : Event) (s : App.State) : Prop :=
  match e with
  | DataLoaded sessionData =>
      showsUpload s
      /\ exists err,
          get_prop sessionData "error" = Normal err /\ truthy err = false
  | AnalysisSelected id =>
      showsMenu s /\ In id AnalysisMenu.analysisOptions
  | DataReload => showsMenu s
  | Back => showsView s
  end.

Definition fire (e : Event) (s : App.State) : Completion App.State :=
  match e with
  | DataLoaded sessionData => App.handleDataLoaded sessionData s
  | AnalysisSelected id => Normal (App.handleAnalysisSelect (JStr id) s)
  | DataReload => Normal (App.onDataReload s)
  | Back => Normal (App.handleBackToMenu s)
  end.

Inductive reachable : App.State -> Prop :=
| reach_start : reachable App.initial
| reach_fire s e s' :
    reachable s -> enabled e s -> fire e s = Normal s' -> reachable s'.

(** What the events keep true: a session comes with its [dataInfo], and an
    analysis is selected only from the menu's options and only within a
    session. *)
Definition wired (s : App.State) : Prop :=
  (truthy (App.sessionId s) = true -> truthy (App.dataInfo s) = true)
  /\ (App.currentAnalysis s = JNull
      \/ (truthy (App.sessionId s) = true
          /\ exists id,
              In id AnalysisMenu.analysisOptions
              /\ App.currentAnalysis s = JStr id)).

(** The [sessionId] prop of a view. *)
Definition sessionOf (view : App.View) : JsVal :=
  match view with
  | App.BasicStats sid => sid
  | App.DistributionAnalysis sid _ => sid
  | App.MissingValuesAnalysis sid => sid
  | App.TimeSeriesAnalysis sid _ _ => sid
  | App.CorrelationAnalysis sid => sid
  | App.FullReport sid => sid
  | App.ChatBot sid => sid
  end.

(** The request is made for session [sid]. *)
Definition for_session (sid : JsVal) (rq : Request) : Prop :=
  get_prop (body rq) "session_id" = Normal sid.

End UI.

(** ** The ratings of the report and of the tables *)

Module Ratings.

Import QArith Qabs.

(** The comparisons of JavaScript on finite numbers, which are rationals:
    [a > b] and [a < b]. *)
Definition gt (a b : Q) : bool := negb (Qle_bool a b).
Definition lt (a b : Q) : bool := gt b a.

(** The doubles that the literals [0.8], [0.6], [0.4] and [0.7] denote. *)
Definition d08 : Q := 3602879701896397 # 4503599627370496.
Definition d06 : Q := 5404319552844595 # 9007199254740992.
Definition d04 : Q := 3602879701896397 # 9007199254740992.
Definition d07 : Q := 3152519739159347 # 4503599627370496.

(** The object [{label, color}] a chip is drawn from. *)
Record Chip : Type := mkChip { label : string; color : string }.

(** [getQualityStatus] of the report, on a missing percentage. *)
Definition getQualityStatus (pct : Q) : Chip :=
  if Qeq_bool pct 0 then mkChip "Excellent" "success"
  else if lt pct 5 then mkChip "Good" "info"
  else if lt pct 30 then mkChip "Fair" "warning"
  else mkChip "Poor" "error".

(** [getStrength] of the report, on a correlation. *)
Definition getStrength (value : Q) : Chip :=
  let abs := Qabs value in
  if gt abs d08 then mkChip "Very Strong" "error"
  else if gt abs d06 then mkChip "Strong" "warning"
  else if gt abs d04 then mkChip "Moderate" "info"
  else mkChip "Weak" "default".

(** [Math.abs(corr.correlation) > 0.7]: the test under which the
    correlation view and the report print a correlation in bold red, and
    under which the report's summary counts it as strong. *)
Definition emphasised (correlation : Q) : bool := gt (Qabs correlation) d07.

(** [top_correlations.filter(c => Math.abs(c.correlation) > 0.7).length]
    of the summary. *)
Definition strongCount (correlations : list Q) : nat :=
  List.length (filter emphasised correlations).

(** [missing_percentages[index] > 30]: the test under which the
    missing-values table prints a percentage in bold red. *)
Definition flagged (pct : Q) : bool := gt pct 30.

(** [top_correlations.slice(0, 5)]: the correlations that get a row, and
    so a strength chip, in the report. *)
Definition topFive (correlations : list Q) : list Q := firstn 5 correlations.

(** How bad a quality chip is. *)
Definition qualityRank (c : Chip) : nat :=
  if String.eqb (label c) "Excellent" then 0%nat
  else if String.eqb (label c) "Good" then 1%nat
  else if String.eqb (label c) "Fair" then 2%nat
  else 3%nat.

(** The chip of the correlation reads Strong or Very Strong. *)
Definition ratedStrong (correlation : Q) : bool :=
  String.eqb (label (getStrength correlation)) "Very Strong"
  || String.eqb (label (getStrength correlation)) "Strong".

End Ratings.

(** * Properties *)

(** ** Reduction of handlers *)

(** Unfold the handler combinators down to the next stuck test. *)
Ltac step_handler :=
  cbv beta iota zeta delta
    [run final requests status fst snd bind ret throw lift update call post
     try_catch finally st responses issued
     DataUpload.set DataUpload.onDataLoaded
     DataUpload.controller DataUpload.form
     Scenario.submit Scenario.loadSample Scenario.applyMethod cbind app].

(** The response read at the [await] has [err] in its [error] field
    ([Herr]), and [Ht] tells whether [err] is truthy. *)
Ltac answer Herr Ht :=
  step_handler; rewrite Herr; step_handler; rewrite Ht; step_handler.

(** ** Worked runs *)

Section WorkedRuns.

Import Scenario.

Example upload_accepted :
  DataUpload.controller
    (final (submit fileChosen [Resolved sampleDescriptor] App.initial))
  = App.mkState (JStr "abc") sampleDescriptor JNull
  /\ App.render
       (DataUpload.controller
          (final (submit fileChosen [Resolved sampleDescriptor] App.initial)))
     = Normal (Some (App.AnalysisMenu sampleDescriptor))
  /\ DataUpload.showOptions
       (DataUpload.form
          (final (submit fileChosen [Resolved sampleDescriptor] App.initial)))
     = false.
Proof. repeat split. Qed.

Example upload_rejected :
  DataUpload.error
    (DataUpload.form
       (final (submit fileChosen [Rejected "Network Error"] App.initial)))
  = JStr "Error uploading file: Network Error"
  /\ DataUpload.controller
       (final (submit fileChosen [Rejected "Network Error"] App.initial))
     = App.initial.
Proof. split; reflexivity. Qed.

Example upload_null_body :
  DataUpload.error
    (DataUpload.form (final (submit fileChosen [Resolved JNull] App.initial)))
  = JStr "Error uploading file: Cannot read properties of null (reading 'error')".
Proof. reflexivity. Qed.

Example upload_in_flight :
  status (submit fileChosen [] App.initial) = Suspended
  /\ DataUpload.loading
       (DataUpload.form (final (submit fileChosen [] App.initial)))
     = true
  /\ map url (requests (submit fileChosen [] App.initial))
     = ["/api/upload/file"].
Proof. repeat split. Qed.

Example upload_without_file :
  submit DataUpload.init [Resolved sampleDescriptor] App.initial
  = (Done tt,
     mkWorld (App.initial, DataUpload.init) [Resolved sampleDescriptor] []).
Proof. reflexivity. Qed.

Example time_series_mounted :
  mountRequests
    (Some (App.TimeSeriesAnalysis (JStr "abc") (JArr [JStr "date"])
                                  (JArr [JStr "price"])))
    [Resolved (JObj [("timestamps", JArr [])])]
  = Normal [mkRequest "/api/analysis/time-series"
                      (JObj [("session_id", JStr "abc");
                             ("time_column", JStr "date");
                             ("value_columns", JArr [JStr "price"])])].
Proof. reflexivity. Qed.

Example time_series_without_props :
  Mount.mount (Some (App.TimeSeriesAnalysis (JStr "abc") (JArr []) JUndefined))
              []
  = Abrupt (cannot_read "undefined" "0").
Proof. reflexivity. Qed.

Example chat_answered :
  ChatBot.messages
    (final (run (ChatBot.handleSendMessage (JStr "abc")
                   (ChatBot.mkSt [] "  mean of price? " false JNull))
                [Resolved (JObj [("response", JStr "42")])]
                (ChatBot.mkSt [] "  mean of price? " false JNull)))
  = [ChatBot.mkMessage "user" (JStr "mean of price?");
     ChatBot.mkMessage "assistant" (JStr "42")].
Proof. reflexivity. Qed.

Example chat_blank_input :
  requests (run (ChatBot.handleSendMessage (JStr "abc")
                   (ChatBot.mkSt [] "   " false JNull))
                [Resolved (JObj [("response", JStr "42")])]
                (ChatBot.mkSt [] "   " false JNull))
  = [].
Proof. reflexivity. Qed.

Example chat_no_break_space :
  ChatBot.trim (noBreakSpace ++ "mean?" ++ noBreakSpace) = "mean?"
  /\ run (ChatBot.handleSendMessage (JStr "abc")
            (ChatBot.mkSt [] noBreakSpace false JNull))
         [Resolved (JObj [("response", JStr "42")])]
         (ChatBot.mkSt [] noBreakSpace false JNull)
     = (Done tt,
        mkWorld (ChatBot.mkSt [] noBreakSpace false JNull)
                [Resolved (JObj [("response", JStr "42")])] []).
Proof. split; reflexivity. Qed.

Example upload_with_default_options :
  requests (run (Api.uploadFile (JObj [("name", JStr "data.csv")])
                                JUndefined) [] tt)
  = [mkRequest "/api/upload/file"
               (JObj [("file", JObj [("name", JStr "data.csv")]);
                      ("has_header", JBool true);
                      ("skip_rows", JNum 0);
                      ("header_row", JNum 0)])].
Proof. reflexivity. Qed.

Example preview_drawn :
  DataUpload.screen fileChosen
  = Normal [Heading "Data Analysis Tool"; Controls; Controls;
            Heading "File Processing Options"; Controls;
            DataPanel samplePreview; Controls].
Proof. reflexivity. Qed.

Example preview_without_rows :
  DataUpload.screen
    (DataUpload.setShowOptions false
       (DataUpload.setPreviewData
          (JObj [("columns", JArr [JStr "date"])]) fileChosen))
  = Abrupt (cannot_read "undefined" "map").
Proof. reflexivity. Qed.

Example correlation_drawn :
  CorrelationAnalysis.screen
    (final (run (CorrelationAnalysis.fetchCorrelationData (JStr "abc"))
                [Resolved sampleCorrelation] CorrelationAnalysis.init))
  = Normal [BackButton; Heading "Correlation Analysis";
            DataPanel sampleCorrelation].
Proof. reflexivity. Qed.

Example correlation_as_text :
  CorrelationAnalysis.screen
    (CorrelationAnalysis.mkSt
       (JObj [("correlation_matrix", JObj []);
              ("top_correlations",
                JArr [JObj [("correlation", JStr "0.93")]])])
       false JNull)
  = Abrupt (not_a_function "corr.correlation" "toFixed").
Proof. reflexivity. Qed.

Example distribution_columns_as_text :
  Mount.mount (Some (App.DistributionAnalysis (JStr "abc") (JStr "price")))
              [Resolved (JObj [])]
  = Abrupt (not_a_function "numericColumns" "map").
Proof. reflexivity. Qed.

Example to_string_values :
  to_string (JArr [JNum 1; JNull; JStr "a"]) = "1,,a"
  /\ to_string (JNum (-5)) = "-5"
  /\ to_string (JObj [("detail", JStr "x")]) = "[object Object]".
Proof. repeat split. Qed.

End WorkedRuns.

(** ** The controller *)

Section Controller.

Import App Workflow.

Lemma handleDataLoaded_eq (response sid : JsVal) (s : State) :
  get_prop response "session_id" = Normal sid ->
  handleDataLoaded response s = Normal (mkState sid response JNull).
Proof.
  intros Hsid. unfold handleDataLoaded. rewrite Hsid. reflexivity.
Qed.

(** C2: loading a response whose [session_id] is not [null] succeeds from
    any state, and leaves [sessionId] equal to that [session_id] (so not
    [null]), [dataInfo] equal to the response, and [currentAnalysis]
    [null]. *)
Theorem loadData_valid_response (response sid : JsVal) (s : State) :
  get_prop response "session_id" = Normal sid ->
  sid <> JNull ->
  exists s',
    handleDataLoaded response s = Normal s'
    /\ sessionId s' = sid
    /\ sessionId s' <> JNull
    /\ dataInfo s' = response
    /\ currentAnalysis s' = JNull.
Proof.
  intros Hsid Hnn.
  exists (mkState sid response JNull).
  rewrite (handleDataLoaded_eq _ _ _ Hsid).
  repeat split; auto.
Qed.

Lemma loadData_valid_response_witness :
  exists s',
    handleDataLoaded (JObj [("session_id", JStr "abc")])
                     (mkState (JStr "old") JNull (JStr "correlation"))
    = Normal s'
    /\ sessionId s' = JStr "abc"
    /\ sessionId s' <> JNull
    /\ dataInfo s' = JObj [("session_id", JStr "abc")]
    /\ currentAnalysis s' = JNull.
Proof.
  apply (loadData_valid_response
           (JObj [("session_id", JStr "abc")]) (JStr "abc")
           (mkState (JStr "old") JNull (JStr "correlation"))).
  - reflexivity.
  - discriminate.
Defined.

(** C3: reloading, from any state, leaves [sessionId], [dataInfo] and
    [currentAnalysis] all [null]. *)
Theorem reload_clears_everything (s : State) :
  sessionId (onDataReload s) = JNull
  /\ dataInfo (onDataReload s) = JNull
  /\ currentAnalysis (onDataReload s) = JNull.
Proof. repeat split. Qed.

(** C7: going back to the menu twice gives the state that going back once
    gives. *)
Theorem backToMenu_idempotent (s : State) :
  handleBackToMenu (handleBackToMenu s) = handleBackToMenu s.
Proof. reflexivity. Qed.

(** C1: from every state (hence from every reachable one), every
    admissible transition (a load with a valid response, a selection with
    a session that is not [null], back to the menu, reload) has a
    post-state; there [currentAnalysis] is set only if [sessionId] is, and
    if the transition changed [sessionId] then [currentAnalysis] is
    [null]. *)
Theorem transitions_keep_analysis_within_session
  (s : State) (t : Transition) :
  admissible t s ->
  exists s',
    apply t s = Normal s'
    /\ analysis_within_session s'
    /\ (sessionId s' <> sessionId s -> currentAnalysis s' = JNull).
Proof.
  destruct t as [response | tag | | ]; cbn [admissible apply].
  - intros (sid & Hsid & Hnn).
    exists (mkState sid response JNull).
    rewrite (handleDataLoaded_eq _ _ _ Hsid).
    unfold analysis_within_session; cbn. repeat split; auto.
  - intros Hnn. eexists; split; [reflexivity |].
    unfold analysis_within_session; cbn. split; [auto |].
    intros Hchanged. now contradiction Hchanged.
  - intros _. eexists; split; [reflexivity |].
    unfold analysis_within_session; cbn. split; [congruence | auto].
  - intros _. eexists; split; [reflexivity |].
    unfold analysis_within_session; cbn. split; [congruence | auto].
Qed.

Lemma transitions_keep_analysis_within_session_witness :
  exists s',
    apply (SelectAnalysis (JStr "correlation"))
          (mkState (JStr "abc") (JObj []) JNull) = Normal s'
    /\ analysis_within_session s'
    /\ (sessionId s' <> JStr "abc" -> currentAnalysis s' = JNull).
Proof.
  apply (transitions_keep_analysis_within_session
           (mkState (JStr "abc") (JObj []) JNull)
           (SelectAnalysis (JStr "correlation"))).
  simpl. discriminate.
Defined.

(** The invariant along every run of the controller. *)
Lemma reachable_analysis_within_session (s : State) :
  reachable s -> analysis_within_session s.
Proof.
  induction 1 as [| s t s' _ _ Hadm Happ];
    unfold analysis_within_session in *.
  - cbn. congruence.
  - destruct t as [response | tag | | ]; cbn in Hadm, Happ.
    + destruct Hadm as (sid & Hsid & _).
      rewrite (handleDataLoaded_eq _ _ _ Hsid) in Happ.
      injection Happ as <-. cbn. congruence.
    + injection Happ as <-. cbn. auto.
    + injection Happ as <-. cbn. congruence.
    + injection Happ as <-. cbn. congruence.
Qed.

End Controller.

(** ** What the controller renders *)

Section Rendering.

Import App Scenario.

Lemma truthy_get_prop (v : JsVal) (name : string) :
  truthy v = true -> exists x, get_prop v name = Normal x.
Proof.
  destruct v; cbn; intros Ht; try discriminate; eauto.
Qed.

(** No state makes [renderAnalysisComponent] throw. *)
Lemma renderAnalysisComponent_returns (s : State) :
  exists el, renderAnalysisComponent s = Normal el.
Proof.
  unfold renderAnalysisComponent.
  destruct (truthy (sessionId s)); cbn [negb orb]; [| eauto].
  destruct (truthy (dataInfo s)) eqn:Hinfo; cbn [negb]; [| eauto].
  destruct (truthy_get_prop _ "numeric_columns" Hinfo) as (nc & ->).
  destruct (truthy_get_prop _ "datetime_columns" Hinfo) as (dc & ->).
  cbn [cbind].
  repeat match goal with
         | |- context [if ?b then _ else _] => destruct b
         end; eauto.
Qed.

Lemma strict_eq_str_unknown (v : JsVal) (lit : string) :
  v <> JStr lit -> strict_eq_str v lit = false.
Proof.
  destruct v; cbn; auto.
  intros Hne. destruct (String.eqb_spec s lit); congruence.
Qed.

(** C10: when [currentAnalysis] is none of the seven tags of the menu, and
    likewise when [sessionId] or [dataInfo] is [null],
    [renderAnalysisComponent] returns [null] without throwing, so no view
    is mounted and no request goes to the backend. *)
Theorem renderAnalysisComponent_null (s : State) (rs : list Outcome) :
  (forall t, In t AnalysisMenu.analysisOptions ->
             currentAnalysis s <> JStr t)
  \/ sessionId s = JNull
  \/ dataInfo s = JNull ->
  renderAnalysisComponent s = Normal None
  /\ cbind (renderAnalysisComponent s) (fun el => Mount.mount el rs)
     = Normal ([], []).
Proof.
  intros H.
  assert (Hnull : renderAnalysisComponent s = Normal None).
  { unfold renderAnalysisComponent.
    destruct H as [Htag | [Hsid | Hinfo]].
    - destruct (negb (truthy (sessionId s)) || negb (truthy (dataInfo s)));
        [reflexivity |].
      rewrite !strict_eq_str_unknown;
        [reflexivity | apply Htag; cbn; tauto ..].
    - rewrite Hsid. reflexivity.
    - rewrite Hinfo. cbn. now rewrite orb_true_r. }
  rewrite Hnull. split; reflexivity.
Qed.

Lemma renderAnalysisComponent_null_witness :
  renderAnalysisComponent
    (mkState (JStr "abc") (JObj [("session_id", JStr "abc")])
             (JStr "pivot_table"))
  = Normal None
  /\ cbind (renderAnalysisComponent
              (mkState (JStr "abc") (JObj [("session_id", JStr "abc")])
                       (JStr "pivot_table")))
           (fun el => Mount.mount el [])
     = Normal ([], []).
Proof.
  apply (renderAnalysisComponent_null
           (mkState (JStr "abc") (JObj [("session_id", JStr "abc")])
                    (JStr "pivot_table")) []).
  left. intros t Ht. cbn in Ht.
  repeat (destruct Ht as [<- | Ht]; [discriminate |]).
  contradiction.
Defined.

(** C4, as stated, fails: the state loaded from a response whose
    [session_id] is the empty string has a [sessionId] that is not
    [null], yet after selecting ['correlation'] the controller renders the
    upload form. *)
Lemma select_correlation_empty_session_id :
  handleDataLoaded emptyIdResponse initial = Normal emptyIdState
  /\ sessionId emptyIdState <> JNull
  /\ render (handleAnalysisSelect (JStr "correlation") emptyIdState)
     = Normal (Some DataUpload)
  /\ render (handleAnalysisSelect (JStr "correlation") emptyIdState)
     <> Normal (Some (Analysis (CorrelationAnalysis (sessionId emptyIdState)))).
Proof.
  repeat split; cbn; discriminate.
Qed.

(** C4, amended: in a state whose [sessionId] and [dataInfo] are truthy,
    selecting ['correlation'] makes the controller render the correlation
    view on that session, and going back makes it render the menu on the
    same [dataInfo]; and in every state [u], going back changes
    [currentAnalysis] to [null] and nothing else. *)
Theorem select_correlation_then_back (s u : State) :
  truthy (sessionId s) = true ->
  truthy (dataInfo s) = true ->
  render (handleAnalysisSelect (JStr "correlation") s)
  = Normal (Some (Analysis (CorrelationAnalysis (sessionId s))))
  /\ render (handleBackToMenu (handleAnalysisSelect (JStr "correlation") s))
     = Normal (Some (AnalysisMenu (dataInfo s)))
  /\ sessionId (handleBackToMenu
                  (handleAnalysisSelect (JStr "correlation") s))
     = sessionId s
  /\ dataInfo (handleBackToMenu
                 (handleAnalysisSelect (JStr "correlation") s))
     = dataInfo s
  /\ handleBackToMenu u = mkState (sessionId u) (dataInfo u) JNull.
Proof.
  intros Hsid Hinfo.
  unfold render, renderAnalysisComponent, handleBackToMenu,
    handleAnalysisSelect, setCurrentAnalysis.
  cbn. rewrite Hsid, Hinfo. cbn. repeat split.
Qed.

Lemma select_correlation_then_back_witness :
  render (handleAnalysisSelect (JStr "correlation")
            (mkState (JStr "abc") (JObj []) JNull))
  = Normal (Some (Analysis (CorrelationAnalysis (JStr "abc"))))
  /\ render (handleBackToMenu
               (handleAnalysisSelect (JStr "correlation")
                  (mkState (JStr "abc") (JObj []) JNull)))
     = Normal (Some (AnalysisMenu (JObj []))).
Proof.
  destruct (select_correlation_then_back
              (mkState (JStr "abc") (JObj []) JNull) initial
              eq_refl eq_refl) as (H1 & H2 & _).
  split; [exact H1 | exact H2].
Defined.

(** C6, as stated, fails: for a session without datetime columns whose
    descriptor lacks [numeric_columns], the time-series view throws while
    its state cells are initialised, before the guard that would show the
    warning; and with the empty string for [session_id] the controller
    shows the upload form, not the view. *)
Lemma time_series_warning_not_shown :
  handleDataLoaded noNumericDescriptor initial = Normal noNumericState
  /\ get_prop (dataInfo noNumericState) "datetime_columns"
     = Normal (JArr [])
  /\ render (handleAnalysisSelect (JStr "time_series") noNumericState)
     = Normal (Some (Analysis (TimeSeriesAnalysis (JStr "abc") (JArr [])
                                                  JUndefined)))
  /\ Mount.mount
       (Some (TimeSeriesAnalysis (JStr "abc") (JArr []) JUndefined)) []
     = Abrupt (cannot_read "undefined" "0")
  /\ handleDataLoaded emptyIdNoDates initial = Normal emptyIdNoDatesState
  /\ get_prop (dataInfo emptyIdNoDatesState) "datetime_columns"
     = Normal (JArr [])
  /\ render (handleAnalysisSelect (JStr "time_series") emptyIdNoDatesState)
     = Normal (Some DataUpload).
Proof.
  repeat split.
Qed.

(** C6, amended: in a state whose [sessionId] is truthy and whose
    [dataInfo] has the empty list for [datetime_columns] and a list for
    [numeric_columns], selecting ['time_series'] makes the controller
    render the time-series view; mounting it shows the back button and
    the warning, and its effect issues no request, whatever the backend
    would answer. *)
Theorem time_series_without_datetime_columns
  (s : State) (nums : list JsVal) (rs : list Outcome) :
  truthy (sessionId s) = true ->
  get_prop (dataInfo s) "datetime_columns" = Normal (JArr []) ->
  get_prop (dataInfo s) "numeric_columns" = Normal (JArr nums) ->
  render (handleAnalysisSelect (JStr "time_series") s)
  = Normal (Some (Analysis (TimeSeriesAnalysis (sessionId s) (JArr [])
                                               (JArr nums))))
  /\ Mount.mount
       (Some (TimeSeriesAnalysis (sessionId s) (JArr []) (JArr nums))) rs
     = Normal ([BackButton;
                Alert SevWarning
                      (JStr TimeSeriesAnalysis.noDatetimeColumns)],
               []).
Proof.
  intros Hsid Hdc Hnc.
  assert (Hinfo : truthy (dataInfo s) = true).
  { destruct (dataInfo s); cbn in Hdc |- *; congruence. }
  split.
  - unfold render, renderAnalysisComponent, handleAnalysisSelect,
      setCurrentAnalysis.
    cbn. rewrite Hsid, Hinfo, Hdc, Hnc. reflexivity.
  - reflexivity.
Qed.

Lemma time_series_without_datetime_columns_witness :
  render (handleAnalysisSelect (JStr "time_series")
            (mkState (JStr "abc")
                     (JObj [("session_id", JStr "abc");
                            ("numeric_columns", JArr [JStr "price"]);
                            ("datetime_columns", JArr [])])
                     JNull))
  = Normal (Some (Analysis (TimeSeriesAnalysis (JStr "abc") (JArr [])
                                               (JArr [JStr "price"]))))
  /\ Mount.mount
       (Some (TimeSeriesAnalysis (JStr "abc") (JArr [])
                                 (JArr [JStr "price"])))
       [Resolved (JObj [])]
     = Normal ([BackButton;
                Alert SevWarning
                      (JStr TimeSeriesAnalysis.noDatetimeColumns)],
               []).
Proof.
  apply (time_series_without_datetime_columns
           (mkState (JStr "abc")
                    (JObj [("session_id", JStr "abc");
                           ("numeric_columns", JArr [JStr "price"]);
                           ("datetime_columns", JArr [])])
                    JNull)
           [JStr "price"] [Resolved (JObj [])]);
    reflexivity.
Defined.

End Rendering.

(** ** The upload form *)

Section Upload.

Import DataUpload Scenario.

Variables (a : App.State) (l : St) (result err : JsVal)
          (rest : list Outcome).
Hypothesis Herr : get_prop result "error" = Normal err.
Hypothesis Ht : truthy err = true.

Lemma handleFileUpload_error_run :
  truthy (selectedFile l) = true ->
  exists b,
    submit l (Resolved result :: rest) a
    = (Done tt,
       mkWorld (a, setLoading false
                     (setError err (setError JNull (setLoading true l))))
               rest [mkRequest "/api/upload/file" b]).
Proof.
  intros Hfile. eexists.
  unfold submit, handleFileUpload. rewrite Hfile. cbn [negb].
  unfold Api.uploadFile.
  cbn [get_prop lookup String.eqb Ascii.eqb Bool.eqb is_undefined].
  answer Herr Ht. reflexivity.
Qed.

Lemma handleSampleData_error_run :
  loadSample l (Resolved result :: rest) a
  = (Done tt,
     mkWorld (a, setLoading false
                   (setError err (setError JNull (setLoading true l))))
             rest [mkRequest "/api/upload/sample" JUndefined]).
Proof.
  unfold loadSample, handleSampleData, Api.loadSampleData.
  answer Herr Ht. reflexivity.
Qed.

Lemma error_alert_shown (s : St) :
  In (Alert SevError err) (render (setLoading false (setError err s))).
Proof.
  unfold render. cbn [error setLoading setError]. rewrite Ht.
  cbn. auto.
Qed.

(** What the form evaluates when it renders depends on the preview
    alone. *)
Lemma screen_of_preview (s s' : St) :
  draws screen s -> previewData s' = previewData s ->
  screen s' = Normal (render s').
Proof.
  intros (ws & Hs) Hp. unfold screen in *.
  replace (jsx s') with (jsx s) by (unfold jsx; now rewrite Hp).
  destruct (jsx s) as [[] | e]; [reflexivity | discriminate].
Qed.

Lemma upload_error_surfaced
      (r : Status unit * World Both) (endpoint : string) (b : JsVal) :
  draws screen l ->
  r = (Done tt,
       mkWorld (a, setLoading false
                     (setError err (setError JNull (setLoading true l))))
               rest [mkRequest endpoint b]) ->
  controller (final r) = a
  /\ surfaced r (fun x => error (form x)) (fun x => screen (form x))
              err endpoint rest.
Proof.
  intros Hdraws ->. split; [reflexivity |].
  unfold surfaced.
  cbn [final status requests fst snd st issued responses
       controller form map url].
  repeat split.
  eexists; split; [| now apply error_alert_shown].
  now apply (screen_of_preview l).
Qed.

End Upload.

Lemma truthy_message (msg : string) : msg <> "" -> truthy (JStr msg) = true.
Proof.
  intros Hne. cbn. destruct (String.eqb_spec msg ""); [contradiction |].
  reflexivity.
Qed.

Section UploadClaims.

Import DataUpload Scenario.

(** C5, as stated, fails: the response [{error: ''}] to the upload
    request carries an [error] field, yet the controller takes it for a
    session: [sessionId] becomes [undefined], [dataInfo] becomes the
    response, and no error is stored. *)
Lemma upload_empty_error_field :
  controller (final (submit fileChosen [Resolved emptyErrorResponse]
                            App.initial))
  = App.mkState JUndefined emptyErrorResponse JNull
  /\ controller (final (submit fileChosen [Resolved emptyErrorResponse]
                               App.initial))
     <> App.initial
  /\ error (form (final (submit fileChosen [Resolved emptyErrorResponse]
                                App.initial)))
     = JNull.
Proof.
  repeat split. discriminate.
Qed.

(** C5, amended: the form being on screen in state [l], when the
    response to the sample request, or to the upload request once a file
    is chosen, has a non-empty string for [error], the handler returns
    with the controller state as it was, the string stored in [error] and
    shown in an error alert, and that one request the only one sent. *)
Theorem upload_error_keeps_controller
  (a : App.State) (l : St) (result : JsVal) (msg : string)
  (rest : list Outcome) :
  get_prop result "error" = Normal (JStr msg) ->
  msg <> "" ->
  draws screen l ->
  (truthy (selectedFile l) = true ->
   controller (final (submit l (Resolved result :: rest) a)) = a
   /\ surfaced (submit l (Resolved result :: rest) a)
               (fun b => error (form b))
               (fun b => screen (form b))
               (JStr msg) "/api/upload/file" rest)
  /\ (controller (final (loadSample l (Resolved result :: rest) a)) = a
      /\ surfaced (loadSample l (Resolved result :: rest) a)
                  (fun b => error (form b))
                  (fun b => screen (form b))
                  (JStr msg) "/api/upload/sample" rest).
Proof.
  intros Herr Hmsg Hdraws.
  pose proof (truthy_message msg Hmsg) as Ht. split.
  - intros Hfile.
    destruct (handleFileUpload_error_run a l result (JStr msg) rest
                Herr Ht Hfile) as (b & Hrun).
    exact (upload_error_surfaced a l (JStr msg) rest Ht _ _ b Hdraws Hrun).
  - exact (upload_error_surfaced a l (JStr msg) rest Ht _ _ JUndefined
             Hdraws
             (handleSampleData_error_run a l result (JStr msg) rest
                Herr Ht)).
Qed.

Lemma upload_error_keeps_controller_witness :
  controller (final (submit fileChosen
                            [Resolved (JObj [("error", JStr "bad file")])]
                            App.initial))
  = App.initial
  /\ surfaced (loadSample init
                 [Resolved (JObj [("error", JStr "bad file")])] App.initial)
              (fun b => error (form b))
              (fun b => screen (form b))
              (JStr "bad file") "/api/upload/sample" [].
Proof.
  split.
  - exact (proj1 (proj1 (upload_error_keeps_controller
                           App.initial fileChosen
                           (JObj [("error", JStr "bad file")])
                           "bad file" []
                           eq_refl
                           ltac:(discriminate)
                           (ex_intro _ _ eq_refl))
                        eq_refl)).
  - exact (proj2 (proj2 (upload_error_keeps_controller
                           App.initial init
                           (JObj [("error", JStr "bad file")])
                           "bad file" []
                           eq_refl
                           ltac:(discriminate)
                           (ex_intro _ _ eq_refl)))).
Defined.

End UploadClaims.

(** ** The analysis views on an error response *)

Section ViewsOnError.

Import Scenario.

Variables (sid result err : JsVal) (rest : list Outcome).
Hypothesis Herr : get_prop result "error" = Normal err.
Hypothesis Ht : truthy err = true.

Lemma BasicStats_error_run (s : BasicStats.St) :
  run (BasicStats.fetchStats sid) (Resolved result :: rest) s
  = (Done tt,
     mkWorld (BasicStats.setLoading false (BasicStats.setError err s)) rest
             [mkRequest "/api/analysis/basic-stats"
                        (JObj [("session_id", sid)])]).
Proof.
  unfold BasicStats.fetchStats, Api.getBasicStats.
  answer Herr Ht. reflexivity.
Qed.

Lemma Correlation_error_run (s : CorrelationAnalysis.St) :
  run (CorrelationAnalysis.fetchCorrelationData sid)
      (Resolved result :: rest) s
  = (Done tt,
     mkWorld (CorrelationAnalysis.setLoading false
                (CorrelationAnalysis.setError err s)) rest
             [mkRequest "/api/analysis/correlation"
                        (JObj [("session_id", sid)])]).
Proof.
  unfold CorrelationAnalysis.fetchCorrelationData,
    Api.getCorrelationAnalysis.
  answer Herr Ht. reflexivity.
Qed.

Lemma MissingValues_error_run (s : MissingValuesAnalysis.St) :
  run (MissingValuesAnalysis.fetchMissingValuesData sid)
      (Resolved result :: rest) s
  = (Done tt,
     mkWorld (MissingValuesAnalysis.setLoading false
                (MissingValuesAnalysis.setError err s)) rest
             [mkRequest "/api/analysis/missing-values"
                        (JObj [("session_id", sid)])]).
Proof.
  unfold MissingValuesAnalysis.fetchMissingValuesData,
    Api.getMissingValuesAnalysis.
  answer Herr Ht. reflexivity.
Qed.

Lemma HandleMissing_error_run (l : MissingValuesAnalysis.St) :
  truthy (MissingValuesAnalysis.handlingMethod l) = true ->
  run (MissingValuesAnalysis.handleMissingValuesAction sid l)
      (Resolved result :: rest) l
  = (Done tt,
     mkWorld (MissingValuesAnalysis.setProcessing false
                (MissingValuesAnalysis.setError err
                   (MissingValuesAnalysis.setProcessing true l))) rest
             [mkRequest "/api/analysis/handle-missing"
                        (JObj [("session_id", sid);
                               ("method",
                                 MissingValuesAnalysis.handlingMethod l)])]).
Proof.
  intros Hm.
  unfold MissingValuesAnalysis.handleMissingValuesAction,
    Api.handleMissingValues.
  rewrite Hm. cbn [negb].
  answer Herr Ht. reflexivity.
Qed.

Lemma Distribution_error_run
  (p : DistributionAnalysis.Props) (column : JsVal)
  (s : DistributionAnalysis.St) :
  run (DistributionAnalysis.fetchDistributionData p column)
      (Resolved result :: rest) s
  = (Done tt,
     mkWorld (DistributionAnalysis.setLoading false
                (DistributionAnalysis.setError err
                   (DistributionAnalysis.setError JNull
                      (DistributionAnalysis.setLoading true s)))) rest
             [mkRequest "/api/analysis/distribution"
                        (JObj [("session_id",
                                 DistributionAnalysis.sessionId p);
                               ("column", column)])]).
Proof.
  unfold DistributionAnalysis.fetchDistributionData,
    Api.getDistributionAnalysis.
  answer Herr Ht. reflexivity.
Qed.

Lemma TimeSeries_error_run
  (p : TimeSeriesAnalysis.Props) (l : TimeSeriesAnalysis.St) :
  run (TimeSeriesAnalysis.fetchTimeSeriesData p l)
      (Resolved result :: rest) l
  = (Done tt,
     mkWorld (TimeSeriesAnalysis.setLoading false
                (TimeSeriesAnalysis.setError err
                   (TimeSeriesAnalysis.setError JNull
                      (TimeSeriesAnalysis.setLoading true l)))) rest
             [mkRequest "/api/analysis/time-series"
                        (JObj [("session_id",
                                 TimeSeriesAnalysis.sessionId p);
                               ("time_column",
                                 TimeSeriesAnalysis.timeColumn l);
                               ("value_columns",
                                 TimeSeriesAnalysis.selectedColumns l)])]).
Proof.
  unfold TimeSeriesAnalysis.fetchTimeSeriesData, Api.getTimeSeriesData.
  answer Herr Ht. reflexivity.
Qed.

Lemma FullReport_error_run (s : FullReport.St) :
  run (FullReport.generateReport sid) (Resolved result :: rest) s
  = (Done tt,
     mkWorld (FullReport.setLoading false
                (FullReport.setError err
                   (FullReport.setError JNull
                      (FullReport.setLoading true s)))) rest
             [mkRequest "/api/analysis/comprehensive-report"
                        (JObj [("session_id", sid)])]).
Proof.
  unfold FullReport.generateReport, Api.getComprehensiveReport.
  answer Herr Ht. reflexivity.
Qed.

Lemma ChatBot_error_run (l : ChatBot.St) :
  ChatBot.trim (ChatBot.input l) <> "" ->
  ChatBot.loading l = false ->
  run (ChatBot.handleSendMessage sid l) (Resolved result :: rest) l
  = (Done tt,
     mkWorld
       (ChatBot.mkSt
          (ChatBot.messages l
           ++ [ChatBot.mkMessage "user"
                 (JStr (ChatBot.trim (ChatBot.input l)));
               ChatBot.mkMessage "assistant"
                 (JStr ("Error: " ++ to_string err))])%list
          "" false err)
       rest
       [mkRequest "/api/chat/message"
                  (JObj [("session_id", sid);
                         ("message",
                           JStr (ChatBot.trim (ChatBot.input l)));
                         ("api_key", JNull)])]).
Proof.
  intros Hin Hl.
  unfold ChatBot.handleSendMessage, Api.sendChatMessage.
  rewrite Hl. cbn [truthy].
  destruct (String.eqb_spec (ChatBot.trim (ChatBot.input l)) "");
    [contradiction |].
  cbn [negb orb].
  answer Herr Ht.
  unfold ChatBot.setLoading, ChatBot.setMessages, ChatBot.setError,
    ChatBot.setInput, ChatBot.append.
  cbn [ChatBot.messages ChatBot.input ChatBot.loading ChatBot.error].
  rewrite <- app_assoc. reflexivity.
Qed.

End ViewsOnError.

(** ** What the views evaluate when they render *)

Section ScreensOfViews.

Import Scenario.

(** A view that draws [s] with its spinner off draws every state with the
    same data, and shows there what [render] lists. *)
Lemma Correlation_screen_of_data (s s' : CorrelationAnalysis.St) :
  draws CorrelationAnalysis.screen (CorrelationAnalysis.setLoading false s) ->
  CorrelationAnalysis.data s' = CorrelationAnalysis.data s ->
  CorrelationAnalysis.screen s' = Normal (CorrelationAnalysis.render s').
Proof.
  intros (ws & Hs) Hd. unfold CorrelationAnalysis.screen in *.
  cbn [CorrelationAnalysis.loading CorrelationAnalysis.setLoading] in Hs.
  destruct (CorrelationAnalysis.loading s'); [reflexivity |].
  replace (CorrelationAnalysis.jsx s')
    with (CorrelationAnalysis.jsx (CorrelationAnalysis.setLoading false s))
    by (unfold CorrelationAnalysis.jsx; now rewrite Hd).
  destruct (CorrelationAnalysis.jsx _) as [[] | e];
    [reflexivity | discriminate].
Qed.

Lemma MissingValues_screen_of_data (s s' : MissingValuesAnalysis.St) :
  draws MissingValuesAnalysis.screen
        (MissingValuesAnalysis.setLoading false s) ->
  MissingValuesAnalysis.data s' = MissingValuesAnalysis.data s ->
  MissingValuesAnalysis.screen s'
  = Normal (MissingValuesAnalysis.render s').
Proof.
  intros (ws & Hs) Hd. unfold MissingValuesAnalysis.screen in *.
  cbn [MissingValuesAnalysis.loading MissingValuesAnalysis.setLoading] in Hs.
  destruct (MissingValuesAnalysis.loading s'); [reflexivity |].
  replace (MissingValuesAnalysis.jsx s')
    with (MissingValuesAnalysis.jsx
            (MissingValuesAnalysis.setLoading false s))
    by (unfold MissingValuesAnalysis.jsx; now rewrite Hd).
  destruct (MissingValuesAnalysis.jsx _) as [[] | e];
    [reflexivity | discriminate].
Qed.

Lemma FullReport_screen_of_data (s s' : FullReport.St) :
  draws FullReport.screen (FullReport.setLoading false s) ->
  FullReport.reportData s' = FullReport.reportData s ->
  FullReport.screen s' = Normal (FullReport.render s').
Proof.
  intros (ws & Hs) Hd. unfold FullReport.screen in *.
  cbn [FullReport.loading FullReport.setLoading] in Hs.
  destruct (FullReport.loading s'); [reflexivity |].
  replace (FullReport.jsx s')
    with (FullReport.jsx (FullReport.setLoading false s))
    by (unfold FullReport.jsx; now rewrite Hd).
  destruct (FullReport.jsx _) as [[] | e]; [reflexivity | discriminate].
Qed.

Lemma Distribution_screen_of_props
      (p : DistributionAnalysis.Props) (s s' : DistributionAnalysis.St) :
  draws (DistributionAnalysis.screen p) s ->
  DistributionAnalysis.screen p s'
  = Normal (DistributionAnalysis.render p s').
Proof.
  intros (ws & Hs). unfold DistributionAnalysis.screen in *.
  destruct (DistributionAnalysis.jsx p) as [[] | e];
    [reflexivity | discriminate].
Qed.

Lemma TimeSeries_screen_of_data
      (p : TimeSeriesAnalysis.Props) (s s' : TimeSeriesAnalysis.St) :
  draws (TimeSeriesAnalysis.screen p) s ->
  TimeSeriesAnalysis.data s' = TimeSeriesAnalysis.data s ->
  TimeSeriesAnalysis.loading s' = TimeSeriesAnalysis.loading s ->
  TimeSeriesAnalysis.selectedColumns s'
  = TimeSeriesAnalysis.selectedColumns s ->
  TimeSeriesAnalysis.screen p s' = TimeSeriesAnalysis.render p s'.
Proof.
  intros (ws & Hs) Hd Hl Hc.
  unfold TimeSeriesAnalysis.screen, TimeSeriesAnalysis.render in *.
  destruct (get_prop (TimeSeriesAnalysis.datetimeColumns p) "length")
    as [len | e]; cbn [cbind] in *; [| discriminate].
  destruct (strict_eq_zero len); cbn [cbind] in *; [reflexivity |].
  replace (TimeSeriesAnalysis.jsx p s') with (TimeSeriesAnalysis.jsx p s)
    by (unfold TimeSeriesAnalysis.jsx,
          TimeSeriesAnalysis.createTimeSeriesPlot;
        now rewrite Hd, Hl, Hc).
  destruct (TimeSeriesAnalysis.jsx p s) as [[] | e];
    [reflexivity | discriminate].
Qed.

(** When a component draws a state, what is on screen is what [render]
    lists. *)
Lemma screen_shows_render :
  (forall s ws, DataUpload.screen s = Normal ws -> ws = DataUpload.render s)
  /\ (forall s ws,
         BasicStats.screen s = Normal ws -> ws = BasicStats.render s)
  /\ (forall s ws,
         CorrelationAnalysis.screen s = Normal ws ->
         ws = CorrelationAnalysis.render s)
  /\ (forall s ws,
         MissingValuesAnalysis.screen s = Normal ws ->
         ws = MissingValuesAnalysis.render s)
  /\ (forall p s ws,
         DistributionAnalysis.screen p s = Normal ws ->
         ws = DistributionAnalysis.render p s)
  /\ (forall p s ws,
         TimeSeriesAnalysis.screen p s = Normal ws ->
         TimeSeriesAnalysis.render p s = Normal ws)
  /\ (forall s ws,
         FullReport.screen s = Normal ws -> ws = FullReport.render s)
  /\ (forall s ws, ChatBot.screen s = Normal ws -> ws = ChatBot.render s).
Proof.
  repeat match goal with |- _ /\ _ => split end.
  - intros s ws. unfold DataUpload.screen.
    destruct (DataUpload.jsx s); cbn [cbind]; congruence.
  - intros s ws. unfold BasicStats.screen.
    destruct (BasicStats.loading s); [congruence |].
    destruct (truthy (BasicStats.error s)); [congruence |].
    destruct (BasicStats.jsx s); cbn [cbind]; congruence.
  - intros s ws. unfold CorrelationAnalysis.screen.
    destruct (CorrelationAnalysis.loading s); [congruence |].
    destruct (CorrelationAnalysis.jsx s); cbn [cbind]; congruence.
  - intros s ws. unfold MissingValuesAnalysis.screen.
    destruct (MissingValuesAnalysis.loading s); [congruence |].
    destruct (MissingValuesAnalysis.jsx s); cbn [cbind]; congruence.
  - intros p s ws. unfold DistributionAnalysis.screen.
    destruct (DistributionAnalysis.jsx p); cbn [cbind]; congruence.
  - intros p s ws. unfold TimeSeriesAnalysis.screen.
    destruct (TimeSeriesAnalysis.render p s) as [ws0 | e]; cbn [cbind];
      [| discriminate].
    destruct (get_prop _ "length") as [len | e]; cbn [cbind];
      [| discriminate].
    destruct (strict_eq_zero len); [congruence |].
    destruct (TimeSeriesAnalysis.jsx p s); cbn [cbind]; congruence.
  - intros s ws. unfold FullReport.screen.
    destruct (FullReport.loading s); [congruence |].
    destruct (FullReport.jsx s); cbn [cbind]; congruence.
  - intros s ws. unfold ChatBot.screen, ChatBot.jsx. cbn [cbind]. congruence.
Qed.

End ScreensOfViews.

Section ViewClaims.

Import Scenario.

(** C8, as stated, fails: the response [{error: ''}] carries an [error]
    field in place of a payload, yet the correlation view stores it as
    its data and leaves its [error] cell [null]; the render that follows
    throws on the missing matrix, so that nothing is shown at all. *)
Lemma correlation_empty_error_field :
  CorrelationAnalysis.data
    (final (run (CorrelationAnalysis.fetchCorrelationData (JStr "abc"))
                [Resolved emptyErrorResponse] CorrelationAnalysis.init))
  = emptyErrorResponse
  /\ CorrelationAnalysis.error
       (final (run (CorrelationAnalysis.fetchCorrelationData (JStr "abc"))
                   [Resolved emptyErrorResponse] CorrelationAnalysis.init))
     = JNull
  /\ CorrelationAnalysis.screen
       (final (run (CorrelationAnalysis.fetchCorrelationData (JStr "abc"))
                   [Resolved emptyErrorResponse] CorrelationAnalysis.init))
     = Abrupt (cannot_read "undefined" "values").
Proof.
  repeat split.
Qed.

(** C8, amended: when the response has a non-empty string for [error],
    each of the seven views (and the missing-values view also when
    applying a handling method) returns from its handler without an
    exception, with the string in its [error] cell and in an error alert
    on screen, its data as they were, and that one request the only one
    sent; the chat view also appends the string, behind ['Error: '], as
    the assistant's message.  The view is one that draws its state once
    the spinner is off, as it does when its data are [null] or of the
    shape it reads; the time-series view has a datetime column, as it
    must to fetch at all. *)
Theorem views_surface_backend_error
  (sid result : JsVal) (msg : string) (rest : list Outcome) :
  get_prop result "error" = Normal (JStr msg) ->
  msg <> "" ->
  (forall s,
      surfaced (run (BasicStats.fetchStats sid) (Resolved result :: rest) s)
               BasicStats.error BasicStats.screen
               (JStr msg) "/api/analysis/basic-stats" rest
      /\ BasicStats.data
           (final (run (BasicStats.fetchStats sid)
                       (Resolved result :: rest) s))
         = BasicStats.data s)
  /\ (forall p column s,
         draws (DistributionAnalysis.screen p)
               (DistributionAnalysis.setLoading false s) ->
         surfaced (run (DistributionAnalysis.fetchDistributionData p column)
                       (Resolved result :: rest) s)
                  DistributionAnalysis.error
                  (DistributionAnalysis.screen p)
                  (JStr msg) "/api/analysis/distribution" rest
         /\ DistributionAnalysis.data
              (final (run (DistributionAnalysis.fetchDistributionData
                             p column)
                          (Resolved result :: rest) s))
            = DistributionAnalysis.data s)
  /\ (forall s,
         draws MissingValuesAnalysis.screen
               (MissingValuesAnalysis.setLoading false s) ->
         surfaced (run (MissingValuesAnalysis.fetchMissingValuesData sid)
                       (Resolved result :: rest) s)
                  MissingValuesAnalysis.error
                  MissingValuesAnalysis.screen
                  (JStr msg) "/api/analysis/missing-values" rest
         /\ MissingValuesAnalysis.data
              (final (run (MissingValuesAnalysis.fetchMissingValuesData sid)
                          (Resolved result :: rest) s))
            = MissingValuesAnalysis.data s)
  /\ (forall l,
         truthy (MissingValuesAnalysis.handlingMethod l) = true ->
         MissingValuesAnalysis.loading l = false ->
         draws MissingValuesAnalysis.screen l ->
         surfaced (run (MissingValuesAnalysis.handleMissingValuesAction
                          sid l)
                       (Resolved result :: rest) l)
                  MissingValuesAnalysis.error
                  MissingValuesAnalysis.screen
                  (JStr msg) "/api/analysis/handle-missing" rest
         /\ MissingValuesAnalysis.data
              (final (run (MissingValuesAnalysis.handleMissingValuesAction
                             sid l)
                          (Resolved result :: rest) l))
            = MissingValuesAnalysis.data l)
  /\ (forall p l c cols,
         TimeSeriesAnalysis.datetimeColumns p = JArr (c :: cols) ->
         draws (TimeSeriesAnalysis.screen p)
               (TimeSeriesAnalysis.setLoading false l) ->
         surfaced (run (TimeSeriesAnalysis.fetchTimeSeriesData p l)
                       (Resolved result :: rest) l)
                  TimeSeriesAnalysis.error
                  (TimeSeriesAnalysis.screen p)
                  (JStr msg) "/api/analysis/time-series" rest
         /\ TimeSeriesAnalysis.data
              (final (run (TimeSeriesAnalysis.fetchTimeSeriesData p l)
                          (Resolved result :: rest) l))
            = TimeSeriesAnalysis.data l)
  /\ (forall s,
         draws CorrelationAnalysis.screen
               (CorrelationAnalysis.setLoading false s) ->
         surfaced (run (CorrelationAnalysis.fetchCorrelationData sid)
                       (Resolved result :: rest) s)
                  CorrelationAnalysis.error
                  CorrelationAnalysis.screen
                  (JStr msg) "/api/analysis/correlation" rest
         /\ CorrelationAnalysis.data
              (final (run (CorrelationAnalysis.fetchCorrelationData sid)
                          (Resolved result :: rest) s))
            = CorrelationAnalysis.data s)
  /\ (forall s,
         draws FullReport.screen (FullReport.setLoading false s) ->
         surfaced (run (FullReport.generateReport sid)
                       (Resolved result :: rest) s)
                  FullReport.error FullReport.screen
                  (JStr msg) "/api/analysis/comprehensive-report" rest
         /\ FullReport.reportData
              (final (run (FullReport.generateReport sid)
                          (Resolved result :: rest) s))
            = FullReport.reportData s)
  /\ (forall l,
         ChatBot.trim (ChatBot.input l) <> "" ->
         ChatBot.loading l = false ->
         surfaced (run (ChatBot.handleSendMessage sid l)
                       (Resolved result :: rest) l)
                  ChatBot.error ChatBot.screen
                  (JStr msg) "/api/chat/message" rest
         /\ ChatBot.messages
              (final (run (ChatBot.handleSendMessage sid l)
                          (Resolved result :: rest) l))
            = (ChatBot.messages l
               ++ [ChatBot.mkMessage "user"
                     (JStr (ChatBot.trim (ChatBot.input l)));
                   ChatBot.mkMessage "assistant"
                     (JStr ("Error: " ++ msg))])%list).
Proof.
  intros Herr Hmsg. pose proof (truthy_message msg Hmsg) as Ht.
  assert (Hshown : forall (before after : list Widget),
             In (Alert SevError (JStr msg))
                (before
                 ++ (if truthy (JStr msg)
                     then [Alert SevError (JStr msg)] else [])
                 ++ after)%list).
  { intros before after. rewrite Ht, !in_app_iff. cbn. auto. }
  repeat match goal with |- _ /\ _ => split end.
  - intros s. rewrite (BasicStats_error_run _ _ _ _ Herr Ht).
    split; [| reflexivity]. unfold surfaced.
    cbn [final status requests fst snd st issued responses map url].
    repeat split.
    unfold BasicStats.screen, BasicStats.render.
    cbn [BasicStats.loading BasicStats.error BasicStats.setLoading
         BasicStats.setError].
    rewrite Ht. eexists; split; [reflexivity |]. cbn. auto.
  - intros p column s Hdraws.
    rewrite (Distribution_error_run _ _ _ Herr Ht).
    split; [| reflexivity]. unfold surfaced.
    cbn [final status requests fst snd st issued responses map url].
    repeat split.
    eexists; split;
      [exact (Distribution_screen_of_props p _ _ Hdraws) |].
    apply (Hshown [BackButton; Heading "Distribution Analysis"; Controls]).
  - intros s Hdraws. rewrite (MissingValues_error_run _ _ _ _ Herr Ht).
    split; [| reflexivity]. unfold surfaced.
    cbn [final status requests fst snd st issued responses map url].
    repeat split.
    eexists; split;
      [apply (MissingValues_screen_of_data s); [exact Hdraws | reflexivity] |].
    apply (Hshown [BackButton; Heading "Missing Values Analysis"]).
  - intros l Hm Hl Hdraws.
    rewrite (HandleMissing_error_run _ _ _ _ Herr Ht _ Hm).
    split; [| reflexivity]. unfold surfaced.
    cbn [final status requests fst snd st issued responses map url].
    repeat split.
    assert (Hoff : draws MissingValuesAnalysis.screen
                         (MissingValuesAnalysis.setLoading false l)).
    { destruct l as [d ld e m pr]. cbn in Hl. subst ld. exact Hdraws. }
    eexists; split;
      [apply (MissingValues_screen_of_data l); [exact Hoff | reflexivity] |].
    unfold MissingValuesAnalysis.render.
    cbn [MissingValuesAnalysis.loading MissingValuesAnalysis.error
         MissingValuesAnalysis.data MissingValuesAnalysis.setProcessing
         MissingValuesAnalysis.setError].
    rewrite Hl.
    apply (Hshown [BackButton; Heading "Missing Values Analysis"]).
  - intros p l c cols Hcols Hdraws.
    rewrite (TimeSeries_error_run _ _ _ Herr Ht).
    split; [| reflexivity]. unfold surfaced.
    cbn [final status requests fst snd st issued responses map url].
    repeat split.
    rewrite (TimeSeries_screen_of_data
               p (TimeSeriesAnalysis.setLoading false l) _ Hdraws)
      by reflexivity.
    unfold TimeSeriesAnalysis.render. rewrite Hcols.
    eexists; split; [reflexivity |].
    apply (Hshown [BackButton; Heading "Time Series Analysis"; Controls]).
  - intros s Hdraws. rewrite (Correlation_error_run _ _ _ _ Herr Ht).
    split; [| reflexivity]. unfold surfaced.
    cbn [final status requests fst snd st issued responses map url].
    repeat split.
    eexists; split;
      [apply (Correlation_screen_of_data s); [exact Hdraws | reflexivity] |].
    apply (Hshown [BackButton; Heading "Correlation Analysis"]).
  - intros s Hdraws. rewrite (FullReport_error_run _ _ _ _ Herr Ht).
    split; [| reflexivity]. unfold surfaced.
    cbn [final status requests fst snd st issued responses map url].
    repeat split.
    eexists; split;
      [apply (FullReport_screen_of_data s); [exact Hdraws | reflexivity] |].
    apply (Hshown [BackButton;
                   Heading "Comprehensive Data Analysis Report"; Controls]).
  - intros l Hin Hl. rewrite (ChatBot_error_run _ _ _ _ Herr Ht _ Hin Hl).
    split; [| reflexivity]. unfold surfaced.
    cbn [final status requests fst snd st issued responses map url].
    repeat split.
    eexists; split; [reflexivity |].
    unfold ChatBot.render.
    cbn [ChatBot.error ChatBot.loading ChatBot.messages].
    rewrite Ht. rewrite !in_app_iff. cbn. auto 10.
Qed.

Lemma views_surface_backend_error_witness :
  surfaced (run (CorrelationAnalysis.fetchCorrelationData (JStr "abc"))
                [Resolved (JObj [("error", JStr "no numeric columns")])]
                CorrelationAnalysis.init)
           CorrelationAnalysis.error CorrelationAnalysis.screen
           (JStr "no numeric columns") "/api/analysis/correlation" [].
Proof.
  destruct (views_surface_backend_error
              (JStr "abc") (JObj [("error", JStr "no numeric columns")])
              "no numeric columns" [] eq_refl ltac:(discriminate))
    as (_ & _ & _ & _ & _ & H & _).
  exact (proj1 (H CorrelationAnalysis.init (ex_intro _ _ eq_refl))).
Defined.

End ViewClaims.

(** ** The requests a handler sends *)

Section Requests.

Context {St : Type}.

Lemma asks_ret {A} (a : A) : asks (St := St) (ret a) [].
Proof. intros w. cbn. now rewrite app_nil_r. Qed.

Lemma asks_throw {A} (e : Exn) : asks (St := St) (A := A) (throw e) [].
Proof. intros w. cbn. now rewrite app_nil_r. Qed.

Lemma asks_lift {A} (c : Completion A) : asks (St := St) (lift c) [].
Proof. destruct c; [apply asks_ret | apply asks_throw]. Qed.

Lemma asks_update (f : St -> St) : asks (update f) [].
Proof. intros w. cbn. now rewrite app_nil_r. Qed.

Lemma asks_post (u : string) (b : JsVal) :
  asks (St := St) (post u b) [mkRequest u b].
Proof.
  intros w. unfold post.
  destruct (responses w) as [| [d | r] rest]; reflexivity.
Qed.

Lemma asks_bind_quiet {A B} (m : M St A) (k : A -> M St B)
      (rqs : list Request) :
  asks m rqs -> (forall a, asks (k a) []) -> asks (bind m k) rqs.
Proof.
  intros Hm Hk w. unfold bind. specialize (Hm w).
  destruct (m w) as [[a | e |] w']; cbn [snd] in *; auto.
  rewrite Hk, app_nil_r. exact Hm.
Qed.

Lemma asks_update_bind {B} (f : St -> St) (k : unit -> M St B)
      (rqs : list Request) :
  asks (k tt) rqs -> asks (bind (update f) k) rqs.
Proof.
  intros Hk w. unfold bind, update. now rewrite Hk.
Qed.

Lemma asks_if {A} (b : bool) (m1 m2 : M St A) (rqs : list Request) :
  asks m1 rqs -> asks m2 rqs -> asks (if b then m1 else m2) rqs.
Proof. destruct b; auto. Qed.

Lemma asks_try_catch {A} (body : M St A) (handler : Exn -> M St A)
      (rqs : list Request) :
  asks body rqs -> (forall e, asks (handler e) []) ->
  asks (try_catch body handler) rqs.
Proof.
  intros Hb Hh w. unfold try_catch. specialize (Hb w).
  destruct (body w) as [[a | e |] w']; cbn [snd] in *; auto.
  rewrite Hh, app_nil_r. exact Hb.
Qed.

Lemma asks_finally {A} (body : M St A) (fin : M St unit)
      (rqs : list Request) :
  asks body rqs -> asks fin [] -> asks (finally body fin) rqs.
Proof.
  intros Hb Hf w. unfold finally. specialize (Hb w).
  destruct (body w) as [[a | e |] w']; cbn [snd] in *; auto;
    specialize (Hf w'); rewrite app_nil_r in Hf;
    destruct (fin w') as [[[] | e' |] w'']; cbn [snd] in *; congruence.
Qed.

Lemma asks_run {A} (m : M St A) (rqs : list Request)
      (rs : list Outcome) (s : St) :
  asks m rqs -> requests (run m rs s) = rqs.
Proof. intros Hm. unfold requests, run. now rewrite Hm. Qed.

End Requests.

(** Follow the shape of a handler that awaits one request. *)
Ltac one_request :=
  repeat
    (cbv beta;
     lazymatch goal with
     | |- asks (finally _ _) _ => apply asks_finally
     | |- asks (try_catch _ _) _ => apply asks_try_catch
     | |- asks (bind (update _) _) _ => apply asks_update_bind
     | |- asks (bind _ _) _ => apply asks_bind_quiet
     | |- asks (if _ then _ else _) _ => apply asks_if
     | |- asks (post _ _) _ => apply asks_post
     | |- asks (update _) _ => apply asks_update
     | |- asks (lift _) _ => apply asks_lift
     | |- asks (ret _) _ => apply asks_ret
     | |- forall _, _ => intro
     end).

Section RequestsOfViews.

Variable sid : JsVal.

Lemma fetchStats_asks :
  asks (BasicStats.fetchStats sid)
       [mkRequest "/api/analysis/basic-stats" (JObj [("session_id", sid)])].
Proof. unfold BasicStats.fetchStats, Api.getBasicStats. one_request. Qed.

Lemma fetchCorrelationData_asks :
  asks (CorrelationAnalysis.fetchCorrelationData sid)
       [mkRequest "/api/analysis/correlation" (JObj [("session_id", sid)])].
Proof.
  unfold CorrelationAnalysis.fetchCorrelationData,
    Api.getCorrelationAnalysis.
  one_request.
Qed.

Lemma fetchMissingValuesData_asks :
  asks (MissingValuesAnalysis.fetchMissingValuesData sid)
       [mkRequest "/api/analysis/missing-values"
                  (JObj [("session_id", sid)])].
Proof.
  unfold MissingValuesAnalysis.fetchMissingValuesData,
    Api.getMissingValuesAnalysis.
  one_request.
Qed.

Lemma generateReport_asks :
  asks (FullReport.generateReport sid)
       [mkRequest "/api/analysis/comprehensive-report"
                  (JObj [("session_id", sid)])].
Proof.
  unfold FullReport.generateReport, Api.getComprehensiveReport.
  one_request.
Qed.

Lemma fetchDistributionData_asks (p : DistributionAnalysis.Props)
      (column : JsVal) :
  asks (DistributionAnalysis.fetchDistributionData p column)
       [mkRequest "/api/analysis/distribution"
                  (JObj [("session_id", DistributionAnalysis.sessionId p);
                         ("column", column)])].
Proof.
  unfold DistributionAnalysis.fetchDistributionData,
    Api.getDistributionAnalysis.
  one_request.
Qed.

Lemma fetchTimeSeriesData_asks (p : TimeSeriesAnalysis.Props)
      (l : TimeSeriesAnalysis.St) :
  asks (TimeSeriesAnalysis.fetchTimeSeriesData p l)
       [mkRequest "/api/analysis/time-series"
                  (JObj [("session_id", TimeSeriesAnalysis.sessionId p);
                         ("time_column", TimeSeriesAnalysis.timeColumn l);
                         ("value_columns",
                           TimeSeriesAnalysis.selectedColumns l)])].
Proof.
  unfold TimeSeriesAnalysis.fetchTimeSeriesData, Api.getTimeSeriesData.
  one_request.
Qed.

(** Once its response is there, the fetch of the missing-values view
    returns, whatever the response is, and leaves the handling method and
    the processing flag alone. *)
Lemma fetchMissingValuesData_answered
      (s : MissingValuesAnalysis.St) (o : Outcome) (rest : list Outcome)
      (log : list Request) :
  exists s',
    MissingValuesAnalysis.fetchMissingValuesData sid
      (mkWorld s (o :: rest) log)
    = (Done tt,
       mkWorld s' rest
               (log ++ [mkRequest "/api/analysis/missing-values"
                                  (JObj [("session_id", sid)])])%list)
    /\ MissingValuesAnalysis.handlingMethod s'
       = MissingValuesAnalysis.handlingMethod s
    /\ MissingValuesAnalysis.processing s'
       = MissingValuesAnalysis.processing s.
Proof.
  unfold MissingValuesAnalysis.fetchMissingValuesData,
    Api.getMissingValuesAnalysis.
  destruct o as [d | r]; step_handler.
  - destruct (get_prop d "error") as [e | x]; step_handler.
    + destruct (truthy e); step_handler; eexists; repeat split.
    + eexists; repeat split.
  - eexists; repeat split.
Qed.

End RequestsOfViews.

(** ** Fetching on mount, and re-fetching after an apply *)

Section MountClaims.

Import Scenario.

(** C9, as stated, fails: mounting the chat view sends no request, and
    neither does mounting the time-series view of a dataset without
    datetime columns, although the backend stands ready to answer. *)
Lemma views_without_fetch_on_mount :
  mountRequests (Some (App.ChatBot (JStr "abc"))) [Resolved (JObj [])]
  = Normal []
  /\ mountRequests
       (Some (App.TimeSeriesAnalysis (JStr "abc") (JArr [])
                                     (JArr [JStr "price"])))
       [Resolved (JObj [])]
     = Normal [].
Proof.
  split; reflexivity.
Qed.

(** The first render of the views that start without data, and of those
    whose menus map over lists. *)
Lemma first_screens :
  BasicStats.screen BasicStats.init
  = Normal (BasicStats.render BasicStats.init)
  /\ MissingValuesAnalysis.screen MissingValuesAnalysis.init
     = Normal (MissingValuesAnalysis.render MissingValuesAnalysis.init)
  /\ CorrelationAnalysis.screen CorrelationAnalysis.init
     = Normal (CorrelationAnalysis.render CorrelationAnalysis.init)
  /\ FullReport.screen FullReport.init
     = Normal (FullReport.render FullReport.init)
  /\ ChatBot.screen ChatBot.init = Normal (ChatBot.render ChatBot.init).
Proof. repeat split. Qed.

Lemma Distribution_screen_list
      (sid : JsVal) (cols : list JsVal) (s : DistributionAnalysis.St) :
  DistributionAnalysis.screen
    (DistributionAnalysis.mkProps sid (JArr cols)) s
  = Normal (DistributionAnalysis.render
              (DistributionAnalysis.mkProps sid (JArr cols)) s).
Proof. reflexivity. Qed.

Lemma TimeSeries_screen_list
      (sid : JsVal) (dcols cols : list JsVal) (s : TimeSeriesAnalysis.St) :
  truthy (TimeSeriesAnalysis.data s) && negb (TimeSeriesAnalysis.loading s)
  = false ->
  TimeSeriesAnalysis.screen
    (TimeSeriesAnalysis.mkProps sid (JArr dcols) (JArr cols)) s
  = TimeSeriesAnalysis.render
      (TimeSeriesAnalysis.mkProps sid (JArr dcols) (JArr cols)) s.
Proof.
  intros Hnone.
  unfold TimeSeriesAnalysis.screen, TimeSeriesAnalysis.jsx,
    TimeSeriesAnalysis.render.
  cbn [cbind get_prop String.eqb Ascii.eqb Bool.eqb array_method
       TimeSeriesAnalysis.numericColumns TimeSeriesAnalysis.datetimeColumns].
  rewrite Hnone.
  destruct (strict_eq_zero (JNum (Z.of_nat (List.length dcols))));
    reflexivity.
Qed.

Lemma mount_distribution (sid : JsVal) (cols : list JsVal)
      (rs : list Outcome) :
  mountRequests (Some (App.DistributionAnalysis sid (JArr cols))) rs
  = Normal
      (if truthy (nth 0 cols JUndefined)
       then [mkRequest "/api/analysis/distribution"
                       (JObj [("session_id", sid);
                              ("column", nth 0 cols JUndefined)])]
       else []).
Proof.
  unfold mountRequests, Mount.mount, DistributionAnalysis.init.
  cbn [cbind index0 DistributionAnalysis.numericColumns].
  rewrite Distribution_screen_list. cbn [cbind snd].
  f_equal. unfold DistributionAnalysis.onEffect, js_or.
  cbn [DistributionAnalysis.selectedColumn].
  destruct (truthy (nth 0 cols JUndefined)) eqn:Hcol.
  - rewrite Hcol.
    now rewrite (asks_run _ _ _ _ (fetchDistributionData_asks _ _)).
  - reflexivity.
Qed.

Lemma mount_time_series (sid : JsVal) (dcols cols : list JsVal)
      (rs : list Outcome) :
  mountRequests
    (Some (App.TimeSeriesAnalysis sid (JArr dcols) (JArr cols))) rs
  = Normal
      (if truthy (nth 0 dcols JUndefined)
       then [mkRequest "/api/analysis/time-series"
                       (JObj [("session_id", sid);
                              ("time_column", nth 0 dcols JUndefined);
                              ("value_columns",
                                JArr [nth 0 cols JUndefined])])]
       else []).
Proof.
  unfold mountRequests, Mount.mount, TimeSeriesAnalysis.init.
  cbn [cbind index0 TimeSeriesAnalysis.numericColumns
       TimeSeriesAnalysis.datetimeColumns].
  rewrite TimeSeries_screen_list by reflexivity.
  unfold TimeSeriesAnalysis.render.
  cbn [cbind get_prop String.eqb Ascii.eqb Bool.eqb
       TimeSeriesAnalysis.datetimeColumns].
  destruct (strict_eq_zero (JNum (Z.of_nat (List.length dcols))));
    cbn [cbind snd]; f_equal;
    unfold TimeSeriesAnalysis.onEffect, js_or, requests, run;
    cbn [TimeSeriesAnalysis.timeColumn TimeSeriesAnalysis.selectedColumns
         truthy get_prop String.eqb Ascii.eqb Bool.eqb List.length];
    (destruct (truthy (nth 0 dcols JUndefined)) eqn:Hcol;
     [ rewrite Hcol;
       cbv beta iota delta [bind lift ret gt_zero Z.of_nat Pos.of_succ_nat
                            Pos.succ Z.ltb Z.compare];
       now rewrite fetchTimeSeriesData_asks
     | reflexivity ]).
Qed.

Lemma applyMethod_success
      (sid : JsVal) (l : MissingValuesAnalysis.St) (result err : JsVal)
      (o : Outcome) (rest : list Outcome) :
  truthy (MissingValuesAnalysis.handlingMethod l) = true ->
  get_prop result "error" = Normal err ->
  truthy err = false ->
  status (applyMethod sid l (Resolved result :: o :: rest)) = Done tt
  /\ requests (applyMethod sid l (Resolved result :: o :: rest))
     = [mkRequest "/api/analysis/handle-missing"
                  (JObj [("session_id", sid);
                         ("method",
                           MissingValuesAnalysis.handlingMethod l)]);
        mkRequest "/api/analysis/missing-values"
                  (JObj [("session_id", sid)])]
  /\ MissingValuesAnalysis.handlingMethod
       (final (applyMethod sid l (Resolved result :: o :: rest)))
     = JStr ""
  /\ MissingValuesAnalysis.processing
       (final (applyMethod sid l (Resolved result :: o :: rest)))
     = false
  /\ responses (snd (applyMethod sid l (Resolved result :: o :: rest)))
     = rest.
Proof.
  intros Hm Herr Hf.
  unfold applyMethod, MissingValuesAnalysis.handleMissingValuesAction,
    Api.handleMissingValues.
  rewrite Hm. cbn [negb].
  answer Herr Hf.
  match goal with
  | |- context [MissingValuesAnalysis.fetchMissingValuesData sid
                  (mkWorld ?s (o :: rest) ?log)] =>
      destruct (fetchMissingValuesData_answered sid s o rest log)
        as (s' & -> & Hmethod & Hproc)
  end.
  step_handler. repeat split.
Qed.

(** C9, amended: mounting the basic-statistics, missing-values,
    correlation or full-report view sends one request, to the view's
    endpoint; mounting the distribution view sends one exactly when the
    first numeric column is truthy, and mounting the time-series view
    sends one exactly when the first datetime column is truthy; mounting
    the chat view sends none.  In the missing-values view with a method
    selected, a response to the apply whose [error] is falsy is followed
    by one re-fetch of the analysis, after which the method is reset to
    [''] and the view is no longer processing; a response whose [error]
    is truthy is followed by no request, and the method stays selected. *)
Theorem views_fetch_on_mount_and_refetch
  (sid : JsVal) (cols dcols : list JsVal)
  (l : MissingValuesAnalysis.St) (result err : JsVal)
  (rs : list Outcome) :
  truthy (MissingValuesAnalysis.handlingMethod l) = true ->
  get_prop result "error" = Normal err ->
  mountRequests (Some (App.BasicStats sid)) rs
  = Normal [mkRequest "/api/analysis/basic-stats"
                      (JObj [("session_id", sid)])]
  /\ mountRequests (Some (App.MissingValuesAnalysis sid)) rs
     = Normal [mkRequest "/api/analysis/missing-values"
                         (JObj [("session_id", sid)])]
  /\ mountRequests (Some (App.CorrelationAnalysis sid)) rs
     = Normal [mkRequest "/api/analysis/correlation"
                         (JObj [("session_id", sid)])]
  /\ mountRequests (Some (App.FullReport sid)) rs
     = Normal [mkRequest "/api/analysis/comprehensive-report"
                         (JObj [("session_id", sid)])]
  /\ mountRequests (Some (App.DistributionAnalysis sid (JArr cols))) rs
     = Normal
         (if truthy (nth 0 cols JUndefined)
          then [mkRequest "/api/analysis/distribution"
                          (JObj [("session_id", sid);
                                 ("column", nth 0 cols JUndefined)])]
          else [])
  /\ mountRequests
       (Some (App.TimeSeriesAnalysis sid (JArr dcols) (JArr cols))) rs
     = Normal
         (if truthy (nth 0 dcols JUndefined)
          then [mkRequest "/api/analysis/time-series"
                          (JObj [("session_id", sid);
                                 ("time_column", nth 0 dcols JUndefined);
                                 ("value_columns",
                                   JArr [nth 0 cols JUndefined])])]
          else [])
  /\ mountRequests (Some (App.ChatBot sid)) rs = Normal []
  /\ (truthy err = false ->
      forall o rest,
        status (applyMethod sid l (Resolved result :: o :: rest)) = Done tt
        /\ requests (applyMethod sid l (Resolved result :: o :: rest))
           = [mkRequest "/api/analysis/handle-missing"
                        (JObj [("session_id", sid);
                               ("method",
                                 MissingValuesAnalysis.handlingMethod l)]);
              mkRequest "/api/analysis/missing-values"
                        (JObj [("session_id", sid)])]
        /\ MissingValuesAnalysis.handlingMethod
             (final (applyMethod sid l (Resolved result :: o :: rest)))
           = JStr ""
        /\ MissingValuesAnalysis.processing
             (final (applyMethod sid l (Resolved result :: o :: rest)))
           = false
        /\ responses
             (snd (applyMethod sid l (Resolved result :: o :: rest)))
           = rest)
  /\ (truthy err = true ->
      forall rest,
        status (applyMethod sid l (Resolved result :: rest)) = Done tt
        /\ requests (applyMethod sid l (Resolved result :: rest))
           = [mkRequest "/api/analysis/handle-missing"
                        (JObj [("session_id", sid);
                               ("method",
                                 MissingValuesAnalysis.handlingMethod l)])]
        /\ MissingValuesAnalysis.handlingMethod
             (final (applyMethod sid l (Resolved result :: rest)))
           = MissingValuesAnalysis.handlingMethod l
        /\ MissingValuesAnalysis.error
             (final (applyMethod sid l (Resolved result :: rest)))
           = err
        /\ responses (snd (applyMethod sid l (Resolved result :: rest)))
           = rest).
Proof.
  intros Hm Herr.
  repeat match goal with |- _ /\ _ => split end.
  - unfold mountRequests, Mount.mount, BasicStats.onMount.
    rewrite (proj1 first_screens). cbn [cbind snd].
    now rewrite (asks_run _ _ _ _ (fetchStats_asks sid)).
  - unfold mountRequests, Mount.mount, MissingValuesAnalysis.onMount.
    rewrite (proj1 (proj2 first_screens)). cbn [cbind snd].
    now rewrite (asks_run _ _ _ _ (fetchMissingValuesData_asks sid)).
  - unfold mountRequests, Mount.mount, CorrelationAnalysis.onMount.
    rewrite (proj1 (proj2 (proj2 first_screens))). cbn [cbind snd].
    now rewrite (asks_run _ _ _ _ (fetchCorrelationData_asks sid)).
  - unfold mountRequests, Mount.mount, FullReport.onMount.
    rewrite (proj1 (proj2 (proj2 (proj2 first_screens)))). cbn [cbind snd].
    now rewrite (asks_run _ _ _ _ (generateReport_asks sid)).
  - apply mount_distribution.
  - apply mount_time_series.
  - reflexivity.
  - intros Hf o rest. now apply applyMethod_success with (err := err).
  - intros Ht rest. unfold applyMethod.
    rewrite (HandleMissing_error_run sid result err rest Herr Ht l Hm).
    repeat split.
Qed.

Lemma views_fetch_on_mount_and_refetch_witness :
  requests (applyMethod (JStr "abc")
              (MissingValuesAnalysis.mkSt (JObj []) false JNull
                                          (JStr "drop") false)
              [Resolved (JObj [("message", JStr "done")]);
               Resolved (JObj [("missing_summary", JObj [])])])
  = [mkRequest "/api/analysis/handle-missing"
               (JObj [("session_id", JStr "abc");
                      ("method", JStr "drop")]);
     mkRequest "/api/analysis/missing-values"
               (JObj [("session_id", JStr "abc")])].
Proof.
  destruct (views_fetch_on_mount_and_refetch
              (JStr "abc") [JStr "price"] [JStr "date"]
              (MissingValuesAnalysis.mkSt (JObj []) false JNull
                                          (JStr "drop") false)
              (JObj [("message", JStr "done")]) JUndefined []
              eq_refl eq_refl)
    as (_ & _ & _ & _ & _ & _ & _ & Hok & _).
  exact (proj1 (proj2 (Hok eq_refl
                         (Resolved (JObj [("missing_summary", JObj [])]))
                         []))).
Defined.

End MountClaims.

(** * Further properties of the code *)

(** ** The controller as the user drives it *)

Section DrivenController.

Import App UI.

Lemma showsMenu_session (s : State) (info : JsVal) :
  render s = Normal (Some (AnalysisMenu info)) ->
  truthy (sessionId s) = true /\ truthy (currentAnalysis s) = false.
Proof.
  unfold render.
  destruct (truthy (sessionId s)); cbn [negb]; [| discriminate].
  destruct (truthy (currentAnalysis s)); [| auto].
  destruct (renderAnalysisComponent s) as [[view |] | e]; discriminate.
Qed.

Lemma showsView_session (s : State) (view : View) :
  render s = Normal (Some (Analysis view)) ->
  truthy (sessionId s) = true.
Proof.
  unfold render.
  destruct (truthy (sessionId s)); cbn [negb]; [auto | discriminate].
Qed.

Lemma session_id_of_object (r sid : JsVal) :
  get_prop r "session_id" = Normal sid ->
  truthy sid = true -> truthy r = true.
Proof.
  destruct r; cbn; intros H Ht; try discriminate; auto;
    injection H as <-; discriminate.
Qed.

Lemma option_id_truthy (id : string) :
  In id AnalysisMenu.analysisOptions -> truthy (JStr id) = true.
Proof.
  cbn. intros H.
  repeat (destruct H as [<- | H]; [reflexivity |]). contradiction.
Qed.

Lemma option_id_view (s : State) (id : string) :
  truthy (sessionId s) = true ->
  truthy (dataInfo s) = true ->
  In id AnalysisMenu.analysisOptions ->
  currentAnalysis s = JStr id ->
  exists view,
    renderAnalysisComponent s = Normal (Some view)
    /\ sessionOf view = sessionId s.
Proof.
  intros Hsid Hinfo Hid Hca.
  unfold renderAnalysisComponent. rewrite Hsid, Hinfo, Hca. cbn [negb orb].
  destruct (truthy_get_prop _ "numeric_columns" Hinfo) as (nc & ->).
  destruct (truthy_get_prop _ "datetime_columns" Hinfo) as (dc & ->).
  cbn in Hid.
  repeat (destruct Hid as [<- | Hid]; [cbn; eauto |]). contradiction.
Qed.

Lemma reachable_wired (s : State) : reachable s -> wired s.
Proof.
  induction 1 as [| s e s' _ IH Hen Hfire].
  - split; cbn; [discriminate | auto].
  - destruct IH as [Hinfo Hca].
    destruct e as [r | id | |]; cbn in Hen, Hfire.
    + destruct Hen as (_ & err & Herr & _).
      unfold handleDataLoaded in Hfire.
      destruct (get_prop r "session_id") as [sid |] eqn:Hsid;
        [| discriminate].
      injection Hfire as <-. split; cbn; [| auto].
      now apply session_id_of_object.
    + injection Hfire as <-. destruct Hen as (Hmenu & Hid).
      apply showsMenu_session in Hmenu. destruct Hmenu as (Hsid & _).
      split; cbn; [exact Hinfo | right; eauto].
    + injection Hfire as <-. split; cbn; [discriminate | auto].
    + injection Hfire as <-. split; cbn; [exact Hinfo | auto].
Qed.

Lemma wired_shows (s : State) :
  wired s -> showsUpload s \/ showsMenu s \/ showsView s.
Proof.
  intros [Hinfo Hca]. unfold showsUpload, showsMenu, showsView, render.
  destruct (truthy (sessionId s)) eqn:Hsid; cbn [negb]; [| auto].
  right. destruct Hca as [Hnull | (_ & id & Hid & Hca)].
  - rewrite Hnull. cbn. auto.
  - right. rewrite Hca, (option_id_truthy _ Hid).
    destruct (option_id_view s id Hsid (Hinfo eq_refl) Hid Hca)
      as (view & -> & _).
    cbn. eauto.
Qed.

(** However the user got there, the controller shows the upload form, the
    menu or an analysis view: it never renders [null] and never throws. *)
Theorem controller_never_blank (s : State) :
  reachable s -> showsUpload s \/ showsMenu s \/ showsView s.
Proof.
  intros Hs. now apply wired_shows, reachable_wired.
Qed.

Lemma controller_never_blank_witness :
  showsUpload (mkState (JStr "abc") Scenario.sampleDescriptor
                       (JStr "correlation"))
  \/ showsMenu (mkState (JStr "abc") Scenario.sampleDescriptor
                        (JStr "correlation"))
  \/ showsView (mkState (JStr "abc") Scenario.sampleDescriptor
                        (JStr "correlation")).
Proof.
  apply (controller_never_blank
           (mkState (JStr "abc") Scenario.sampleDescriptor
                    (JStr "correlation"))).
  apply (reach_fire (mkState (JStr "abc") Scenario.sampleDescriptor JNull)
                    (AnalysisSelected "correlation"));
    [| split; [reflexivity | cbn; tauto] | reflexivity].
  apply (reach_fire initial (DataLoaded Scenario.sampleDescriptor));
    [exact reach_start | | reflexivity].
  split; [reflexivity |]. exists JUndefined. split; reflexivity.
Defined.

(** Where each enabled event leads: loading a response with a truthy
    [session_id] leads to the menu on that response, and one with a falsy
    [session_id] leaves the upload form up; selecting an option leads to a
    view on the same session; reloading leads to the initial state and the
    upload form; going back leads to the menu.  No enabled event throws. *)
Theorem controller_view_graph (s : State) (e : Event) :
  reachable s ->
  enabled e s ->
  exists s',
    fire e s = Normal s'
    /\ match e with
       | DataLoaded r =>
           dataInfo s' = r
           /\ (truthy (sessionId s') = true -> showsMenu s')
           /\ (truthy (sessionId s') = false -> showsUpload s')
       | AnalysisSelected id =>
           exists view,
             render s' = Normal (Some (Analysis view))
             /\ sessionOf view = sessionId s
       | DataReload => s' = initial /\ showsUpload s'
       | Back => showsMenu s' /\ sessionId s' = sessionId s
       end.
Proof.
  intros Hs Hen. destruct (reachable_wired s Hs) as [Hinfo _].
  destruct e as [r | id | |]; cbn in Hen; cbn [fire].
  - destruct Hen as (_ & err & Herr & _).
    assert (exists sid, get_prop r "session_id" = Normal sid) as (sid & Hsid).
    { destruct r; cbn in Herr |- *; try discriminate; eauto. }
    exists (mkState sid r JNull). unfold handleDataLoaded. rewrite Hsid.
    split; [reflexivity |]. unfold showsMenu, showsUpload, render. cbn.
    repeat split; intros ->; reflexivity.
  - destruct Hen as (Hmenu & Hid).
    apply showsMenu_session in Hmenu. destruct Hmenu as (Hsid & _).
    eexists; split; [reflexivity |].
    set (s1 := handleAnalysisSelect (JStr id) s).
    assert (Hsid1 : truthy (sessionId s1) = true) by exact Hsid.
    assert (Hca1 : currentAnalysis s1 = JStr id) by reflexivity.
    destruct (option_id_view s1 id Hsid1 (Hinfo Hsid) Hid Hca1)
      as (view & Hview & Hof).
    exists view. split; [| exact Hof].
    unfold render.
    rewrite Hsid1, Hca1, (option_id_truthy _ Hid), Hview. reflexivity.
  - eexists; split; [reflexivity |]. split; reflexivity.
  - destruct Hen as (view & Hview).
    apply showsView_session in Hview.
    eexists; split; [reflexivity |]. split; [| reflexivity].
    unfold showsMenu, render. cbn. now rewrite Hview.
Qed.

Lemma controller_view_graph_witness :
  exists s',
    fire (DataLoaded Scenario.sampleDescriptor) initial = Normal s'
    /\ dataInfo s' = Scenario.sampleDescriptor
    /\ (truthy (sessionId s') = true -> showsMenu s')
    /\ (truthy (sessionId s') = false -> showsUpload s').
Proof.
  apply (controller_view_graph initial (DataLoaded Scenario.sampleDescriptor)).
  - exact reach_start.
  - split; [reflexivity |]. exists JUndefined. split; reflexivity.
Defined.

(** [renderAnalysisComponent] returns a view exactly when [sessionId] and
    [dataInfo] are truthy and [currentAnalysis] is the [id] of a menu
    option; the view then carries the controller's [sessionId]. *)
Theorem renderAnalysisComponent_view_iff (s : State) :
  (exists view, renderAnalysisComponent s = Normal (Some view))
  <-> (truthy (sessionId s) = true
       /\ truthy (dataInfo s) = true
       /\ exists id,
           In id AnalysisMenu.analysisOptions
           /\ currentAnalysis s = JStr id).
Proof.
  split.
  - intros (view & Hview). unfold renderAnalysisComponent in Hview.
    destruct (truthy (sessionId s)); cbn [negb orb] in Hview;
      [| discriminate].
    destruct (truthy (dataInfo s)); cbn [negb] in Hview; [| discriminate].
    repeat split.
    destruct (currentAnalysis s) as [| | b | n | tag | l | l];
      cbn [strict_eq_str] in Hview; try discriminate.
    exists tag. split; [| reflexivity]. cbn.
    repeat match type of Hview with
           | (if String.eqb ?a ?b then _ else _) = _ =>
               destruct (String.eqb_spec a b); [subst; tauto |]
           end.
    discriminate.
  - intros (Hsid & Hinfo & id & Hid & Hca).
    destruct (option_id_view s id Hsid Hinfo Hid Hca) as (view & Hview & _).
    eauto.
Qed.

End DrivenController.

(** ** The session a view queries *)

Section SessionOfRequests.

Import UI.

Lemma mount_requests_session
      (view : App.View) (rs : list Outcome)
      (ws : list Widget) (rqs : list Request) :
  Mount.mount (Some view) rs = Normal (ws, rqs) ->
  Forall (for_session (sessionOf view)) rqs.
Proof.
  destruct view as [sid | sid nc | sid | sid dc nc | sid | sid | sid];
    unfold Mount.mount; cbn [sessionOf].
  - rewrite (proj1 first_screens). cbn [cbind].
    intros H. injection H as _ <-. unfold BasicStats.onMount.
    rewrite (asks_run _ _ _ _ (fetchStats_asks sid)).
    repeat constructor.
  - destruct (DistributionAnalysis.init _) as [s0 | e]; cbn [cbind];
      [| discriminate].
    destruct (DistributionAnalysis.screen _ s0) as [ws0 | e]; cbn [cbind];
      [| discriminate].
    intros H. injection H as _ <-. unfold DistributionAnalysis.onEffect.
    destruct (truthy (DistributionAnalysis.selectedColumn s0)).
    + rewrite (asks_run _ _ _ _ (fetchDistributionData_asks _ _)).
      repeat constructor.
    + constructor.
  - rewrite (proj1 (proj2 first_screens)). cbn [cbind].
    intros H. injection H as _ <-. unfold MissingValuesAnalysis.onMount.
    rewrite (asks_run _ _ _ _ (fetchMissingValuesData_asks sid)).
    repeat constructor.
  - destruct (TimeSeriesAnalysis.init _) as [s0 | e]; cbn [cbind];
      [| discriminate].
    destruct (TimeSeriesAnalysis.screen _ s0) as [ws0 | e]; cbn [cbind];
      [| discriminate].
    intros H. injection H as _ <-. unfold TimeSeriesAnalysis.onEffect.
    destruct (truthy (TimeSeriesAnalysis.timeColumn s0)); [| constructor].
    unfold requests, run.
    destruct (get_prop (TimeSeriesAnalysis.selectedColumns s0) "length")
      as [len | e]; cbv beta iota delta [bind lift ret throw].
    + destruct (gt_zero len); [| constructor].
      rewrite fetchTimeSeriesData_asks. repeat constructor.
    + constructor.
  - rewrite (proj1 (proj2 (proj2 first_screens))). cbn [cbind].
    intros H. injection H as _ <-. unfold CorrelationAnalysis.onMount.
    rewrite (asks_run _ _ _ _ (fetchCorrelationData_asks sid)).
    repeat constructor.
  - rewrite (proj1 (proj2 (proj2 (proj2 first_screens)))). cbn [cbind].
    intros H. injection H as _ <-. unfold FullReport.onMount.
    rewrite (asks_run _ _ _ _ (generateReport_asks sid)).
    repeat constructor.
  - rewrite (proj2 (proj2 (proj2 (proj2 first_screens)))). cbn [cbind].
    intros H. injection H as _ <-. constructor.
Qed.

(** Whatever view the controller renders, every request that mounting it
    sends names the controller's own [sessionId] as its [session_id]. *)
Theorem mounted_view_queries_own_session
        (s : App.State) (view : App.View) (rs : list Outcome)
        (ws : list Widget) (rqs : list Request) :
  App.render s = Normal (Some (App.Analysis view)) ->
  Mount.mount (Some view) rs = Normal (ws, rqs) ->
  Forall (for_session (App.sessionId s)) rqs.
Proof.
  intros Hrender Hmount.
  assert (Hof : sessionOf view = App.sessionId s).
  { unfold App.render in Hrender.
    destruct (truthy (App.sessionId s)); cbn [negb] in Hrender;
      [| discriminate].
    destruct (truthy (App.currentAnalysis s)); [| discriminate].
    unfold App.renderAnalysisComponent in Hrender.
    destruct (negb _ || negb _); [discriminate |].
    repeat match type of Hrender with
           | cbind (if ?b then _ else _) _ = _ => destruct b
           | cbind (cbind (get_prop ?v ?n) _) _ = _ =>
               destruct (get_prop v n); cbn [cbind] in Hrender;
               [| discriminate]
           end;
      cbn [cbind option_map] in Hrender; try discriminate;
      injection Hrender as <-; reflexivity. }
  rewrite <- Hof. exact (mount_requests_session view rs ws rqs Hmount).
Qed.

Lemma mounted_view_queries_own_session_witness :
  Forall (for_session (JStr "abc"))
         [mkRequest "/api/analysis/correlation"
                    (JObj [("session_id", JStr "abc")])].
Proof.
  apply (mounted_view_queries_own_session
           (App.mkState (JStr "abc") Scenario.sampleDescriptor
                        (JStr "correlation"))
           (App.CorrelationAnalysis (JStr "abc"))
           [Resolved (JObj [])]
           [Spinner]);
    reflexivity.
Defined.

End SessionOfRequests.

(** ** What handlers keep *)

Section Keeping.

Import Discipline.

Context {St : Type} (P : St -> Prop).

Lemma keeps_ret {A} (a : A) : keeps P (ret a).
Proof. intros w H. exact H. Qed.

Lemma keeps_throw {A} (e : Exn) : keeps P (A := A) (throw e).
Proof. intros w H. exact H. Qed.

Lemma keeps_lift {A} (c : Completion A) : keeps P (lift c).
Proof. destruct c; [apply keeps_ret | apply keeps_throw]. Qed.

Lemma keeps_post (u : string) (b : JsVal) : keeps P (post u b).
Proof.
  intros w H. unfold post.
  destruct (responses w) as [| [d | r] rest]; exact H.
Qed.

Lemma keeps_update (f : St -> St) :
  (forall s, P s -> P (f s)) -> keeps P (update f).
Proof. intros Hf w H. now apply Hf. Qed.

Lemma keeps_call (f : St -> Completion St) :
  (forall s s', P s -> f s = Normal s' -> P s') -> keeps P (call f).
Proof.
  intros Hf w H. unfold call.
  destruct (f (st w)) as [s' | e] eqn:Heq; [| exact H].
  now apply (Hf (st w)).
Qed.

Lemma keeps_bind {A B} (m : M St A) (k : A -> M St B) :
  keeps P m -> (forall a, keeps P (k a)) -> keeps P (bind m k).
Proof.
  intros Hm Hk w H. unfold bind. specialize (Hm w H).
  destruct (m w) as [[a | e |] w']; cbn [snd] in *; auto.
  now apply Hk.
Qed.

Lemma keeps_if {A} (b : bool) (m1 m2 : M St A) :
  keeps P m1 -> keeps P m2 -> keeps P (if b then m1 else m2).
Proof. destruct b; auto. Qed.

Lemma keeps_try_catch {A} (body : M St A) (handler : Exn -> M St A) :
  keeps P body -> (forall e, keeps P (handler e)) ->
  keeps P (try_catch body handler).
Proof.
  intros Hb Hh w H. unfold try_catch. specialize (Hb w H).
  destruct (body w) as [[a | e |] w']; cbn [snd] in *; auto.
  now apply Hh.
Qed.

Lemma keeps_finally {A} (body : M St A) (fin : M St unit) :
  keeps P body -> keeps P fin -> keeps P (finally body fin).
Proof.
  intros Hb Hf w H. unfold finally. specialize (Hb w H).
  destruct (body w) as [[a | e |] w']; cbn [snd] in *; auto;
    specialize (Hf w' Hb);
    destruct (fin w') as [[[] | e' |] w'']; cbn [snd] in *; auto.
Qed.

Lemma keeps_run {A} (m : M St A) (rs : list Outcome) (s : St) :
  keeps P m -> P s -> P (final (run m rs s)).
Proof. intros Hm Hs. now apply Hm. Qed.

End Keeping.

(** Follow the shape of a handler; what is left is that each setter it
    calls keeps the property. *)
Ltac keeping :=
  repeat
    (cbv beta;
     lazymatch goal with
     | |- Discipline.keeps _ (finally _ _) => apply keeps_finally
     | |- Discipline.keeps _ (try_catch _ _) => apply keeps_try_catch
     | |- Discipline.keeps _ (bind _ _) => apply keeps_bind
     | |- Discipline.keeps _ (if _ then _ else _) => apply keeps_if
     | |- Discipline.keeps _ (post _ _) => apply keeps_post
     | |- Discipline.keeps _ (update _) => apply keeps_update
     | |- Discipline.keeps _ (call _) => apply keeps_call
     | |- Discipline.keeps _ (lift _) => apply keeps_lift
     | |- Discipline.keeps _ (ret _) => apply keeps_ret
     | |- forall _ : Exn, _ => intro
     | |- forall _ : JsVal, _ => intro
     | |- forall _ : unit, _ => intro
     end).

(** ** The upload form: accepted, refused and failed uploads *)

(** Split on what the awaited response holds, as far as the handler looks
    at it. *)
Ltac by_outcome :=
  repeat (step_handler;
          match goal with
          | |- context [get_prop ?d ?n] => destruct (get_prop d n)
          | |- context [truthy ?e] => destruct (truthy e)
          | |- context [App.handleDataLoaded ?r ?a] =>
              destruct (App.handleDataLoaded r a)
          end);
  step_handler.

Section UploadOutcomes.

Import DataUpload Scenario Discipline.

Variables (a : App.State) (l : St) (rest : list Outcome).

Lemma js_or_number (z : Z) : js_or (JNum z) (JNum 0) = JNum z.
Proof.
  unfold js_or. cbn. destruct (Z.eqb_spec z 0); subst; reflexivity.
Qed.

Lemma handleFileUpload_accepted_run (result err sid : JsVal) :
  truthy (selectedFile l) = true ->
  get_prop result "error" = Normal err ->
  truthy err = false ->
  get_prop result "session_id" = Normal sid ->
  exists b,
    submit l (Resolved result :: rest) a
    = (Done tt,
       mkWorld (App.mkState sid result JNull,
                setLoading false
                  (setShowOptions false
                     (setError JNull (setLoading true l))))
               rest [mkRequest "/api/upload/file" b]).
Proof.
  intros Hfile Herr Hf Hsid. eexists.
  unfold submit, handleFileUpload. rewrite Hfile. cbn [negb].
  unfold Api.uploadFile.
  cbn [get_prop lookup String.eqb Ascii.eqb Bool.eqb is_undefined].
  answer Herr Hf. unfold App.handleDataLoaded. rewrite Hsid.
  step_handler. reflexivity.
Qed.

Lemma handleSampleData_accepted_run (result err sid : JsVal) :
  get_prop result "error" = Normal err ->
  truthy err = false ->
  get_prop result "session_id" = Normal sid ->
  loadSample l (Resolved result :: rest) a
  = (Done tt,
     mkWorld (App.mkState sid result JNull,
              setLoading false (setError JNull (setLoading true l)))
             rest [mkRequest "/api/upload/sample" JUndefined]).
Proof.
  intros Herr Hf Hsid.
  unfold loadSample, handleSampleData, Api.loadSampleData.
  answer Herr Hf. unfold App.handleDataLoaded. rewrite Hsid.
  step_handler. reflexivity.
Qed.

Lemma handleFileUpload_failed_run (o : Outcome) (msg : string) :
  truthy (selectedFile l) = true ->
  failed_with o msg ->
  exists b,
    submit l (o :: rest) a
    = (Done tt,
       mkWorld (a, setLoading false
                     (setError (JStr ("Error uploading file: " ++ msg))
                        (setError JNull (setLoading true l))))
               rest [mkRequest "/api/upload/file" b]).
Proof.
  intros Hfile Hfail. eexists.
  unfold submit, handleFileUpload. rewrite Hfile. cbn [negb].
  unfold Api.uploadFile.
  cbn [get_prop lookup String.eqb Ascii.eqb Bool.eqb is_undefined].
  destruct Hfail as [-> | (d & e & -> & Herr & ->)].
  - step_handler. reflexivity.
  - step_handler. rewrite Herr. step_handler. reflexivity.
Qed.

Lemma handleSampleData_failed_run (o : Outcome) (msg : string) :
  failed_with o msg ->
  loadSample l (o :: rest) a
  = (Done tt,
     mkWorld (a, setLoading false
                   (setError (JStr ("Error loading sample data: " ++ msg))
                      (setError JNull (setLoading true l))))
             rest [mkRequest "/api/upload/sample" JUndefined]).
Proof.
  intros Hfail.
  unfold loadSample, handleSampleData, Api.loadSampleData.
  destruct Hfail as [-> | (d & e & -> & Herr & ->)].
  - step_handler. reflexivity.
  - step_handler. rewrite Herr. step_handler. reflexivity.
Qed.

End UploadOutcomes.

Section UploadClaimsMore.

Import DataUpload Scenario Discipline.

(** A response to the sample request, or to the upload once a file is
    chosen, whose [error] is falsy and whose [session_id] is truthy puts
    the controller in the session it describes, with the menu on screen;
    the form is left without error or spinner, and after an upload the
    options dialog is closed. *)
Theorem accepted_upload_opens_menu
        (a : App.State) (l : St) (result err sid : JsVal)
        (rest : list Outcome) :
  get_prop result "error" = Normal err ->
  truthy err = false ->
  get_prop result "session_id" = Normal sid ->
  truthy sid = true ->
  (truthy (selectedFile l) = true ->
   status (submit l (Resolved result :: rest) a) = Done tt
   /\ controller (final (submit l (Resolved result :: rest) a))
      = App.mkState sid result JNull
   /\ App.render (controller (final (submit l (Resolved result :: rest) a)))
      = Normal (Some (App.AnalysisMenu result))
   /\ error (form (final (submit l (Resolved result :: rest) a))) = JNull
   /\ loading (form (final (submit l (Resolved result :: rest) a))) = false
   /\ showOptions (form (final (submit l (Resolved result :: rest) a)))
      = false)
  /\ (status (loadSample l (Resolved result :: rest) a) = Done tt
      /\ controller (final (loadSample l (Resolved result :: rest) a))
         = App.mkState sid result JNull
      /\ App.render
           (controller (final (loadSample l (Resolved result :: rest) a)))
         = Normal (Some (App.AnalysisMenu result))
      /\ error (form (final (loadSample l (Resolved result :: rest) a)))
         = JNull
      /\ loading (form (final (loadSample l (Resolved result :: rest) a)))
         = false).
Proof.
  intros Herr Hf Hsid Ht. split.
  - intros Hfile.
    destruct (handleFileUpload_accepted_run a l rest result err sid
                Hfile Herr Hf Hsid) as (b & ->).
    cbn [status final fst snd st controller form].
    unfold App.render. cbn. rewrite Ht. repeat split.
  - rewrite (handleSampleData_accepted_run a l rest result err sid
               Herr Hf Hsid).
    cbn [status final fst snd st controller form].
    unfold App.render. cbn. rewrite Ht. repeat split.
Qed.

Lemma accepted_upload_opens_menu_witness :
  App.render (controller (final (submit fileChosen
                                        [Resolved sampleDescriptor]
                                        App.initial)))
  = Normal (Some (App.AnalysisMenu sampleDescriptor))
  /\ App.render (controller (final (loadSample init
                                                [Resolved sampleDescriptor]
                                                App.initial)))
     = Normal (Some (App.AnalysisMenu sampleDescriptor)).
Proof.
  split.
  - destruct (accepted_upload_opens_menu
                App.initial fileChosen sampleDescriptor JUndefined
                (JStr "abc") [] eq_refl eq_refl eq_refl eq_refl)
      as (H & _).
    destruct (H eq_refl) as (_ & _ & Hmenu & _). exact Hmenu.
  - destruct (accepted_upload_opens_menu
                App.initial init sampleDescriptor JUndefined
                (JStr "abc") [] eq_refl eq_refl eq_refl eq_refl)
      as (_ & _ & _ & Hmenu & _).
    exact Hmenu.
Defined.

(** A response whose [error] is falsy and whose [session_id] is falsy too
    (absent, say) is taken for a session all the same: the controller keeps
    the response as [dataInfo], and the user stays on the upload form with
    the dialog closed and no alert to tell why. *)
Theorem upload_without_session_id_is_silent
        (a : App.State) (l : St) (result err sid : JsVal)
        (rest : list Outcome) :
  truthy (selectedFile l) = true ->
  get_prop result "error" = Normal err ->
  truthy err = false ->
  get_prop result "session_id" = Normal sid ->
  truthy sid = false ->
  status (submit l (Resolved result :: rest) a) = Done tt
  /\ App.dataInfo (controller (final (submit l (Resolved result :: rest) a)))
     = result
  /\ App.render (controller (final (submit l (Resolved result :: rest) a)))
     = Normal (Some App.DataUpload)
  /\ showOptions (form (final (submit l (Resolved result :: rest) a)))
     = false
  /\ no_alert
       (render (form (final (submit l (Resolved result :: rest) a)))).
Proof.
  intros Hfile Herr Hf Hsid Ht.
  destruct (handleFileUpload_accepted_run a l rest result err sid
              Hfile Herr Hf Hsid) as (b & ->).
  cbn [status final fst snd st controller form].
  unfold App.render. cbn [App.sessionId App.dataInfo]. rewrite Ht.
  repeat split.
  intros sev content. unfold render. cbn. intuition discriminate.
Qed.

Lemma upload_without_session_id_is_silent_witness :
  App.render (controller (final (submit fileChosen
                                        [Resolved (JObj [("rows", JNum 3)])]
                                        App.initial)))
  = Normal (Some App.DataUpload).
Proof.
  destruct (upload_without_session_id_is_silent
              App.initial fileChosen (JObj [("rows", JNum 3)]) JUndefined
              JUndefined [] eq_refl eq_refl eq_refl eq_refl eq_refl)
    as (_ & _ & H & _).
  exact H.
Defined.

(** When the request is rejected, or the body is [null] or [undefined],
    the handler catches the failure: the controller is as it was, the form
    holds the message behind the handler's own prefix and the spinner is
    off; after a failed upload the file and the open dialog are kept for
    another try. *)
Theorem failed_upload_is_reported
        (a : App.State) (l : St) (o : Outcome) (msg : string)
        (rest : list Outcome) :
  failed_with o msg ->
  (truthy (selectedFile l) = true ->
   status (submit l (o :: rest) a) = Done tt
   /\ controller (final (submit l (o :: rest) a)) = a
   /\ error (form (final (submit l (o :: rest) a)))
      = JStr ("Error uploading file: " ++ msg)
   /\ loading (form (final (submit l (o :: rest) a))) = false
   /\ showOptions (form (final (submit l (o :: rest) a))) = showOptions l
   /\ selectedFile (form (final (submit l (o :: rest) a)))
      = selectedFile l)
  /\ (status (loadSample l (o :: rest) a) = Done tt
      /\ controller (final (loadSample l (o :: rest) a)) = a
      /\ error (form (final (loadSample l (o :: rest) a)))
         = JStr ("Error loading sample data: " ++ msg)
      /\ loading (form (final (loadSample l (o :: rest) a))) = false).
Proof.
  intros Hfail. split.
  - intros Hfile.
    destruct (handleFileUpload_failed_run a l rest o msg Hfile Hfail)
      as (b & ->).
    repeat split.
  - rewrite (handleSampleData_failed_run a l rest o msg Hfail).
    repeat split.
Qed.

Lemma failed_upload_is_reported_witness :
  error (form (final (submit fileChosen
                             [Rejected "timeout of 60000ms exceeded"]
                             App.initial)))
  = JStr "Error uploading file: timeout of 60000ms exceeded"
  /\ error (form (final (loadSample init
                                    [Rejected "timeout of 60000ms exceeded"]
                                    App.initial)))
     = JStr "Error loading sample data: timeout of 60000ms exceeded".
Proof.
  split.
  - destruct (failed_upload_is_reported
                App.initial fileChosen
                (Rejected "timeout of 60000ms exceeded")
                "timeout of 60000ms exceeded" [] (or_introl eq_refl))
      as (H & _).
    destruct (H eq_refl) as (_ & _ & Herror & _). exact Herror.
  - destruct (failed_upload_is_reported
                App.initial init
                (Rejected "timeout of 60000ms exceeded")
                "timeout of 60000ms exceeded" [] (or_introl eq_refl))
      as (_ & _ & _ & Herror & _).
    exact Herror.
Defined.

End UploadClaimsMore.

(** ** The upload form: choosing a file, the dialog, the settings *)

Section FormRequests.

Context {St : Type}.

Lemma asks_call (f : St -> Completion St) : asks (call f) [].
Proof.
  intros w. unfold call. destruct (f (st w)); cbn; now rewrite app_nil_r.
Qed.

End FormRequests.

Section FormHandlers.

Import DataUpload UploadForm Scenario Discipline.

Lemma uploadFile_asks (file : JsVal) (h : bool) (skip header : Z) :
  asks (St := Both)
       (Api.uploadFile file
          (JObj [("has_header", JBool h);
                 ("skip_rows", JNum skip);
                 ("header_row", JNum header)]))
       [mkRequest "/api/upload/file"
                  (JObj [("file", file);
                         ("has_header", JBool h);
                         ("skip_rows", JNum skip);
                         ("header_row", JNum header)])].
Proof.
  intros w. unfold Api.uploadFile.
  cbn [get_prop lookup String.eqb Ascii.eqb Bool.eqb is_undefined].
  cbv beta iota delta [bind lift ret]. rewrite !js_or_number.
  cbn [is_undefined negb]. apply asks_post.
Qed.

Lemma handleFileUpload_asks (l : St) :
  truthy (selectedFile l) = true ->
  asks (handleFileUpload l)
       [mkRequest "/api/upload/file"
                  (JObj [("file", selectedFile l);
                         ("has_header", JBool (hasHeader l));
                         ("skip_rows", JNum (skipRows l));
                         ("header_row", JNum (headerRow l))])].
Proof.
  intros Hfile. unfold handleFileUpload. rewrite Hfile. cbn [negb].
  unfold set, onDataLoaded.
  repeat apply asks_update_bind. apply asks_finally; [| apply asks_update].
  apply asks_try_catch; [| intro; apply asks_update].
  apply asks_bind_quiet; [apply uploadFile_asks |].
  intros result. apply asks_bind_quiet; [apply asks_lift |].
  intros err. apply asks_if; [apply asks_update |].
  apply asks_bind_quiet; [apply asks_call | intro; apply asks_update].
Qed.

(** The upload request carries the chosen file and the three settings of
    the form exactly as they stand, a [false] for the header and a zero
    for the rows included, whatever the backend then answers. *)
Theorem upload_request_carries_settings
        (a : App.State) (l : St) (rs : list Outcome) :
  truthy (selectedFile l) = true ->
  requests (submit l rs a)
  = [mkRequest "/api/upload/file"
               (JObj [("file", selectedFile l);
                      ("has_header", JBool (hasHeader l));
                      ("skip_rows", JNum (skipRows l));
                      ("header_row", JNum (headerRow l))])].
Proof.
  intros Hfile. unfold submit.
  now rewrite (asks_run _ _ _ _ (handleFileUpload_asks l Hfile)).
Qed.

Lemma upload_request_carries_settings_witness :
  requests (submit (setHasHeader false fileChosen) [] App.initial)
  = [mkRequest "/api/upload/file"
               (JObj [("file", JObj [("name", JStr "data.csv")]);
                      ("has_header", JBool false);
                      ("skip_rows", JNum 0);
                      ("header_row", JNum 0)])].
Proof.
  exact (upload_request_carries_settings
           App.initial (setHasHeader false fileChosen) [] eq_refl).
Defined.

Lemma handleFileSelect_asks (l : St) (file : JsVal) :
  asks (handleFileSelect l file)
       (if truthy file && String.eqb (dataSource l) "upload"
        then [mkRequest "/api/upload/preview" (JObj [("file", file)])]
        else []).
Proof.
  unfold handleFileSelect.
  destruct (truthy file); cbn [negb andb]; [| apply asks_ret].
  unfold set, Api.previewFile.
  destruct (String.eqb (dataSource l) "upload").
  - one_request.
  - intros w. cbv beta iota delta [bind update ret]. cbn.
    now rewrite app_nil_r.
Qed.

Lemma handleFileSelect_keeps_controller
      (l : St) (file : JsVal) (a : App.State) :
  keeps (fun b : Both => controller b = a) (handleFileSelect l file).
Proof.
  unfold handleFileSelect, set, Api.previewFile.
  keeping; auto.
Qed.

(** Choosing a file sends a preview request only when a file was really
    chosen and the source is ['upload']; and whatever the backend then
    does, the controller is not touched. *)
Theorem file_choice_previews_uploads_only
        (l : St) (file : JsVal) (rs : list Outcome) (a : App.State) :
  requests (run (handleFileSelect l file) rs (a, l))
  = (if truthy file && String.eqb (dataSource l) "upload"
     then [mkRequest "/api/upload/preview" (JObj [("file", file)])]
     else [])
  /\ controller (final (run (handleFileSelect l file) rs (a, l))) = a.
Proof.
  split.
  - apply asks_run, handleFileSelect_asks.
  - apply (keeps_run _ _ _ _ (handleFileSelect_keeps_controller l file a)).
    reflexivity.
Qed.

Lemma rows_of_lists (rows : list JsVal) :
  Forall (fun row => exists cells, row = JArr cells) rows ->
  for_each (fun row => let* _ := array_method "row" "map" row in Normal tt)
           rows
  = Normal tt.
Proof.
  induction 1 as [| row rows' (cells & ->) _ IH]; [reflexivity |].
  cbn [for_each array_method cbind]. exact IH.
Qed.

(** In upload mode, whatever body the preview request resolves to becomes
    the preview, with the dialog set to open and no error stored: the
    [error] field of the body is not looked at.  A body with a list of
    columns and a list of rows, each row a list, is then drawn in the open
    dialog, without an alert; a truthy body without a list of columns,
    such as one that only reports an error, makes the form throw when it
    renders. *)
Theorem preview_body_opens_dialog
        (l : St) (file body : JsVal) (rest : list Outcome) (a : App.State) :
  truthy file = true ->
  dataSource l = "upload" ->
  status (choose l file (Resolved body :: rest) a) = Done tt
  /\ previewData (form (final (choose l file (Resolved body :: rest) a)))
     = body
  /\ showOptions (form (final (choose l file (Resolved body :: rest) a)))
     = true
  /\ selectedFile (form (final (choose l file (Resolved body :: rest) a)))
     = file
  /\ error (form (final (choose l file (Resolved body :: rest) a)))
     = JNull
  /\ loading (form (final (choose l file (Resolved body :: rest) a)))
     = false
  /\ (forall cols rows,
         get_prop body "columns" = Normal (JArr cols) ->
         get_prop body "preview_data" = Normal (JArr rows) ->
         Forall (fun row => exists cells, row = JArr cells) rows ->
         exists ws,
           screen (form (final (choose l file (Resolved body :: rest) a)))
           = Normal ws
           /\ In (DataPanel body) ws
           /\ no_alert ws)
  /\ (truthy body = true ->
      (forall cols, get_prop body "columns" <> Normal (JArr cols)) ->
      exists e,
        screen (form (final (choose l file (Resolved body :: rest) a)))
        = Abrupt e).
Proof.
  intros Hfile Hsrc. unfold choose, handleFileSelect, Api.previewFile.
  rewrite Hfile, Hsrc. cbn [negb String.eqb Ascii.eqb Bool.eqb].
  step_handler.
  split; [reflexivity |]. split; [reflexivity |]. split; [reflexivity |].
  split; [reflexivity |]. split; [reflexivity |]. split; [reflexivity |].
  unfold screen, jsx, render.
  cbn [previewData showOptions error setLoading setShowOptions
       setPreviewData setError setSelectedFile].
  split.
  - intros cols rows Hcols Hrows Hlists.
    assert (Hbody : truthy body = true).
    { destruct body; cbn in Hcols |- *; try discriminate; try reflexivity;
        destruct (String.eqb "columns" "length") eqn:E;
        cbn in E; discriminate. }
    rewrite Hbody, Hcols, Hrows.
    cbn [cbind array_method]. rewrite (rows_of_lists rows Hlists).
    cbn [cbind truthy]. eexists. split; [reflexivity |]. split.
    + cbn. auto 10.
    + intros sev content. cbn. intuition discriminate.
  - intros Hbody Hnone. rewrite Hbody.
    destruct (get_prop body "columns") as [[| | b | n | t | cols | fs] | e];
      cbn [cbind array_method]; eauto.
    now contradiction (Hnone cols).
Qed.

Lemma preview_body_opens_dialog_witness :
  (exists ws,
      screen (form (final (choose (setDataSource "upload" init)
                                  (JObj [("name", JStr "data.csv")])
                                  [Resolved samplePreview] App.initial)))
      = Normal ws
      /\ In (DataPanel samplePreview) ws
      /\ no_alert ws)
  /\ exists e,
      screen (form (final (choose
                             (setDataSource "upload" init)
                             (JObj [("name", JStr "data.csv")])
                             [Resolved
                                (JObj [("error",
                                         JStr "Unsupported format")])]
                             App.initial)))
      = Abrupt e.
Proof.
  split.
  - destruct (preview_body_opens_dialog
                (setDataSource "upload" init)
                (JObj [("name", JStr "data.csv")]) samplePreview
                [] App.initial eq_refl eq_refl)
      as (_ & _ & _ & _ & _ & _ & H & _).
    apply (H [JStr "date"; JStr "price"]
             [JArr [JStr "2024-01-01"; JNum 3]]);
      [reflexivity | reflexivity |].
    constructor; [eexists; reflexivity | constructor].
  - destruct (preview_body_opens_dialog
                (setDataSource "upload" init)
                (JObj [("name", JStr "data.csv")])
                (JObj [("error", JStr "Unsupported format")])
                [] App.initial eq_refl eq_refl)
      as (_ & _ & _ & _ & _ & _ & _ & H).
    apply H; [reflexivity |]. intros cols. discriminate.
Defined.

(** Once the dialog is closed the file is forgotten: pressing the process
    button then sends nothing and changes nothing. *)
Theorem closed_dialog_sends_nothing (b : Both) (rs : list Outcome) :
  run (handleFileUpload (form (after b OptionsClosed))) rs
      (after b OptionsClosed)
  = (Done tt, mkWorld (after b OptionsClosed) rs [])
  /\ showOptions (form (after b OptionsClosed)) = false
  /\ previewData (form (after b OptionsClosed)) = JNull.
Proof.
  repeat split.
Qed.

Lemma async_keeps_rows (b0 : Both) :
  let P := fun b : Both =>
             skipRows (form b) = skipRows (form b0)
             /\ headerRow (form b) = headerRow (form b0) in
  (forall file, keeps P (handleFileSelect (form b0) file))
  /\ keeps P (handleFileUpload (form b0))
  /\ keeps P handleSampleData
  /\ keeps P handleCloseOptions.
Proof.
  intros P.
  assert (Hload : forall r (s s' : Both),
             P s ->
             cbind (App.handleDataLoaded r (controller s))
                   (fun a => Normal (a, form s)) = Normal s' ->
             P s').
  { intros r s s' Hs H.
    destruct (App.handleDataLoaded r (controller s)); [| discriminate].
    injection H as <-. exact Hs. }
  split; [| split; [| split]].
  - intros file. unfold handleFileSelect, set, Api.previewFile.
    keeping; auto.
  - unfold handleFileUpload, set, onDataLoaded, Api.uploadFile.
    keeping; auto; apply Hload.
  - unfold handleSampleData, set, onDataLoaded, Api.loadSampleData.
    keeping; auto; apply Hload.
  - unfold handleCloseOptions, set. keeping; auto.
Qed.

Lemma after_rows_nonnegative (b : Both) (e : Event) :
  (0 <= skipRows (form b))%Z /\ (0 <= headerRow (form b))%Z ->
  (0 <= skipRows (form (after b e)))%Z
  /\ (0 <= headerRow (form (after b e)))%Z.
Proof.
  intros [Hs Hh].
  destruct (async_keeps_rows b) as (Hselect & Hupload & Hsample & Hclose).
  destruct e as [v | file rs | v | v | v | rs | rs |]; cbn [after].
  - split; assumption.
  - destruct (keeps_run _ _ rs b (Hselect file)) as [-> ->]; auto.
  - split; assumption.
  - cbn. split; [apply Z.le_max_l | assumption].
  - cbn. split; [assumption | apply Z.le_max_l].
  - destruct (keeps_run _ _ rs b Hupload) as [-> ->]; auto.
  - destruct (keeps_run _ _ rs b Hsample) as [-> ->]; auto.
  - destruct (keeps_run _ _ [] b Hclose) as [-> ->]; auto.
Qed.

(** Whatever the user types, chooses and presses, and whatever the backend
    answers, the rows to skip and the header row of the form are never
    negative, and so neither are those an upload request carries. *)
Theorem form_rows_never_negative
        (a : App.State) (es : list Event) (rs : list Outcome) :
  (0 <= skipRows (form (afterAll a es)))%Z
  /\ (0 <= headerRow (form (afterAll a es)))%Z
  /\ (truthy (selectedFile (form (afterAll a es))) = true ->
      exists file h skip header,
        (0 <= skip)%Z /\ (0 <= header)%Z
        /\ requests (run (handleFileUpload (form (afterAll a es))) rs
                         (afterAll a es))
           = [mkRequest "/api/upload/file"
                        (JObj [("file", file);
                               ("has_header", JBool h);
                               ("skip_rows", JNum skip);
                               ("header_row", JNum header)])]).
Proof.
  assert (H : (0 <= skipRows (form (afterAll a es)))%Z
              /\ (0 <= headerRow (form (afterAll a es)))%Z).
  { unfold afterAll.
    assert (Hgen : forall b,
               (0 <= skipRows (form b))%Z /\ (0 <= headerRow (form b))%Z ->
               (0 <= skipRows (form (fold_left after es b)))%Z
               /\ (0 <= headerRow (form (fold_left after es b)))%Z).
    { induction es as [| e es' IH]; intros b Hb; [exact Hb |].
      cbn [fold_left]. apply IH. now apply after_rows_nonnegative. }
    apply Hgen. cbn. lia. }
  destruct H as [Hs Hh]. repeat split; try assumption.
  intros Hfile. do 4 eexists. split; [exact Hs |]. split; [exact Hh |].
  now rewrite (asks_run _ _ _ _ (handleFileUpload_asks _ Hfile)).
Qed.

End FormHandlers.

(** ** Spinners and escaped exceptions *)

Ltac settle_it :=
  first [ left; split; reflexivity | right; split; reflexivity ].

Section Settling.

Import Scenario Discipline.

Lemma fetchMissingValuesData_waiting
      (sid : JsVal) (s : MissingValuesAnalysis.St) (log : list Request) :
  MissingValuesAnalysis.fetchMissingValuesData sid (mkWorld s [] log)
  = (Suspended,
     mkWorld s []
             (log ++ [mkRequest "/api/analysis/missing-values"
                                (JObj [("session_id", sid)])])%list).
Proof. reflexivity. Qed.

Lemma applyMethod_settles
      (sid : JsVal) (l : MissingValuesAnalysis.St) (rs : list Outcome) :
  truthy (MissingValuesAnalysis.handlingMethod l) = true ->
  settled MissingValuesAnalysis.processing (applyMethod sid l rs).
Proof.
  intros Hm.
  unfold settled, applyMethod,
    MissingValuesAnalysis.handleMissingValuesAction, Api.handleMissingValues.
  rewrite Hm. cbn [negb].
  destruct rs as [| [d | r] rest]; step_handler; try settle_it.
  destruct (get_prop d "error") as [e | x]; step_handler; try settle_it.
  destruct (truthy e); step_handler; try settle_it.
  destruct rest as [| o rest'].
  - rewrite fetchMissingValuesData_waiting. step_handler. settle_it.
  - match goal with
    | |- context [MissingValuesAnalysis.fetchMissingValuesData sid
                    (mkWorld ?s (o :: rest') ?log)] =>
        destruct (fetchMissingValuesData_answered sid s o rest' log)
          as (s' & -> & _ & _)
    end.
    step_handler. settle_it.
Qed.

(** Every asynchronous handler ends in one of two ways, whatever the
    backend answers: waiting for a response with its spinner on, or
    returned with its spinner off.  No exception escapes any of them.
    (The three views that fetch once on mount start with the spinner on;
    the missing-values view shows its apply as [processing].) *)
Theorem handlers_settle (sid : JsVal) (rs : list Outcome) :
  (forall a l, truthy (DataUpload.selectedFile l) = true ->
     settled (fun b => DataUpload.loading (DataUpload.form b))
             (submit l rs a))
  /\ (forall a l,
        settled (fun b => DataUpload.loading (DataUpload.form b))
                (loadSample l rs a))
  /\ (forall a l file,
        truthy file = true -> DataUpload.dataSource l = "upload" ->
        settled (fun b => DataUpload.loading (DataUpload.form b))
                (run (DataUpload.handleFileSelect l file) rs (a, l)))
  /\ settled BasicStats.loading
             (run (BasicStats.fetchStats sid) rs BasicStats.init)
  /\ settled CorrelationAnalysis.loading
             (run (CorrelationAnalysis.fetchCorrelationData sid) rs
                  CorrelationAnalysis.init)
  /\ settled MissingValuesAnalysis.loading
             (run (MissingValuesAnalysis.fetchMissingValuesData sid) rs
                  MissingValuesAnalysis.init)
  /\ (forall l, truthy (MissingValuesAnalysis.handlingMethod l) = true ->
        settled MissingValuesAnalysis.processing (applyMethod sid l rs))
  /\ (forall p column s,
        settled DistributionAnalysis.loading
                (run (DistributionAnalysis.fetchDistributionData p column)
                     rs s))
  /\ (forall p l s,
        settled TimeSeriesAnalysis.loading
                (run (TimeSeriesAnalysis.fetchTimeSeriesData p l) rs s))
  /\ (forall s,
        settled FullReport.loading (run (FullReport.generateReport sid) rs s))
  /\ (forall l,
        ChatBot.trim (ChatBot.input l) <> "" -> ChatBot.loading l = false ->
        settled ChatBot.loading (run (ChatBot.handleSendMessage sid l) rs l)).
Proof.
  repeat match goal with |- _ /\ _ => split end.
  - intros a l Hfile.
    unfold settled, submit, DataUpload.handleFileUpload, Api.uploadFile.
    rewrite Hfile. cbn [negb].
    cbn [get_prop lookup String.eqb Ascii.eqb Bool.eqb is_undefined].
    destruct rs as [| [d | r] rest]; by_outcome; settle_it.
  - intros a l.
    unfold settled, loadSample, DataUpload.handleSampleData,
      Api.loadSampleData.
    destruct rs as [| [d | r] rest]; by_outcome; settle_it.
  - intros a l file Hfile Hsrc.
    unfold settled, DataUpload.handleFileSelect, Api.previewFile.
    rewrite Hfile, Hsrc. cbn [negb String.eqb Ascii.eqb Bool.eqb].
    destruct rs as [| [d | r] rest]; step_handler; settle_it.
  - unfold settled, BasicStats.fetchStats, Api.getBasicStats.
    destruct rs as [| [d | r] rest]; by_outcome; settle_it.
  - unfold settled, CorrelationAnalysis.fetchCorrelationData,
      Api.getCorrelationAnalysis.
    destruct rs as [| [d | r] rest]; by_outcome; settle_it.
  - unfold settled, MissingValuesAnalysis.fetchMissingValuesData,
      Api.getMissingValuesAnalysis.
    destruct rs as [| [d | r] rest]; by_outcome; settle_it.
  - intros l Hm. now apply applyMethod_settles.
  - intros p column s.
    unfold settled, DistributionAnalysis.fetchDistributionData,
      Api.getDistributionAnalysis.
    destruct rs as [| [d | r] rest]; by_outcome; settle_it.
  - intros p l s.
    unfold settled, TimeSeriesAnalysis.fetchTimeSeriesData,
      Api.getTimeSeriesData.
    destruct rs as [| [d | r] rest]; by_outcome; settle_it.
  - intros s.
    unfold settled, FullReport.generateReport, Api.getComprehensiveReport.
    destruct rs as [| [d | r] rest]; by_outcome; settle_it.
  - intros l Hin Hl.
    unfold settled, ChatBot.handleSendMessage, Api.sendChatMessage.
    rewrite Hl. cbn [truthy].
    destruct (String.eqb_spec (ChatBot.trim (ChatBot.input l)) "");
      [contradiction |].
    cbn [negb orb].
    destruct rs as [| [d | r] rest]; by_outcome; settle_it.
Qed.

End Settling.

(** ** What a view holds after a fetch *)

Section AfterFetch.

Import Scenario Discipline.

(** After the answer to their one fetch on mount, the basic-statistics,
    correlation and missing-values views hold either a truthy error and no
    data, or no error and the body that arrived as their data; the report
    view holds either a truthy error and no report, or no error and a
    report object.  None of them ever holds both. *)
Theorem first_fetch_error_or_data
        (sid : JsVal) (o : Outcome) (rest : list Outcome) :
  ((truthy (BasicStats.error
              (final (run (BasicStats.fetchStats sid) (o :: rest)
                          BasicStats.init))) = true
    /\ BasicStats.data
         (final (run (BasicStats.fetchStats sid) (o :: rest)
                     BasicStats.init)) = JNull)
   \/ (BasicStats.error
         (final (run (BasicStats.fetchStats sid) (o :: rest)
                     BasicStats.init)) = JNull
       /\ o = Resolved
                (BasicStats.data
                   (final (run (BasicStats.fetchStats sid) (o :: rest)
                               BasicStats.init)))))
  /\ ((truthy (CorrelationAnalysis.error
                 (final (run (CorrelationAnalysis.fetchCorrelationData sid)
                             (o :: rest) CorrelationAnalysis.init))) = true
       /\ CorrelationAnalysis.data
            (final (run (CorrelationAnalysis.fetchCorrelationData sid)
                        (o :: rest) CorrelationAnalysis.init)) = JNull)
      \/ (CorrelationAnalysis.error
            (final (run (CorrelationAnalysis.fetchCorrelationData sid)
                        (o :: rest) CorrelationAnalysis.init)) = JNull
          /\ o = Resolved
                   (CorrelationAnalysis.data
                      (final (run
                                (CorrelationAnalysis.fetchCorrelationData sid)
                                (o :: rest) CorrelationAnalysis.init)))))
  /\ ((truthy (MissingValuesAnalysis.error
                 (final (run
                           (MissingValuesAnalysis.fetchMissingValuesData sid)
                           (o :: rest) MissingValuesAnalysis.init))) = true
       /\ MissingValuesAnalysis.data
            (final (run (MissingValuesAnalysis.fetchMissingValuesData sid)
                        (o :: rest) MissingValuesAnalysis.init)) = JNull)
      \/ (MissingValuesAnalysis.error
            (final (run (MissingValuesAnalysis.fetchMissingValuesData sid)
                        (o :: rest) MissingValuesAnalysis.init)) = JNull
          /\ o = Resolved
                   (MissingValuesAnalysis.data
                      (final (run
                                (MissingValuesAnalysis.fetchMissingValuesData
                                   sid)
                                (o :: rest) MissingValuesAnalysis.init)))))
  /\ ((truthy (FullReport.error
                 (final (run (FullReport.generateReport sid) (o :: rest)
                             FullReport.init))) = true
       /\ FullReport.reportData
            (final (run (FullReport.generateReport sid) (o :: rest)
                        FullReport.init)) = JNull)
      \/ (FullReport.error
            (final (run (FullReport.generateReport sid) (o :: rest)
                        FullReport.init)) = JNull
          /\ exists sections,
              FullReport.reportData
                (final (run (FullReport.generateReport sid) (o :: rest)
                            FullReport.init)) = JObj sections)).
Proof.
  repeat match goal with |- _ /\ _ => split end.
  - unfold BasicStats.fetchStats, Api.getBasicStats.
    destruct o as [d | r]; step_handler; [| left; split; reflexivity].
    destruct (get_prop d "error") as [e | x]; step_handler;
      [| left; split; reflexivity].
    destruct (truthy e) eqn:He; step_handler;
      [left; split; [exact He | reflexivity] | right; split; reflexivity].
  - unfold CorrelationAnalysis.fetchCorrelationData,
      Api.getCorrelationAnalysis.
    destruct o as [d | r]; step_handler; [| left; split; reflexivity].
    destruct (get_prop d "error") as [e | x]; step_handler;
      [| left; split; reflexivity].
    destruct (truthy e) eqn:He; step_handler;
      [left; split; [exact He | reflexivity] | right; split; reflexivity].
  - unfold MissingValuesAnalysis.fetchMissingValuesData,
      Api.getMissingValuesAnalysis.
    destruct o as [d | r]; step_handler; [| left; split; reflexivity].
    destruct (get_prop d "error") as [e | x]; step_handler;
      [| left; split; reflexivity].
    destruct (truthy e) eqn:He; step_handler;
      [left; split; [exact He | reflexivity] | right; split; reflexivity].
  - unfold FullReport.generateReport, Api.getComprehensiveReport.
    destruct o as [d | r]; step_handler; [| left; split; reflexivity].
    destruct (get_prop d "error") as [e | x] eqn:Herr; step_handler;
      [| left; split; reflexivity].
    destruct (truthy e) eqn:He; step_handler;
      [left; split; [exact He | reflexivity] |].
    assert (Hread : forall name, exists v, get_prop d name = Normal v).
    { intros name. destruct d; cbn in Herr |- *; try discriminate; eauto. }
    repeat match goal with
           | |- context [get_prop d ?n] =>
               let v := fresh "v" in
               destruct (Hread n) as (v & ->); step_handler
           end.
    right. split; [reflexivity | eexists; reflexivity].
Qed.



(** In the distribution and time-series views a new fetch clears the old
    error at once and keeps the old data while it waits; and if the answer
    is an error, the old data are still there, so the old chart is drawn
    under the new alert (in the element [render] lists, which is on screen
    when the column menu can be built). *)
Theorem refetch_keeps_old_chart
        (result err : JsVal) (rest : list Outcome) :
  get_prop result "error" = Normal err ->
  truthy err = true ->
  (forall p column s,
      DistributionAnalysis.error
        (final (run (DistributionAnalysis.fetchDistributionData p column)
                    [] s)) = JNull
      /\ DistributionAnalysis.data
           (final (run (DistributionAnalysis.fetchDistributionData p column)
                       [] s)) = DistributionAnalysis.data s
      /\ (truthy (DistributionAnalysis.data s) = true ->
          In (Alert SevError err)
             (DistributionAnalysis.render p
                (final (run (DistributionAnalysis.fetchDistributionData
                               p column)
                            (Resolved result :: rest) s)))
          /\ In (DataPanel (DistributionAnalysis.data s))
                (DistributionAnalysis.render p
                   (final (run (DistributionAnalysis.fetchDistributionData
                                  p column)
                               (Resolved result :: rest) s)))))
  /\ (forall p l s,
         TimeSeriesAnalysis.error
           (final (run (TimeSeriesAnalysis.fetchTimeSeriesData p l) [] s))
         = JNull
         /\ TimeSeriesAnalysis.data
              (final (run (TimeSeriesAnalysis.fetchTimeSeriesData p l) [] s))
            = TimeSeriesAnalysis.data s
         /\ TimeSeriesAnalysis.data
              (final (run (TimeSeriesAnalysis.fetchTimeSeriesData p l)
                          (Resolved result :: rest) s))
            = TimeSeriesAnalysis.data s).
Proof.
  intros Herr Ht. split.
  - intros p column s. split; [reflexivity | split; [reflexivity |]].
    intros Hdata.
    rewrite (Distribution_error_run result err rest Herr Ht).
    cbn [final snd st]. unfold DistributionAnalysis.render. cbn.
    rewrite Ht, Hdata. cbn. auto 10.
  - intros p l s. repeat split.
    unfold TimeSeriesAnalysis.fetchTimeSeriesData, Api.getTimeSeriesData.
    answer Herr Ht. reflexivity.
Qed.

Lemma refetch_keeps_old_chart_witness :
  In (DataPanel (JObj [("column", JStr "price")]))
     (DistributionAnalysis.render
        (DistributionAnalysis.mkProps (JStr "abc") (JArr [JStr "price"]))
        (final (run (DistributionAnalysis.fetchDistributionData
                       (DistributionAnalysis.mkProps (JStr "abc")
                                                     (JArr [JStr "price"]))
                       (JStr "qty"))
                    [Resolved (JObj [("error", JStr "Column not found")])]
                    (DistributionAnalysis.mkSt
                       (JStr "qty") (JObj [("column", JStr "price")])
                       false JNull)))).
Proof.
  destruct (refetch_keeps_old_chart
              (JObj [("error", JStr "Column not found")])
              (JStr "Column not found") [] eq_refl eq_refl)
    as (H & _).
  destruct (H (DistributionAnalysis.mkProps (JStr "abc")
                                            (JArr [JStr "price"]))
              (JStr "qty")
              (DistributionAnalysis.mkSt
                 (JStr "qty") (JObj [("column", JStr "price")])
                 false JNull))
    as (_ & _ & Hboth).
  exact (proj2 (Hboth eq_refl)).
Defined.

End AfterFetch.

(** ** The chat *)

Section Chat.

Import ChatBot ChatKeys.

Lemma trim_start_blank (s : string) : blank s = true -> trim_start s = "".
Proof.
  induction s as [| c rest IH]; cbn; [reflexivity |].
  destruct (is_space c); cbn; [exact IH | discriminate].
Qed.

Lemma trim_blank (s : string) : blank s = true -> trim s = "".
Proof.
  intros H. unfold trim. now rewrite (trim_start_blank s H).
Qed.

Lemma trim_start_nonblank (s : string) :
  blank s = false ->
  exists c rest, trim_start s = String c rest /\ is_space c = false.
Proof.
  induction s as [| c rest IH]; cbn; [discriminate |].
  destruct (is_space c) eqn:Hc; cbn; [exact IH | eauto].
Qed.

Lemma trim_nonblank (s : string) : blank s = false -> trim s <> "".
Proof.
  intros H. unfold trim.
  destruct (trim_start_nonblank s H) as (c & rest & -> & Hc).
  cbn. rewrite Hc. cbn. discriminate.
Qed.

Lemma handleSendMessage_asks (sid : JsVal) (l : St) :
  asks (handleSendMessage sid l)
       (if blank (input l) || loading l then []
        else [mkRequest "/api/chat/message"
                        (JObj [("session_id", sid);
                               ("message", JStr (trim (input l)));
                               ("api_key", JNull)])]).
Proof.
  unfold handleSendMessage. cbn [truthy].
  destruct (blank (input l)) eqn:Hb; cbn [orb].
  - rewrite (trim_blank _ Hb). cbn. apply asks_ret.
  - destruct (String.eqb_spec (trim (input l)) "") as [He | _];
      [now apply trim_nonblank in Hb |].
    cbn [negb orb]. destruct (loading l); [apply asks_ret |].
    unfold Api.sendChatMessage. one_request.
Qed.

(** A message goes to the backend exactly when the input is not blank and
    no earlier message is waiting for its answer; otherwise pressing send
    changes nothing.  A key press sends only when it is Enter without
    Shift, and then it does what the send button does. *)
Theorem chat_sends_when_it_should
        (sid : JsVal) (l s : St) (rs : list Outcome)
        (key : string) (shiftKey : bool) :
  requests (run (handleSendMessage sid l) rs s)
  = (if blank (input l) || loading l then []
     else [mkRequest "/api/chat/message"
                     (JObj [("session_id", sid);
                            ("message", JStr (trim (input l)));
                            ("api_key", JNull)])])
  /\ (blank (input l) || loading l = true ->
      run (handleSendMessage sid l) rs s = (Done tt, mkWorld s rs []))
  /\ run (handleKeyPress sid l key shiftKey) rs s
     = (if String.eqb key "Enter" && negb shiftKey
        then run (handleSendMessage sid l) rs s
        else (Done tt, mkWorld s rs [])).
Proof.
  split; [apply asks_run, handleSendMessage_asks |]. split.
  - intros H. unfold handleSendMessage. cbn [truthy].
    destruct (blank (input l)) eqn:Hb.
    + rewrite (trim_blank _ Hb). reflexivity.
    + cbn [orb] in H. rewrite H, orb_true_r. reflexivity.
  - unfold handleKeyPress.
    destruct (String.eqb key "Enter" && negb shiftKey); reflexivity.
Qed.

(** A send that goes out puts the trimmed text into the conversation and
    empties the input at once; when the answer is there, whatever it is,
    exactly one assistant message follows, the spinner is off, and the
    input is still empty.  On a body with a falsy [error] the assistant
    message is its [response]. *)
Theorem answered_send_appends_two (sid : JsVal) (l : St) :
  blank (input l) = false ->
  loading l = false ->
  (messages (final (run (handleSendMessage sid l) [] l))
   = (messages l ++ [mkMessage "user" (JStr (trim (input l)))])%list
   /\ input (final (run (handleSendMessage sid l) [] l)) = "")
  /\ (forall o rest,
         exists reply,
           messages (final (run (handleSendMessage sid l) (o :: rest) l))
           = (messages l
              ++ [mkMessage "user" (JStr (trim (input l)));
                  mkMessage "assistant" reply])%list
           /\ input (final (run (handleSendMessage sid l) (o :: rest) l))
              = ""
           /\ loading (final (run (handleSendMessage sid l) (o :: rest) l))
              = false
           /\ status (run (handleSendMessage sid l) (o :: rest) l) = Done tt)
  /\ (forall d err rest,
         get_prop d "error" = Normal err -> truthy err = false ->
         exists response,
           get_prop d "response" = Normal response
           /\ messages
                (final (run (handleSendMessage sid l) (Resolved d :: rest) l))
              = (messages l
                 ++ [mkMessage "user" (JStr (trim (input l)));
                     mkMessage "assistant" response])%list
           /\ error
                (final (run (handleSendMessage sid l) (Resolved d :: rest) l))
              = JNull).
Proof.
  intros Hb Hl.
  assert (Hne : String.eqb (trim (input l)) "" = false).
  { destruct (String.eqb_spec (trim (input l)) "") as [He | _];
      [now apply trim_nonblank in Hb | reflexivity]. }
  split; [| split].
  - unfold handleSendMessage, Api.sendChatMessage.
    rewrite Hl. cbn [truthy]. rewrite Hne. cbn [negb orb].
    step_handler. split; reflexivity.
  - intros o rest. unfold handleSendMessage, Api.sendChatMessage.
    rewrite Hl. cbn [truthy]. rewrite Hne. cbn [negb orb].
    destruct o as [d | r]; by_outcome;
      eexists; (split; [| repeat split]);
      unfold setLoading, setMessages, setError, setInput, append;
      cbn [messages input loading error];
      rewrite <- app_assoc; reflexivity.
  - intros d err rest Herr Hf.
    assert (exists response, get_prop d "response" = Normal response)
      as (response & Hresp).
    { destruct d; cbn in Herr |- *; try discriminate; eauto. }
    exists response. split; [exact Hresp |].
    unfold handleSendMessage, Api.sendChatMessage.
    rewrite Hl. cbn [truthy]. rewrite Hne. cbn [negb orb].
    answer Herr Hf. rewrite Hresp. step_handler.
    unfold setLoading, setMessages, setError, setInput, append.
    cbn [messages input loading error].
    rewrite <- app_assoc. split; reflexivity.
Qed.

Lemma answered_send_appends_two_witness :
  messages
    (final (run (handleSendMessage (JStr "abc")
                   (mkSt [] " mean of price? " false JNull))
                [] (mkSt [] " mean of price? " false JNull)))
  = [mkMessage "user" (JStr "mean of price?")].
Proof.
  destruct (answered_send_appends_two
              (JStr "abc") (mkSt [] " mean of price? " false JNull)
              eq_refl eq_refl)
    as ((H & _) & _).
  exact H.
Defined.

End Chat.

(** ** The number fields of the upload form *)

Section NumberFields.

Import Builtins DataUpload UploadForm.

Lemma scan_acc (d : Decimal.uint) :
  forall (p : positive) (tail : string),
    scan 10 decimal_digit (NilEmpty.string_of_uint d ++ tail) (Z.pos p)
    = scan 10 decimal_digit tail (Z.pos (Pos.of_uint_acc d p)).
Proof.
  induction d; intros p tail;
    cbn [NilEmpty.string_of_uint append scan Pos.of_uint_acc];
    try reflexivity;
    match goal with
    | |- context [decimal_digit ?c] =>
        let v := eval cbv in (decimal_digit c) in
        change (decimal_digit c) with v; cbv beta iota
    end.
  all: rewrite <- IHd; f_equal; lia.
Qed.

Lemma scan_zero (d : Decimal.uint) :
  forall tail,
    scan 10 decimal_digit (NilEmpty.string_of_uint d ++ tail) 0
    = scan 10 decimal_digit tail (Z.of_N (Pos.of_uint d)).
Proof.
  induction d; intros tail;
    cbn [NilEmpty.string_of_uint append scan Pos.of_uint];
    try reflexivity;
    match goal with
    | |- context [decimal_digit ?c] =>
        let v := eval cbv in (decimal_digit c) in
        change (decimal_digit c) with v; cbv beta iota
    end.
  all: simpl (10 * 0 + _)%Z;
    first [apply IHd | rewrite scan_acc; reflexivity].
Qed.

Lemma scan_stops (tail : string) (acc : Z) :
  stops tail = true -> scan 10 decimal_digit tail acc = acc.
Proof.
  destruct tail as [| c t]; cbn; [reflexivity |].
  destruct (decimal_digit c); [discriminate | reflexivity].
Qed.

Lemma parse_uint (d : Decimal.uint) (tail : string) :
  d <> Decimal.Nil -> stops tail = true ->
  parseInt (NilEmpty.string_of_uint d ++ tail)
  = Some (Z.of_N (Pos.of_uint d)).
Proof.
  intros Hd Hstop.
  assert (Hdig : digits 10 decimal_digit
                        (NilEmpty.string_of_uint d ++ tail)
                 = Some (Z.of_N (Pos.of_uint d))).
  { rewrite <- (scan_stops tail (Z.of_N (Pos.of_uint d)) Hstop),
      <- scan_zero.
    destruct d; try contradiction; reflexivity. }
  rewrite <- Hdig. unfold parseInt.
  destruct d as [| d' | d' | d' | d' | d' | d' | d' | d' | d' | d'];
    try contradiction; try reflexivity.
  destruct d'; try reflexivity.
  destruct tail as [| c t]; [reflexivity |].
  cbn in Hstop |- *.
  destruct (decimal_digit c) eqn:Hc; [discriminate |].
  destruct (Ascii.eqb_spec c "x"); [discriminate |].
  destruct (Ascii.eqb_spec c "X"); [discriminate |].
  destruct c as [[] [] [] [] [] [] [] []];
    try reflexivity; try congruence; cbv in Hc; discriminate.
Qed.

Lemma parseInt_minus (c : ascii) (rest : string) (v : Z) :
  decimal_digit c = Some v ->
  parseInt (String "-" (String c rest))
  = option_map Z.opp (parseInt (String c rest)).
Proof.
  intros Hc.
  destruct c as [[] [] [] [] [] [] [] []];
    try (cbv in Hc; discriminate); reflexivity.
Qed.

Lemma parseInt_numeral (n : Z) (tail : string) :
  stops tail = true -> parseInt (numeral n ++ tail) = Some n.
Proof.
  intros Hstop. unfold numeral. cbn [to_string].
  assert (Hpos : forall p,
             parseInt (NilZero.string_of_uint (Pos.to_uint p) ++ tail)
             = Some (Z.pos p)
             /\ exists c rest v,
                 (NilZero.string_of_uint (Pos.to_uint p) ++ tail)%string
                 = String c rest
                 /\ decimal_digit c = Some v).
  { intros p. unfold NilZero.string_of_uint.
    pose proof (DecimalPos.Unsigned.to_uint_nonnil p) as Hnil.
    pose proof (parse_uint _ tail Hnil Hstop) as Hparse.
    rewrite DecimalPos.Unsigned.of_to in Hparse.
    destruct (Pos.to_uint p); try contradiction;
      (split; [exact Hparse | do 3 eexists; split; reflexivity]). }
  destruct n as [| p | p]; cbn [Z.to_int NilZero.string_of_int].
  - exact (parse_uint (Decimal.D0 Decimal.Nil) tail
                      ltac:(discriminate) Hstop).
  - apply Hpos.
  - destruct (Hpos p) as (Hparse & c & rest & v & Heq & Hc).
    cbn [append]. rewrite Heq in *.
    rewrite (parseInt_minus c rest v Hc), Hparse. reflexivity.
Qed.

Lemma parseInt_blank (text : string) :
  ChatKeys.blank text = true -> parseInt text = None.
Proof.
  intros H. unfold parseInt. now rewrite (trim_start_blank text H).
Qed.

(** Typing the numeral of an integer into one of the two number fields
    stores that integer if it is not negative and zero if it is, also when
    a fraction or other text follows the digits; an empty or blank field
    stores zero. *)
Theorem typed_number_is_clamped (n : Z) (tail : string) (s : St) :
  (Z.abs n <= 9007199254740991)%Z ->
  stops tail = true ->
  skipRows (onSkipRowsChange (numeral n ++ tail) s) = Z.max 0 n
  /\ headerRow (onHeaderRowChange (numeral n ++ tail) s) = Z.max 0 n
  /\ (forall text,
         ChatKeys.blank text = true ->
         skipRows (onSkipRowsChange text s) = 0%Z
         /\ headerRow (onHeaderRowChange text s) = 0%Z).
Proof.
  intros _ Hstop.
  unfold onSkipRowsChange, onHeaderRowChange.
  cbn [skipRows headerRow setSkipRows setHeaderRow].
  rewrite (parseInt_numeral n tail Hstop). cbn [or_zero].
  repeat split; intros; rewrite (parseInt_blank text); auto.
Qed.

Lemma typed_number_is_clamped_witness :
  skipRows (onSkipRowsChange "3.7" init) = 3%Z.
Proof.
  exact (proj1 (typed_number_is_clamped 3 ".7" init
                  ltac:(vm_compute; discriminate) eq_refl)).
Defined.

End NumberFields.

(** ** Selecting and going back *)

Section RoundTrip.

Import App UI.

(** From the menu, as the user can reach it, selecting any option and then
    going back gives exactly the state the menu was in. *)
Theorem select_then_back_is_identity (s : State) (id : string) :
  reachable s ->
  showsMenu s ->
  In id AnalysisMenu.analysisOptions ->
  fire Back (handleAnalysisSelect (JStr id) s) = Normal s.
Proof.
  intros Hs Hmenu _.
  destruct (reachable_wired s Hs) as [_ Hca].
  apply showsMenu_session in Hmenu. destruct Hmenu as (_ & Hfalsy).
  destruct Hca as [Hnull | (_ & id' & Hid' & Hca)].
  - destruct s as [sid info ca]. cbn in Hnull |- *. now subst.
  - rewrite Hca, (option_id_truthy _ Hid') in Hfalsy. discriminate.
Qed.

Lemma select_then_back_is_identity_witness :
  fire Back
       (handleAnalysisSelect (JStr "correlation")
          (mkState (JStr "abc") Scenario.sampleDescriptor JNull))
  = Normal (mkState (JStr "abc") Scenario.sampleDescriptor JNull).
Proof.
  apply (select_then_back_is_identity
           (mkState (JStr "abc") Scenario.sampleDescriptor JNull)
           "correlation").
  - apply (reach_fire initial (DataLoaded Scenario.sampleDescriptor));
      [exact reach_start | | reflexivity].
    split; [reflexivity |]. exists JUndefined. split; reflexivity.
  - reflexivity.
  - cbn. tauto.
Defined.

End RoundTrip.

(** ** Failed requests in the views, and a view with nothing to show *)

Section ViewFailures.

Import Scenario Discipline.

Variables (sid : JsVal) (o : Outcome) (msg : string) (rest : list Outcome).
Hypothesis Hfail : failed_with o msg.

Ltac fail_run :=
  destruct Hfail as [-> | (d & e & -> & Herr & ->)];
  [ step_handler; reflexivity
  | step_handler; rewrite Herr; step_handler; reflexivity ].

Lemma BasicStats_failed_run (s : BasicStats.St) :
  run (BasicStats.fetchStats sid) (o :: rest) s
  = (Done tt,
     mkWorld (BasicStats.setLoading false
                (BasicStats.setError
                   (JStr ("Error fetching basic statistics: " ++ msg)) s))
             rest
             [mkRequest "/api/analysis/basic-stats"
                        (JObj [("session_id", sid)])]).
Proof.
  unfold BasicStats.fetchStats, Api.getBasicStats. fail_run.
Qed.

Lemma Correlation_failed_run (s : CorrelationAnalysis.St) :
  run (CorrelationAnalysis.fetchCorrelationData sid) (o :: rest) s
  = (Done tt,
     mkWorld (CorrelationAnalysis.setLoading false
                (CorrelationAnalysis.setError
                   (JStr ("Error fetching correlation data: " ++ msg)) s))
             rest
             [mkRequest "/api/analysis/correlation"
                        (JObj [("session_id", sid)])]).
Proof.
  unfold CorrelationAnalysis.fetchCorrelationData,
    Api.getCorrelationAnalysis.
  fail_run.
Qed.

Lemma MissingValues_failed_run (s : MissingValuesAnalysis.St) :
  run (MissingValuesAnalysis.fetchMissingValuesData sid) (o :: rest) s
  = (Done tt,
     mkWorld (MissingValuesAnalysis.setLoading false
                (MissingValuesAnalysis.setError
                   (JStr ("Error fetching missing values data: " ++ msg)) s))
             rest
             [mkRequest "/api/analysis/missing-values"
                        (JObj [("session_id", sid)])]).
Proof.
  unfold MissingValuesAnalysis.fetchMissingValuesData,
    Api.getMissingValuesAnalysis.
  fail_run.
Qed.

Lemma HandleMissing_failed_run (l : MissingValuesAnalysis.St) :
  truthy (MissingValuesAnalysis.handlingMethod l) = true ->
  applyMethod sid l (o :: rest)
  = (Done tt,
     mkWorld (MissingValuesAnalysis.setProcessing false
                (MissingValuesAnalysis.setError
                   (JStr ("Error handling missing values: " ++ msg))
                   (MissingValuesAnalysis.setProcessing true l)))
             rest
             [mkRequest "/api/analysis/handle-missing"
                        (JObj [("session_id", sid);
                               ("method",
                                 MissingValuesAnalysis.handlingMethod l)])]).
Proof.
  intros Hm.
  unfold applyMethod, MissingValuesAnalysis.handleMissingValuesAction,
    Api.handleMissingValues.
  rewrite Hm. cbn [negb]. fail_run.
Qed.

Lemma Distribution_failed_run
      (p : DistributionAnalysis.Props) (column : JsVal)
      (s : DistributionAnalysis.St) :
  run (DistributionAnalysis.fetchDistributionData p column) (o :: rest) s
  = (Done tt,
     mkWorld (DistributionAnalysis.setLoading false
                (DistributionAnalysis.setError
                   (JStr ("Error fetching distribution data: " ++ msg))
                   (DistributionAnalysis.setError JNull
                      (DistributionAnalysis.setLoading true s))))
             rest
             [mkRequest "/api/analysis/distribution"
                        (JObj [("session_id",
                                 DistributionAnalysis.sessionId p);
                               ("column", column)])]).
Proof.
  unfold DistributionAnalysis.fetchDistributionData,
    Api.getDistributionAnalysis.
  fail_run.
Qed.

Lemma TimeSeries_failed_run
      (p : TimeSeriesAnalysis.Props) (l : TimeSeriesAnalysis.St) :
  run (TimeSeriesAnalysis.fetchTimeSeriesData p l) (o :: rest) l
  = (Done tt,
     mkWorld (TimeSeriesAnalysis.setLoading false
                (TimeSeriesAnalysis.setError
                   (JStr ("Error fetching time series data: " ++ msg))
                   (TimeSeriesAnalysis.setError JNull
                      (TimeSeriesAnalysis.setLoading true l))))
             rest
             [mkRequest "/api/analysis/time-series"
                        (JObj [("session_id",
                                 TimeSeriesAnalysis.sessionId p);
                               ("time_column",
                                 TimeSeriesAnalysis.timeColumn l);
                               ("value_columns",
                                 TimeSeriesAnalysis.selectedColumns l)])]).
Proof.
  unfold TimeSeriesAnalysis.fetchTimeSeriesData, Api.getTimeSeriesData.
  fail_run.
Qed.

Lemma FullReport_failed_run (s : FullReport.St) :
  run (FullReport.generateReport sid) (o :: rest) s
  = (Done tt,
     mkWorld (FullReport.setLoading false
                (FullReport.setError
                   (JStr ("Error generating report: " ++ msg))
                   (FullReport.setError JNull
                      (FullReport.setLoading true s))))
             rest
             [mkRequest "/api/analysis/comprehensive-report"
                        (JObj [("session_id", sid)])]).
Proof.
  unfold FullReport.generateReport, Api.getComprehensiveReport. fail_run.
Qed.

End ViewFailures.

Section ViewFailureClaims.

Import Scenario Discipline.

(** When a view's request is rejected, or its body is [null] or
    [undefined], the view catches the failure: its handler returns, the
    message is stored and shown behind the view's own prefix, the data are
    as they were, and no second request is sent.  After a failed apply in
    the missing-values view the method stays selected.  What is shown is
    read off the element [render] lists, which is what is on screen
    whenever the view draws its state ([screen_shows_render]). *)
Theorem failed_fetch_is_reported
        (sid : JsVal) (o : Outcome) (msg : string) (rest : list Outcome) :
  failed_with o msg ->
  (forall s,
      surfaced (run (BasicStats.fetchStats sid) (o :: rest) s)
               BasicStats.error (fun x => Normal (BasicStats.render x))
               (JStr ("Error fetching basic statistics: " ++ msg))
               "/api/analysis/basic-stats" rest
      /\ BasicStats.data
           (final (run (BasicStats.fetchStats sid) (o :: rest) s))
         = BasicStats.data s)
  /\ (forall p column s,
         surfaced (run (DistributionAnalysis.fetchDistributionData p column)
                       (o :: rest) s)
                  DistributionAnalysis.error
                  (fun x => Normal (DistributionAnalysis.render p x))
                  (JStr ("Error fetching distribution data: " ++ msg))
                  "/api/analysis/distribution" rest
         /\ DistributionAnalysis.data
              (final (run (DistributionAnalysis.fetchDistributionData
                             p column)
                          (o :: rest) s))
            = DistributionAnalysis.data s)
  /\ (forall s,
         surfaced (run (MissingValuesAnalysis.fetchMissingValuesData sid)
                       (o :: rest) s)
                  MissingValuesAnalysis.error
                  (fun x => Normal (MissingValuesAnalysis.render x))
                  (JStr ("Error fetching missing values data: " ++ msg))
                  "/api/analysis/missing-values" rest
         /\ MissingValuesAnalysis.data
              (final (run (MissingValuesAnalysis.fetchMissingValuesData sid)
                          (o :: rest) s))
            = MissingValuesAnalysis.data s)
  /\ (forall l,
         truthy (MissingValuesAnalysis.handlingMethod l) = true ->
         MissingValuesAnalysis.loading l = false ->
         surfaced (applyMethod sid l (o :: rest))
                  MissingValuesAnalysis.error
                  (fun x => Normal (MissingValuesAnalysis.render x))
                  (JStr ("Error handling missing values: " ++ msg))
                  "/api/analysis/handle-missing" rest
         /\ MissingValuesAnalysis.handlingMethod
              (final (applyMethod sid l (o :: rest)))
            = MissingValuesAnalysis.handlingMethod l
         /\ MissingValuesAnalysis.data
              (final (applyMethod sid l (o :: rest)))
            = MissingValuesAnalysis.data l)
  /\ (forall p l c cols,
         TimeSeriesAnalysis.datetimeColumns p = JArr (c :: cols) ->
         surfaced (run (TimeSeriesAnalysis.fetchTimeSeriesData p l)
                       (o :: rest) l)
                  TimeSeriesAnalysis.error
                  (TimeSeriesAnalysis.render p)
                  (JStr ("Error fetching time series data: " ++ msg))
                  "/api/analysis/time-series" rest
         /\ TimeSeriesAnalysis.data
              (final (run (TimeSeriesAnalysis.fetchTimeSeriesData p l)
                          (o :: rest) l))
            = TimeSeriesAnalysis.data l)
  /\ (forall s,
         surfaced (run (CorrelationAnalysis.fetchCorrelationData sid)
                       (o :: rest) s)
                  CorrelationAnalysis.error
                  (fun x => Normal (CorrelationAnalysis.render x))
                  (JStr ("Error fetching correlation data: " ++ msg))
                  "/api/analysis/correlation" rest
         /\ CorrelationAnalysis.data
              (final (run (CorrelationAnalysis.fetchCorrelationData sid)
                          (o :: rest) s))
            = CorrelationAnalysis.data s)
  /\ (forall s,
         surfaced (run (FullReport.generateReport sid) (o :: rest) s)
                  FullReport.error (fun x => Normal (FullReport.render x))
                  (JStr ("Error generating report: " ++ msg))
                  "/api/analysis/comprehensive-report" rest
         /\ FullReport.reportData
              (final (run (FullReport.generateReport sid) (o :: rest) s))
            = FullReport.reportData s).
Proof.
  intros Hfail.
  repeat match goal with |- _ /\ _ => split end.
  - intros s. rewrite (BasicStats_failed_run sid o msg rest Hfail).
    split; [| reflexivity].
    unfold surfaced.
    cbn [final status requests fst snd st issued responses map url].
    repeat split. eexists; split; [reflexivity |]. cbn. auto.
  - intros p column s. rewrite (Distribution_failed_run o msg rest Hfail).
    split; [| reflexivity].
    unfold surfaced.
    cbn [final status requests fst snd st issued responses map url].
    repeat split. eexists; split; [reflexivity |]. cbn. auto.
  - intros s. rewrite (MissingValues_failed_run sid o msg rest Hfail).
    split; [| reflexivity].
    unfold surfaced.
    cbn [final status requests fst snd st issued responses map url].
    repeat split. eexists; split; [reflexivity |]. cbn. auto.
  - intros l Hm Hl.
    rewrite (HandleMissing_failed_run sid o msg rest Hfail l Hm).
    split; [| split; reflexivity].
    unfold surfaced.
    cbn [final status requests fst snd st issued responses map url].
    repeat split. eexists; split; [reflexivity |].
    unfold MissingValuesAnalysis.render. cbn. rewrite Hl. cbn. auto.
  - intros p l c cols Hcols.
    rewrite (TimeSeries_failed_run o msg rest Hfail).
    split; [| reflexivity].
    unfold surfaced.
    cbn [final status requests fst snd st issued responses map url].
    repeat split.
    unfold TimeSeriesAnalysis.render. rewrite Hcols.
    eexists; split; [reflexivity |].
    cbn. destruct (TimeSeriesAnalysis.loading l); cbn; auto.
  - intros s. rewrite (Correlation_failed_run sid o msg rest Hfail).
    split; [| reflexivity].
    unfold surfaced.
    cbn [final status requests fst snd st issued responses map url].
    repeat split. eexists; split; [reflexivity |]. cbn. auto.
  - intros s. rewrite (FullReport_failed_run sid o msg rest Hfail).
    split; [| reflexivity].
    unfold surfaced.
    cbn [final status requests fst snd st issued responses map url].
    repeat split. eexists; split; [reflexivity |]. cbn. auto.
Qed.

Lemma failed_fetch_is_reported_witness :
  BasicStats.error
    (final (run (BasicStats.fetchStats (JStr "abc"))
                [Rejected "Network Error"] BasicStats.init))
  = JStr "Error fetching basic statistics: Network Error".
Proof.
  destruct (failed_fetch_is_reported
              (JStr "abc") (Rejected "Network Error") "Network Error" []
              (or_introl eq_refl))
    as (H & _).
  destruct (H BasicStats.init) as ((_ & Herror & _) & _).
  exact Herror.
Defined.

(** With no numeric column, or a falsy first one, the distribution view
    mounts to its bare frame: no request is sent and the screen holds
    neither spinner, alert nor data -- and no warning either. *)
Theorem distribution_without_columns_is_bare
        (sid : JsVal) (cols : list JsVal) (rs : list Outcome) :
  truthy (nth 0 cols JUndefined) = false ->
  Mount.mount (Some (App.DistributionAnalysis sid (JArr cols))) rs
  = Normal ([BackButton; Heading "Distribution Analysis"; Controls], []).
Proof.
  intros Hcol.
  unfold Mount.mount, DistributionAnalysis.init.
  cbn [cbind index0 DistributionAnalysis.numericColumns].
  rewrite Distribution_screen_list. cbn [cbind].
  unfold DistributionAnalysis.onEffect, js_or. rewrite Hcol.
  reflexivity.
Qed.

Lemma distribution_without_columns_is_bare_witness :
  Mount.mount (Some (App.DistributionAnalysis (JStr "abc") (JArr [])))
              [Resolved (JObj [])]
  = Normal ([BackButton; Heading "Distribution Analysis"; Controls], []).
Proof.
  exact (distribution_without_columns_is_bare
           (JStr "abc") [] [Resolved (JObj [])] eq_refl).
Defined.

End ViewFailureClaims.

(** ** The ratings of the report and of the tables *)

Section RatingFacts.

Import QArith Qabs Lqa Ratings.

Lemma gt_spec (a b : Q) : reflect (b < a)%Q (gt a b).
Proof.
  unfold gt. destruct (Qle_bool a b) eqn:E; constructor.
  - apply Qle_bool_iff in E. lra.
  - apply Qnot_le_lt. intros H. apply Qle_bool_iff in H. congruence.
Qed.

Lemma eq0_spec (a : Q) : reflect (a == 0)%Q (Qeq_bool a 0).
Proof.
  destruct (Qeq_bool a 0) eqn:E; constructor.
  - now apply Qeq_bool_iff.
  - intros H. apply Qeq_bool_iff in H. congruence.
Qed.

Ltac rate :=
  unfold ratedStrong, strongCount in *;
  unfold getQualityStatus, getStrength, emphasised, flagged,
    lt, d08, d06, d04, d07 in *;
  repeat match goal with
         | |- context [Qeq_bool ?a 0] => destruct (eq0_spec a)
         | |- context [gt ?a ?b] => destruct (gt_spec a b)
         | H : context [Qeq_bool ?a 0] |- _ => destruct (eq0_spec a)
         | H : context [gt ?a ?b] |- _ => destruct (gt_spec a b)
         end.

(** Among percentages that are not negative, a larger one never gets a
    better quality chip in the report. *)
Theorem quality_never_improves_with_more_missing (p q : Q) :
  (0 <= p)%Q -> (p <= q)%Q ->
  (qualityRank (getQualityStatus p) <= qualityRank (getQualityStatus q))%nat.
Proof.
  intros H0 H. rate; cbn; try lia; lra.
Qed.

Lemma quality_never_improves_with_more_missing_witness :
  (qualityRank (getQualityStatus (5 # 1))
   <= qualityRank (getQualityStatus (30 # 1)))%nat.
Proof.
  apply (quality_never_improves_with_more_missing (5 # 1) (30 # 1));
    discriminate.
Defined.

(** The report rates a column Poor, in the error colour, exactly when the
    missing-values table prints its percentage in bold red, or the
    percentage is exactly 30: there the two disagree. *)
Theorem report_and_table_disagree_at_30_only (pct : Q) :
  color (getQualityStatus pct) = "error"
  <-> flagged pct = true \/ (pct == 30)%Q.
Proof.
  rate; cbn; split; intros H; try discriminate; auto;
    try (destruct H as [H | H]; try discriminate; lra).
  right. lra.
Qed.

Example seven_strong_correlations :
  strongCount (repeat 1%Q 7) = 7%nat
  /\ List.length (topFive (repeat 1%Q 7)) = 5%nat.
Proof. split; reflexivity. Qed.

Lemma filter_length_le {A} (f g : A -> bool) (l : list A) :
  (forall x, f x = true -> g x = true) ->
  (List.length (filter f l) <= List.length (filter g l))%nat.
Proof.
  intros Hfg. induction l as [| x l IH]; cbn; [lia |].
  destruct (f x) eqn:Hf.
  - rewrite (Hfg x Hf). cbn. lia.
  - destruct (g x); cbn; lia.
Qed.

(** The strength chip does not depend on the sign of the correlation.
    Every correlation printed in bold red has a chip that reads Strong or
    Very Strong, and every Very Strong one is printed in bold red.  The
    report rates the first five correlations only, while its summary
    counts the strong ones of the whole list: the count is at least the
    number of rows in bold red, which is at most the number of rows rated
    Strong or Very Strong; and when every correlation is strong the count
    is the length of the list, of which at most five have a row. *)
Theorem emphasis_and_strength_agree (value : Q) (correlations : list Q) :
  getStrength (- value) = getStrength value
  /\ (emphasised value = true -> ratedStrong value = true)
  /\ (label (getStrength value) = "Very Strong" -> emphasised value = true)
  /\ (List.length (filter emphasised (topFive correlations))
      <= List.length (filter ratedStrong (topFive correlations)))%nat
  /\ (List.length (filter emphasised (topFive correlations))
      <= strongCount correlations)%nat
  /\ (Forall (fun c => emphasised c = true) correlations ->
      strongCount correlations = List.length correlations
      /\ List.length (topFive correlations)
         = Nat.min 5 (List.length correlations)).
Proof.
  assert (Hstrong : forall v, emphasised v = true -> ratedStrong v = true).
  { intros v H. rate; cbn; auto; try discriminate; lra. }
  split; [| split; [apply Hstrong | split; [| split; [| split]]]].
  - unfold getStrength. cbv zeta.
    assert (Habs : forall t, gt (Qabs (- value)) t = gt (Qabs value) t).
    { intro t.
      destruct (gt_spec (Qabs (- value)) t), (gt_spec (Qabs value) t);
        auto; rewrite Qabs_opp in *; lra. }
    now rewrite !Habs.
  - intros H. rate; cbn in *; auto; try discriminate; lra.
  - apply filter_length_le, Hstrong.
  - unfold strongCount, topFive.
    rewrite <- (firstn_skipn 5 correlations) at 2.
    rewrite filter_app, length_app. apply Nat.le_add_r.
  - intros Hall. unfold strongCount, topFive. split.
    + induction Hall as [| c cs Hc _ IH]; [reflexivity |].
      cbn [filter]. rewrite Hc. cbn [List.length]. now rewrite IH.
    + apply length_firstn.
Qed.

End RatingFacts.
